(** * amazon-mcp-local: the session relay, the credential store and the
      cart driver, embedded from the TypeScript sources.

    - [Js]: the JavaScript values and control effects the sources rely on
      (JSON documents, truthiness, property access, exceptions).
    - [SessionManager]: src/session-manager.ts ([saveAmazonSession],
      [restoreAmazonSession]).
    - [Amazon]: src/amazon.ts ([addToCart]).
    - [Server]: src/server.ts, current revision ([authenticate], the SSE
      endpoint, the /message handler).
    - [Legacy]: the two places where the earlier revision of src/server.ts
      differed.
    - [EventStream]: how a reader labels the chunks of an event stream.
    - [Sample]: concrete environments for the closed examples.
    The properties follow, one module per source file.

    JavaScript numbers are modelled by exact rationals: every number the
    sources compare or add (clock readings, cookie expiries, quantities,
    JSON-RPC ids) is a finite decimal. *)

From Stdlib Require Import String Ascii List Bool Arith ZArith QArith Lia.
Import ListNotations.

Set Implicit Arguments.
Set Warnings "-register-all".


(* ===================================================================== *)
(** ** JavaScript values and effects *)
(* ===================================================================== *)

Module Js.

Open Scope string_scope.

(** What a [throw] carries, as far as the sources inspect it:
    [error instanceof Error] and then [error.message], or [String(error)]. *)
Inductive thrown : Type :=
| ErrorObject (message : string)
| NonError (text : string).

(** [error instanceof Error ? error.message : String(error)] *)
Definition error_text (e : thrown) : string :=
  match e with
  | ErrorObject m => m
  | NonError s => s
  end.

(** The result of running an [async] body on a world [W]: it returns, or it
    throws; either way the effects performed so far stay in the world. *)
Inductive outcome (W A : Type) : Type :=
| Ok (a : A) (w : W)
| Raise (e : thrown) (w : W).

Arguments Ok {W A} a w.
Arguments Raise {W A} e w.

Definition M (W A : Type) : Type := W -> outcome W A.

Definition ret {W A} (a : A) : M W A := fun w => Ok a w.

Definition bind {W A B} (m : M W A) (k : A -> M W B) : M W B :=
  fun w =>
    match m w with
    | Ok a w' => k a w'
    | Raise e w' => Raise e w'
    end.

Definition throw {W A} (e : thrown) : M W A := fun w => Raise e w.

(** [try { m } catch (error) { h error }] *)
Definition try_catch {W A} (m : M W A) (h : thrown -> M W A) : M W A :=
  fun w =>
    match m w with
    | Ok a w' => Ok a w'
    | Raise e w' => h e w'
    end.

(** Run a computation of a component [V] of the world. *)
Definition lift {W V A} (get : W -> V) (set : V -> W -> W) (m : M V A) : M W A :=
  fun w =>
    match m (get w) with
    | Ok a v => Ok a (set v w)
    | Raise e v => Raise e (set v w)
    end.

Definition modify {W} (f : W -> W) : M W unit := fun w => Ok tt (f w).
Definition gets {W A} (f : W -> A) : M W A := fun w => Ok (f w) w.

Declare Scope js_scope.
Delimit Scope js_scope with js.
Notation "x <- m ;; k" := (bind m (fun x => k))
  (at level 61, m at next level, right associativity) : js_scope.
Notation "m ;; k" := (bind m (fun _ => k))
  (at level 61, right associativity) : js_scope.

(** JSON documents, as [JSON.parse] and [express.json()] deliver them and as
    object literals build them.  An object keeps its keys in order; a key
    absent from the list reads as [undefined], here [None]. *)
Inductive json : Type :=
| JNull
| JBool (b : bool)
| JNum (q : Q)
| JStr (s : string)
| JArr (items : list json)
| JObj (fields : list (string * json)).

(** [!!v] *)
Definition truthy (v : json) : bool :=
  match v with
  | JNull => false
  | JBool b => b
  | JNum q => negb (Qeq_bool q 0)
  | JStr s => negb (s =? EmptyString)
  | JArr _ => true
  | JObj _ => true
  end.

(** [!!v] for a value that may be [undefined] *)
Definition truthy_opt (v : option json) : bool :=
  match v with
  | None => false
  | Some x => truthy x
  end.

Fixpoint assoc (k : string) (kvs : list (string * json)) : option json :=
  match kvs with
  | [] => None
  | (k', v) :: rest => if k' =? k then Some v else assoc k rest
  end.

(** [v.k] for [v] neither [null] nor [undefined], and [k] one of the keys
    the sources read ([method], [id], [params], [name], [arguments],
    [query]): only an object has them. *)
Definition prop (v : json) (k : string) : option json :=
  match v with
  | JObj kvs => assoc k kvs
  | _ => None
  end.

(** [v.k] in general: reading a property of [null] or [undefined] throws a
    TypeError. *)
Definition prop_of {W} (v : option json) (k : string) : M W (option json) :=
  match v with
  | None => throw (ErrorObject ("Cannot read properties of undefined (reading '" ++ k ++ "')"))
  | Some JNull => throw (ErrorObject ("Cannot read properties of null (reading '" ++ k ++ "')"))
  | Some x => ret (prop x k)
  end.

(** [k in v]: a TypeError unless [v] is an object. *)
Definition js_in {W} (k : string) (v : json) : M W bool :=
  match v with
  | JObj kvs => ret (match assoc k kvs with Some _ => true | None => false end)
  | JArr _ => ret false
  | _ => throw (ErrorObject ("Cannot use 'in' operator to search for '" ++ k ++ "'"))
  end.

(** [a || b] on values that may be [undefined] *)
Definition or_else (a : option json) (b : option json) : option json :=
  if truthy_opt a then a else b.

(** [v === 'lit'] *)
Definition is_str (v : option json) (lit : string) : bool :=
  match v with
  | Some (JStr s) => s =? lit
  | _ => false
  end.

(** An object literal; a field whose value is [undefined] does not reach
    the serialized text and is left out. *)
Fixpoint defined_fields (fs : list (string * option json)) : list (string * json) :=
  match fs with
  | [] => []
  | (k, Some v) :: rest => (k, v) :: defined_fields rest
  | (_, None) :: rest => defined_fields rest
  end.

Definition object (fs : list (string * option json)) : json :=
  JObj (defined_fields fs).

(** The parts of the runtime the sources call and this development leaves
    to the engine: [JSON.stringify(v)] (indent 0) and
    [JSON.stringify(v, null, 2)] (indent 2), and the text of a number in a
    template string or under [String(n)]. *)
Class Runtime : Type := {
  JSON_stringify : json -> nat -> string;
  Number_toString : Q -> string
}.

Section Templates.
Context {RT : Runtime}.

(** [Array.prototype.join(',')] as [String(array)] uses it: [null]
    elements give the empty text. *)
Fixpoint to_text (v : json) : string :=
  match v with
  | JNull => "null"
  | JBool true => "true"
  | JBool false => "false"
  | JNum q => Number_toString q
  | JStr s => s
  | JArr items =>
      (fix join (xs : list json) : string :=
         match xs with
         | [] => EmptyString
         | [x] => match x with JNull => EmptyString | _ => to_text x end
         | x :: rest =>
             (match x with JNull => EmptyString | _ => to_text x end) ++ "," ++ join rest
         end) items
  | JObj _ => "[object Object]"
  end.

(** [`${v}`] *)
Definition template (v : option json) : string :=
  match v with
  | None => "undefined"
  | Some x => to_text x
  end.
End Templates.

(** The double quote. *)
Definition DQ : string := String (ascii_of_nat 34) EmptyString.

(** The line feed of the [\n] escapes. *)
Definition LF : string := String (ascii_of_nat 10) EmptyString.

(** Boolean order on numbers: [a < b]. *)
Definition Qltb (a b : Q) : bool := negb (Qle_bool b a).

End Js.

(* ===================================================================== *)
(** ** src/session-manager.ts: the credential store *)
(* ===================================================================== *)

Module SessionManager.
Import Js.
Open Scope string_scope.
Open Scope js_scope.

Inductive SameSite : Type := Strict | Lax | NoneSite.

(** [interface SerializedCookie]; a cookie read from the page has these
    fields too, and [{...cookie, expires: e}] keeps all but [expires]. *)
Record SerializedCookie : Type := {
  name : string;
  value : string;
  domain : string;
  path : string;
  expires : Q;
  httpOnly : bool;
  secure : bool;
  sameSite : SameSite
}.

(** [{...cookie, expires: e}] *)
Definition with_expires (cookie : SerializedCookie) (e : Q) : SerializedCookie :=
  {| name := name cookie; value := value cookie; domain := domain cookie;
     path := path cookie; expires := e; httpOnly := httpOnly cookie;
     secure := secure cookie; sameSite := sameSite cookie |}.

(** [s.includes(sub)] *)
Fixpoint includes (s sub : string) : bool :=
  if prefix sub s then true
  else match s with
       | EmptyString => false
       | String _ rest => includes rest sub
       end.

(** The text of COOKIES_FILE up to the engine's JSON codec: text that
    [JSON.parse] rejects (with the message of the SyntaxError it raises), or
    the text [JSON.stringify] writes for a cookie array, which [JSON.parse]
    reads back as that array ([cookies: SerializedCookie[]]).  JSON text of
    another shape, which the annotation rules out, is not represented. *)
Inductive FileContent : Type :=
| Unparseable (raw : string) (syntax_error : string)
| CookieArray (cookies : list SerializedCookie).

(** The place of COOKIES_FILE on disk: the file when it exists, and whether
    [fs.writeFileSync] goes through.  The call opens the file with the flag
    ['w'], which truncates it, and then writes the text.  So a call that
    fails at the open (the directory is missing or not writable) leaves the
    file as it was, [torn = None]; a call that fails after the open (the
    disk is full, the device fails) leaves what it had written by then, an
    empty or partial file, [torn = Some partial]. *)
Record Disk : Type := {
  can_write : bool;
  cookies_file : option FileContent;
  torn : option FileContent
}.

(** The lines the two functions print, one constructor per [console.log]
    or [console.error] call, with the values it interpolates. *)
Inductive ConsoleLine : Type :=
| LogSaved (count : nat)            (* Saved n Amazon cookies to COOKIES_FILE *)
| LogConverted (count : nat)        (* Converted n session cookies to persistent cookies *)
| ErrSaveFailed (error : thrown)    (* Failed to save Amazon session: *)
| LogNoSavedSession                 (* No saved Amazon session found *)
| LogAllExpired                     (* All saved Amazon cookies have expired *)
| LogRestored (count : nat)         (* Restored n Amazon cookies from saved session *)
| LogSkipped (count : nat)          (* (n expired cookies were skipped) *)
| ErrRestoreFailed (error : thrown) (* Failed to restore Amazon session: *).

(** Puppeteer's [Page], as far as this file uses it. *)
Class CookiePage (P : Type) : Type := {
  page_cookies : M P (list SerializedCookie);           (* page.cookies() *)
  page_setCookie : list SerializedCookie -> M P unit    (* page.setCookie(...cs) *)
}.

Record World (P : Type) : Type := {
  page : P;
  disk : Disk;
  console : list ConsoleLine   (* oldest first *)
}.

Section Store.
Context {P : Type} {CP : CookiePage P}.

Definition on_page {A} (m : M P A) : M (World P) A :=
  lift (@page P) (fun p w => {| page := p; disk := disk w; console := console w |}) m.

Definition console_print (l : ConsoleLine) : M (World P) unit :=
  modify (fun w => {| page := page w; disk := disk w; console := console w ++ [l] |}).

(** [fs.writeFileSync(COOKIES_FILE, text)] *)
Definition fs_writeFileSync (content : FileContent) : M (World P) unit :=
  fun w =>
    if can_write (disk w)
    then Ok tt {| page := page w;
                  disk := {| can_write := true; cookies_file := Some content;
                             torn := torn (disk w) |};
                  console := console w |}
    else
      match torn (disk w) with
      | None =>
          Raise (ErrorObject "ENOENT: no such file or directory, open COOKIES_FILE") w
      | Some partial =>
          Raise (ErrorObject "ENOSPC: no space left on device, write")
                {| page := page w;
                   disk := {| can_write := false; cookies_file := Some partial;
                              torn := Some partial |};
                   console := console w |}
      end.

(** [fs.existsSync(COOKIES_FILE)] *)
Definition fs_existsSync : M (World P) bool :=
  gets (fun w => match cookies_file (disk w) with Some _ => true | None => false end).

(** [fs.readFileSync(COOKIES_FILE, 'utf-8')] *)
Definition fs_readFileSync : M (World P) FileContent :=
  fun w =>
    match cookies_file (disk w) with
    | Some c => Ok c w
    | None => Raise (ErrorObject "ENOENT: no such file or directory, open COOKIES_FILE") w
    end.

(** [JSON.parse(cookiesData)] *)
Definition JSON_parse (text : FileContent) : M (World P) (list SerializedCookie) :=
  match text with
  | Unparseable _ msg => throw (ErrorObject msg)
  | CookieArray cs => ret cs
  end.

(** [Date.now() / 1000], from the clock reading in milliseconds. *)
Definition seconds (now_ms : Z) : Q := inject_Z now_ms / 1000.

(** [Date.now() / 1000 + (365 * 24 * 60 * 60)] *)
Definition oneYearFromNow (now_ms : Z) : Q := seconds now_ms + 365 * 24 * 60 * 60.

(** [cookie.expires && cookie.expires > 0] *)
Definition has_expiry (cookie : SerializedCookie) : bool :=
  negb (Qeq_bool (expires cookie) 0) && Qltb 0 (expires cookie).

(** [cookies.filter(c => c.domain.includes('amazon'))] *)
Definition amazonCookies (cookies : list SerializedCookie) : list SerializedCookie :=
  filter (fun c => includes (domain c) "amazon") cookies.

(** [amazonCookies.map(cookie => ({...cookie, expires: ...}))] *)
Definition persistentCookies (now_ms : Z) (amazon : list SerializedCookie)
  : list SerializedCookie :=
  map (fun cookie =>
         with_expires cookie
           (if has_expiry cookie then expires cookie else oneYearFromNow now_ms))
      amazon.

(** [amazonCookies.filter(c => !c.expires || c.expires === -1)] *)
Definition sessionCookies (amazon : list SerializedCookie) : list SerializedCookie :=
  filter (fun c => Qeq_bool (expires c) 0 || Qeq_bool (expires c) (-1)) amazon.

(** [saveAmazonSession(page)]; [now_ms] is what [Date.now()] returns. *)
Definition saveAmazonSession (now_ms : Z) : M (World P) unit :=
  try_catch
    (cookies <- on_page page_cookies ;;
     let amazon := amazonCookies cookies in
     let persistent := persistentCookies now_ms amazon in
     fs_writeFileSync (CookieArray persistent) ;;
     console_print (LogSaved (length persistent)) ;;
     let session := sessionCookies amazon in
     if (0 <? length session)%nat
     then console_print (LogConverted (length session))
     else ret tt)
    (fun error => console_print (ErrSaveFailed error)).

(** [cookies.filter(c => c.expires > now)] *)
Definition validCookies (now : Q) (cookies : list SerializedCookie)
  : list SerializedCookie :=
  filter (fun c => Qltb now (expires c)) cookies.

(** [restoreAmazonSession(page)]; [now_ms] is what [Date.now()] returns. *)
Definition restoreAmazonSession (now_ms : Z) : M (World P) bool :=
  try_catch
    (found <- fs_existsSync ;;
     if negb found
     then console_print LogNoSavedSession ;; ret false
     else
       cookiesData <- fs_readFileSync ;;
       cookies <- JSON_parse cookiesData ;;
       let now := seconds now_ms in
       let valid := validCookies now cookies in
       if (length valid =? 0)%nat
       then console_print LogAllExpired ;; ret false
       else
         on_page (page_setCookie valid) ;;
         console_print (LogRestored (length valid)) ;;
         (if (length valid <? length cookies)%nat
          then console_print (LogSkipped (length cookies - length valid))
          else ret tt) ;;
         ret true)
    (fun error => console_print (ErrRestoreFailed error) ;; ret false).

End Store.

End SessionManager.

(* ===================================================================== *)
(** ** src/amazon.ts: the cart driver *)
(* ===================================================================== *)

Module Amazon.
Import Js.
Open Scope string_scope.
Open Scope js_scope.

(** [interface AddToCartParams] *)
Record AddToCartParams : Type := {
  query : option string;
  asin : option string;
  quantity : option Q
}.

(** [interface OperationResult] *)
Record OperationResult : Type := {
  success : bool;
  message : string;
  data : option json;
  error : option string
}.

(** The browser behind [getPage()] and the Puppeteer calls [addToCart]
    makes on the page, each of which may reject.  [B] is the state of the
    browser. *)
Class Browser (B : Type) : Type := {
  getPage : M B unit;
  page_goto : string -> M B unit;                   (* page.goto(url, {waitUntil: 'networkidle2'}) *)
  page_waitForSelector : string -> option Z -> M B unit;  (* selector, {timeout} *)
  page_type : string -> string -> M B unit;
  page_click : string -> M B unit;
  page_waitForNavigation : M B unit;
  (** [document.querySelector(sel)?.textContent?.trim()], evaluated in the
      page; [None] is [undefined]. *)
  page_trimmed_text : string -> M B (option string);
  page_select : string -> string -> M B unit;
  (** [page.$(sel)]: whether an element handle (not [null]) comes back. *)
  page_query : string -> M B bool;
  (** [handle.click()] on the handle [page.$(sel)] returned. *)
  handle_click : string -> M B unit;
  (** [await new Promise(resolve => setTimeout(resolve, ms))] *)
  sleep : Z -> M B unit
}.

Section Driver.
Context {RT : Runtime} {B : Type} {BR : Browser B}.

(** [process.env.AMAZON_DOMAIN] *)
Variable env_AMAZON_DOMAIN : option string.

(** [process.env.AMAZON_DOMAIN || 'amazon.com'] *)
Definition AMAZON_DOMAIN : string :=
  match env_AMAZON_DOMAIN with
  | Some d => if d =? EmptyString then "amazon.com" else d
  | None => "amazon.com"
  end.

Definition BASE_URL : string := "https://www." ++ AMAZON_DOMAIN.

(** [!!s] for an optional string *)
Definition supplied (s : option string) : bool :=
  match s with
  | Some x => negb (x =? EmptyString)
  | None => false
  end.

Definition text_of (s : option string) : string :=
  match s with Some x => x | None => EmptyString end.

(** ['[data-component-type="s-search-result"] h2 a'] *)
Definition SEARCH_RESULT_LINK : string :=
  "[data-component-type=" ++ DQ ++ "s-search-result" ++ DQ ++ "] h2 a".

(** [waitForElement(page, selector, timeout)] *)
Definition waitForElement (selector : string) (timeout : Z) : M B bool :=
  try_catch
    (page_waitForSelector selector (Some timeout) ;; ret true)
    (fun _ => ret false).

(** [params.quantity || 1] *)
Definition quantity_or_1 (params : AddToCartParams) : Q :=
  match quantity params with
  | Some q => if Qeq_bool q 0 then 1 else q
  | None => 1
  end.

(** [addToCart(params)] *)
Definition addToCart (params : AddToCartParams) : M B OperationResult :=
  try_catch
    (getPage ;;
     let quantity := quantity_or_1 params in
     (if supplied (asin params)
      then page_goto (BASE_URL ++ "/dp/" ++ text_of (asin params))
      else if supplied (query params)
      then
        page_goto BASE_URL ;;
        page_waitForSelector "#twotabsearchtextbox" None ;;
        page_type "#twotabsearchtextbox" (text_of (query params)) ;;
        page_click "#nav-search-submit-button" ;;
        page_waitForSelector SEARCH_RESULT_LINK None ;;
        page_click SEARCH_RESULT_LINK ;;
        page_waitForNavigation
      else throw (ErrorObject "Either query or asin must be provided")) ;;
     found <- page_trimmed_text "#productTitle" ;;
     let title := if supplied found then text_of found else "Unknown Product" in
     (if Qltb 1 quantity
      then
        quantityExists <- waitForElement "#quantity" 5000 ;;
        if quantityExists
        then page_select "#quantity" (Number_toString quantity)
        else ret tt
      else ret tt) ;;
     addToCartButton <- page_query "#add-to-cart-button" ;;
     if negb addToCartButton
     then throw (ErrorObject "Add to Cart button not found")
     else
       handle_click "#add-to-cart-button" ;;
       confirmationExists <-
         waitForElement "#sw-atc-confirmation, #NATC_SMART_WAGON_CONF_MSG_SUCCESS" 3000 ;;
       (if negb confirmationExists then sleep 2000 else ret tt) ;;
       ret {| success := true;
              message := "Added " ++ DQ ++ title ++ DQ ++ " to cart (quantity: "
                         ++ Number_toString quantity ++ ")";
              data := Some (JObj [("title", JStr title); ("quantity", JNum quantity)]);
              error := None |})
    (fun e =>
       ret {| success := false;
              message := "Failed to add item to cart";
              data := None;
              error := Some (error_text e) |}).

End Driver.

End Amazon.

(* ===================================================================== *)
(** ** src/server.ts: authentication, the event streams, the dispatcher *)
(* ===================================================================== *)

(** Console output of the server is not modelled.  A handler runs to
    completion before the next connection event is taken: the streams a
    handler sees after a tool call are those it saw before it. *)

Module Server.
Import Js.
Open Scope string_scope.
Open Scope js_scope.

(** [process.env.AUTH_TOKEN] *)
Record Config : Type := { AUTH_TOKEN : option string }.

(** [req.query.token]: a string, or the array or object that repeated or
    bracketed parameters parse to. *)
Inductive QueryValue : Type :=
| QString (s : string)
| QStructured.

Record Request : Type := {
  authorization : option string;      (* req.headers.authorization *)
  query_token : option QueryValue;    (* req.query.token *)
  x_forwarded_proto : option string;  (* req.headers['x-forwarded-proto'] *)
  x_forwarded_host : option string;   (* req.headers['x-forwarded-host'] *)
  host : option string;               (* req.headers.host *)
  body : option json                  (* req.body *)
}.

(** What the handler answers on the HTTP exchange: [res.status(s).json(v)],
    [res.json(v)] (status 200) or [res.status(s).end()] (no payload). *)
Record HttpReply : Type := {
  status : nat;
  payload : option json
}.

(** *** [authenticate] *)

(** [\s], on the Latin-1 characters a header value is made of. *)
Definition is_space (c : ascii) : bool :=
  let n := nat_of_ascii c in
  ((9 <=? n) && (n <=? 13) || (n =? 32) || (n =? 160))%nat.

Definition to_lower (c : ascii) : ascii :=
  let n := nat_of_ascii c in
  if ((65 <=? n) && (n <=? 90))%nat then ascii_of_nat (n + 32) else c.

(** The rest of [s] after [word], letters compared without case. *)
Fixpoint after_word (word s : string) : option string :=
  match word, s with
  | EmptyString, _ => Some s
  | String a word', String c s' =>
      if Ascii.eqb (to_lower c) a then after_word word' s' else None
  | String _ _, EmptyString => None
  end.

Fixpoint skip_spaces (s : string) : string :=
  match s with
  | String c rest => if is_space c then skip_spaces rest else s
  | EmptyString => s
  end.

(** [s.replace(/^Bearer\s+/i, '')] *)
Definition strip_bearer (s : string) : string :=
  match after_word "bearer" s with
  | Some (String c rest) => if is_space c then skip_spaces rest else s
  | _ => s
  end.

(** [req.headers.authorization?.replace(/^Bearer\s+/i, '')] *)
Definition headerToken (req : Request) : option string :=
  option_map strip_bearer (authorization req).

(** [headerToken || queryToken] *)
Definition providedToken (req : Request) : option QueryValue :=
  match headerToken req with
  | Some h => if h =? EmptyString then query_token req else Some (QString h)
  | None => query_token req
  end.

(** [!AUTH_TOKEN] is false: a secret is configured. *)
Definition secret_configured (cfg : Config) : bool :=
  match AUTH_TOKEN cfg with
  | Some t => negb (t =? EmptyString)
  | None => false
  end.

(** [providedToken === AUTH_TOKEN] *)
Definition token_matches (cfg : Config) (req : Request) : bool :=
  match providedToken req, AUTH_TOKEN cfg with
  | Some (QString p), Some t => p =? t
  | _, _ => false
  end.

Inductive Verdict : Type :=
| Next                          (* next() *)
| Rejected (reply : HttpReply).

Definition unauthorized : HttpReply :=
  {| status := 401; payload := Some (JObj [("error", JStr "Unauthorized")]) |}.

Definition authenticate (cfg : Config) (req : Request) : Verdict :=
  if negb (secret_configured cfg) then Next
  else if token_matches cfg req then Next
  else Rejected unauthorized.

(** *** The active connections *)

(** The [Response] of an open event stream: [res.writable] and the chunks
    [res.write] has sent on it, oldest first. *)
Record Response : Type := {
  writable : bool;
  written : list string
}.

(** [interface SSEConnection] *)
Record SSEConnection : Type := {
  res : Response;
  sessionId : string
}.

(** [activeConnections: Map<string, SSEConnection>].  Every entry is stored
    under its own [sessionId], so the map is the list of its values in
    insertion order, the order [Map.prototype.values()] iterates in. *)
Definition ConnectionMap : Type := list SSEConnection.

(** [map.set(c.sessionId, c)]: a new key goes last, an existing key keeps
    its place and takes the new value. *)
Fixpoint Map_set (c : SSEConnection) (m : ConnectionMap) : ConnectionMap :=
  match m with
  | [] => [c]
  | d :: rest => if sessionId d =? sessionId c then c :: rest else d :: Map_set c rest
  end.

(** [map.delete(id)] *)
Fixpoint Map_delete (id : string) (m : ConnectionMap) : ConnectionMap :=
  match m with
  | [] => []
  | d :: rest => if sessionId d =? id then rest else d :: Map_delete id rest
  end.

(** [map.get(id)] *)
Fixpoint Map_get (id : string) (m : ConnectionMap) : option SSEConnection :=
  match m with
  | [] => None
  | d :: rest => if sessionId d =? id then Some d else Map_get id rest
  end.

(** Apply [f] to the response object of connection [id] (mutation in place). *)
Fixpoint on_res (id : string) (f : Response -> Response) (m : ConnectionMap)
  : ConnectionMap :=
  match m with
  | [] => []
  | d :: rest =>
      if sessionId d =? id
      then {| res := f (res d); sessionId := sessionId d |} :: rest
      else d :: on_res id f rest
  end.

(** [res.write(chunk)] *)
Definition res_write (chunk : string) (r : Response) : Response :=
  {| writable := writable r; written := written r ++ [chunk] |}.

Record World (B : Type) : Type := {
  activeConnections : ConnectionMap;
  browser : B
}.

(** The tool functions of ./amazon, ./browser and ./session-manager as the
    dispatcher calls them; each returns its [OperationResult] as a JSON
    value. *)
Class Tools (B : Type) : Type := {
  searchProducts : option json -> M B json;
  addToCart : json -> M B json;
  getCart : M B json;
  checkLoginStatus : M B json;
  getPage : M B unit;
  saveAmazonSession : M B unit
}.

Section Relay.
Context {RT : Runtime} {B : Type} {TL : Tools B}.

Definition on_connections (f : ConnectionMap -> ConnectionMap) : M (World B) unit :=
  modify (fun w => {| activeConnections := f (activeConnections w); browser := browser w |}).

Definition on_browser {A} (m : M B A) : M (World B) A :=
  lift (@browser B)
       (fun b w => {| activeConnections := activeConnections w; browser := b |}) m.

(** [`event: message\ndata: ${JSON.stringify(data)}\n\n`] *)
Definition message_frame (data : json) : string :=
  "event: message" ++ LF ++ "data: " ++ JSON_stringify data 0 ++ LF ++ LF.

(** [sendSSEMessage(res, data)] *)
Definition sendSSEMessage (r : Response) (data : json) : Response :=
  res_write (message_frame data) r.

(** *** GET /sse *)

Definition header_or (h : option string) (fallback : option string) : option string :=
  match h with
  | Some s => if s =? EmptyString then fallback else Some s
  | None => fallback
  end.

(** [`${protocol}://${host}/message`] *)
Definition endpoint_url (req : Request) : string :=
  let protocol := header_or (x_forwarded_proto req) (Some "http") in
  let host := header_or (x_forwarded_host req) (host req) in
  template (option_map JStr protocol) ++ "://" ++ template (option_map JStr host)
  ++ "/message".

Definition connected_frame : string := ": connected" ++ LF ++ LF.
Definition endpoint_event_line : string := "event: endpoint" ++ LF.
Definition endpoint_data_line (req : Request) : string :=
  "data: " ++ endpoint_url req ++ LF ++ LF.
Definition ping_frame : string := ": ping" ++ LF ++ LF.

(** The body of the [/sse] handler; [id] is the session id it generates
    from the clock and [Math.random()]. *)
Definition sse_open (req : Request) (id : string) : M (World B) unit :=
  on_connections (Map_set {| res := {| writable := true; written := [] |};
                             sessionId := id |}) ;;
  on_connections (on_res id (res_write connected_frame)) ;;
  on_connections (on_res id (res_write endpoint_event_line)) ;;
  on_connections (on_res id (res_write (endpoint_data_line req))).

(** One firing of the heartbeat interval of session [id]. *)
Definition heartbeat (id : string) : M (World B) unit :=
  c <- gets (fun w => Map_get id (activeConnections w)) ;;
  match c with
  | Some c =>
      if writable (res c)
      then on_connections (on_res id (res_write ping_frame))
      else on_connections (Map_delete id)
  | None => ret tt
  end.

(** The ['close'] and ['error'] listeners of session [id]. *)
Definition on_close (id : string) : M (World B) unit :=
  on_connections (Map_delete id).

(** *** POST /message *)

(** [{ jsonrpc: '2.0', error: { code, message }, id }] *)
Definition error_body (code : Q) (message : string) (id : json) : json :=
  JObj [("jsonrpc", JStr "2.0");
        ("error", JObj [("code", JNum code); ("message", JStr message)]);
        ("id", id)].

(** [jsonrpcRequest?.id || null], for a request that is not [null] *)
Definition id_or_null (request : json) : json :=
  match or_else (prop request "id") (Some JNull) with
  | Some v => v
  | None => JNull
  end.

Definition schema (properties : list (string * json)) (required : list string) : json :=
  JObj ([("type", JStr "object"); ("properties", JObj properties)]
        ++ match required with
           | [] => []
           | _ => [("required", JArr (map JStr required))]
           end)%list.

Definition tool (name description : string) (inputSchema : json) : json :=
  JObj [("name", JStr name); ("description", JStr description);
        ("inputSchema", inputSchema)].

Definition typed (type description : string) : json :=
  JObj [("type", JStr type); ("description", JStr description)].

(** The [tools] array of the [tools/list] answer. *)
Definition TOOLS : list json :=
  [ tool "search_amazon" "Search for products on Amazon"
      (schema [("query", typed "string" "Search query for Amazon products")] ["query"]);
    tool "add_to_cart" "Add a product to Amazon cart"
      (schema [("query", typed "string" "Product name to search and add");
               ("asin", typed "string" "Amazon ASIN (product ID) - use this if known");
               ("quantity", JObj [("type", JStr "number");
                                  ("description", JStr "Quantity to add (default: 1)");
                                  ("default", JNum 1)])] []);
    tool "view_cart" "View current Amazon cart contents" (schema [] []);
    tool "check_login" "Check if logged into Amazon" (schema [] []);
    tool "save_session"
      "(Optional) Manually trigger session save. Sessions are automatically saved periodically, after operations, and on shutdown, so this is typically not needed."
      (schema [] []) ].

Definition INITIALIZE_RESULT : json :=
  JObj [("protocolVersion", JStr "2024-11-05");
        ("capabilities", JObj [("tools", JObj []); ("resources", JObj []);
                               ("prompts", JObj [])]);
        ("serverInfo", JObj [("name", JStr "amazon-cart-server");
                             ("version", JStr "1.0.0")])].

(** [{ jsonrpc: '2.0', id: jsonrpcRequest.id, result }] *)
Definition result_response (request : json) (result : json) : json :=
  object [("jsonrpc", Some (JStr "2.0")); ("id", prop request "id");
          ("result", Some result)].

(** [{ jsonrpc: '2.0', id: jsonrpcRequest.id, error: { code, message } }] *)
Definition error_response (request : json) (code : Q) (message : string) : json :=
  object [("jsonrpc", Some (JStr "2.0")); ("id", prop request "id");
          ("error", Some (JObj [("code", JNum code); ("message", JStr message)]))].

(** The [switch (toolName)] of the [tools/call] branch. *)
Definition call_tool (toolName : option json) (toolArgs : json) : M B json :=
  if is_str toolName "search_amazon" then searchProducts (prop toolArgs "query")
  else if is_str toolName "add_to_cart" then addToCart toolArgs
  else if is_str toolName "view_cart" then getCart
  else if is_str toolName "check_login" then checkLoginStatus
  else if is_str toolName "save_session" then
    getPage ;;
    saveAmazonSession ;;
    ret (JObj [("success", JBool true);
               ("message", JStr "Amazon session saved successfully. Your login will persist across server restarts.")])
  else throw (ErrorObject ("Unknown tool: " ++ template toolName)).

(** [error instanceof Error ? error.message : 'Tool execution failed'] *)
Definition tool_error_message (e : thrown) : string :=
  match e with
  | ErrorObject m => m
  | NonError _ => "Tool execution failed"
  end.

(** The routing of a request to its response envelope. *)
Definition route (request : json) : M B json :=
  let method := prop request "method" in
  if is_str method "initialize" then
    ret (result_response request INITIALIZE_RESULT)
  else if is_str method "tools/list" then
    ret (result_response request (JObj [("tools", JArr TOOLS)]))
  else if is_str method "tools/call" then
    toolName <- prop_of (prop request "params") "name" ;;
    arguments <- prop_of (prop request "params") "arguments" ;;
    let toolArgs :=
      match or_else arguments (Some (JObj [])) with
      | Some a => a
      | None => JObj []
      end in
    try_catch
      (toolResult <- call_tool toolName toolArgs ;;
       ret (result_response request
              (JObj [("content",
                      JArr [JObj [("type", JStr "text");
                                  ("text", JStr (JSON_stringify toolResult 2))]])])))
      (fun error => ret (error_response request (-32603) (tool_error_message error)))
  else
    ret (error_response request (-32601) ("Method not found: " ++ template method)).

(** The handler registered on [mcpServer] for [CallToolRequestSchema]
    (the server object is never connected to a transport; the /message
    handler below does its own routing).  It answers with a tool result
    in both cases.  An absent [arguments] reaches [addToCart] as [null]. *)
Definition CallTool_handler (name : option json) (args : option json) : M B json :=
  try_catch
    (result <-
       (if is_str name "search_amazon" then
          match args with
          | None | Some JNull => searchProducts None
          | Some a => searchProducts (prop a "query")
          end
        else if is_str name "add_to_cart" then
          addToCart (match args with Some a => a | None => JNull end)
        else if is_str name "view_cart" then getCart
        else if is_str name "check_login" then checkLoginStatus
        else if is_str name "save_session" then
          getPage ;;
          saveAmazonSession ;;
          ret (JObj [("success", JBool true);
                     ("message", JStr "Amazon session saved successfully. Your login will persist across server restarts.")])
        else throw (ErrorObject ("Unknown tool: " ++ template name))) ;;
     ret (JObj [("content",
                 JArr [JObj [("type", JStr "text");
                             ("text", JStr (JSON_stringify result 2))]])]))
    (fun error =>
       ret (JObj [("content",
                   JArr [JObj [("type", JStr "text");
                               ("text",
                                JStr (JSON_stringify
                                        (JObj [("success", JBool false);
                                               ("error", JStr (error_text error))]) 2))]]);
                  ("isError", JBool true)])).

(** [const isNotification = !('id' in jsonrpcRequest)] *)
Definition isNotification (request : json) : M (World B) bool :=
  has_id <- js_in "id" request ;;
  ret (negb has_id).

Definition accepted : HttpReply := {| status := 202; payload := None |}.

(** The handler of [app.post('/message', authenticate, ...)]. *)
Definition post_message (body : option json) : M (World B) HttpReply :=
  match body with
  | None =>
      ret {| status := 400;
             payload := Some (error_body (-32600) "Invalid Request" JNull) |}
  | Some jsonrpcRequest =>
      if negb (truthy jsonrpcRequest) || negb (truthy_opt (prop jsonrpcRequest "method"))
      then ret {| status := 400;
                  payload := Some (error_body (-32600) "Invalid Request" JNull) |}
      else
        connection <- gets (fun w => hd_error (activeConnections w)) ;;
        match connection with
        | None =>
            ret {| status := 503;
                   payload := Some (error_body (-32000) "No active connection"
                                               (id_or_null jsonrpcRequest)) |}
        | Some connection =>
            try_catch
              (notification <- isNotification jsonrpcRequest ;;
               if notification then ret accepted
               else
                 response <- on_browser (route jsonrpcRequest) ;;
                 (* connection.res.writable: the response object of the
                    connection taken above, found again under its id *)
                 current <- gets (fun w => Map_get (sessionId connection)
                                                   (activeConnections w)) ;;
                 if negb (match current with
                          | Some c => writable (res c)
                          | None => false
                          end)
                 then ret {| status := 503;
                             payload := Some (error_body (-32000) "SSE connection closed"
                                                         (id_or_null jsonrpcRequest)) |}
                 else
                   on_connections
                     (on_res (sessionId connection)
                             (fun r => sendSSEMessage r response)) ;;
                   ret accepted)
              (fun _ =>
                 (* res.headersSent is false: every reply above is followed
                    by a return *)
                 ret {| status := 500;
                        payload := Some (error_body (-32603) "Internal error"
                                                    (id_or_null jsonrpcRequest)) |})
        end
  end.

(** *** The routes *)

Inductive Endpoint : Type := GET_health | GET_sse | POST_message.

Inductive Served : Type :=
| Replied (reply : HttpReply)
| Streaming.                   (* the response stays open as an event stream *)

Definition health : HttpReply :=
  {| status := 200;
     payload := Some (JObj [("status", JStr "ok"); ("server", JStr "amazon-mcp-server")]) |}.

(** The three routes as registered on [app]; [fresh] is the session id a
    new stream would get. *)
Definition serve (cfg : Config) (e : Endpoint) (req : Request) (fresh : string)
  : M (World B) Served :=
  match e with
  | GET_health => ret (Replied health)
  | GET_sse =>
      match authenticate cfg req with
      | Next => sse_open req fresh ;; ret Streaming
      | Rejected r => ret (Replied r)
      end
  | POST_message =>
      match authenticate cfg req with
      | Next => r <- post_message (body req) ;; ret (Replied r)
      | Rejected r => ret (Replied r)
      end
  end.

End Relay.

End Server.

(* ===================================================================== *)
(** ** The earlier revision of src/server.ts, where it differed *)
(* ===================================================================== *)

Module Legacy.
Import Js.
Open Scope string_scope.

Section Relay.
Context {RT : Runtime}.

(** [`data: ${JSON.stringify(data)}\n\n`] *)
Definition message_frame (data : json) : string :=
  "data: " ++ JSON_stringify data 0 ++ LF ++ LF.

(** [sendSSEMessage(res, data)] *)
Definition sendSSEMessage (r : Server.Response) (data : json) : Server.Response :=
  Server.res_write (message_frame data) r.

(** [!jsonrpcRequest.id && jsonrpcRequest.id !== 0] *)
Definition isNotification (request : json) : bool :=
  negb (truthy_opt (prop request "id"))
  && negb (match prop request "id" with
           | Some (JNum q) => Qeq_bool q 0
           | _ => false
           end).
End Relay.

End Legacy.

(* ===================================================================== *)
(** ** The reader's side of an event stream *)
(* ===================================================================== *)

(** How a reader of [text/event-stream] takes the first line of a chunk: a
    line that starts with a colon is a comment, [event: t] names the event
    type [t], [data: ...] carries data for the event under way. *)
Module EventStream.
Import Js.
Open Scope string_scope.

Inductive Line : Type :=
| Comment
| EventType (type : string)
| Data
| Other.

Fixpoint first_line (s : string) : string :=
  match s with
  | EmptyString => EmptyString
  | String c rest =>
      if Ascii.eqb c (ascii_of_nat 10) then EmptyString else String c (first_line rest)
  end.

Definition read (chunk : string) : Line :=
  let l := first_line chunk in
  if prefix ":" l then Comment
  else if prefix "event: " l then EventType (substring 7 (String.length l - 7) l)
  else if prefix "data: " l then Data
  else Other.

End EventStream.

(* ===================================================================== *)
(** ** Sample environments, for closed examples *)
(* ===================================================================== *)

Module Sample.
Import Js.
Open Scope string_scope.

(** *** An engine: decimal numbers and JSON text *)

Definition digit (n : Z) : string :=
  String (ascii_of_nat (48 + Z.to_nat n)) EmptyString.

Fixpoint digits (fuel : nat) (n : Z) : string :=
  match fuel with
  | O => digit (n mod 10)
  | S fuel' => if (n <? 10)%Z then digit n else digits fuel' (n / 10) ++ digit (n mod 10)
  end.

(** Decimal text of a natural number. *)
Definition natural (n : Z) : string := digits (Z.to_nat (Z.log2 n)) n.

(** The decimals of [r / d] for [0 <= r < d], until they end or [fuel]
    digits are out. *)
Fixpoint decimals (fuel : nat) (r d : Z) : string :=
  match fuel with
  | O => EmptyString
  | S fuel' =>
      if (r =? 0)%Z then EmptyString
      else digit (r * 10 / d) ++ decimals fuel' ((r * 10) mod d) d
  end.

Definition number_text (q : Q) : string :=
  let n := Qnum q in
  let d := Zpos (Qden q) in
  let a := Z.abs n in
  (if (n <? 0)%Z then "-" else EmptyString)
  ++ natural (a / d)
  ++ (if (a mod d =? 0)%Z then EmptyString else "." ++ decimals 17 (a mod d) d).

Definition hex_digit (n : nat) : string :=
  String (ascii_of_nat (if (n <? 10)%nat then 48 + n else 87 + n)) EmptyString.

Fixpoint escape (s : string) : string :=
  match s with
  | EmptyString => EmptyString
  | String c rest =>
      let n := nat_of_ascii c in
      (if (n =? 34)%nat then "\" ++ DQ
       else if (n =? 92)%nat then "\\"
       else if (n =? 10)%nat then "\n"
       else if (n =? 13)%nat then "\r"
       else if (n =? 9)%nat then "\t"
       else if (n =? 8)%nat then "\b"
       else if (n =? 12)%nat then "\f"
       else if (n <? 32)%nat then "\u00" ++ hex_digit (n / 16) ++ hex_digit (n mod 16)
       else String c EmptyString) ++ escape rest
  end.

Definition quoted (s : string) : string := DQ ++ escape s ++ DQ.

Fixpoint spaces (n : nat) : string :=
  match n with
  | O => EmptyString
  | S n' => " " ++ spaces n'
  end.

(** The break before an item at nesting [depth]: nothing when [indent] is
    0, else a line feed and [indent * depth] spaces. *)
Definition break (indent depth : nat) : string :=
  match indent with
  | O => EmptyString
  | _ => LF ++ spaces (indent * depth)
  end.

Fixpoint stringify (indent depth : nat) (v : json) : string :=
  match v with
  | JNull => "null"
  | JBool true => "true"
  | JBool false => "false"
  | JNum q => number_text q
  | JStr s => quoted s
  | JArr [] => "[]"
  | JArr items =>
      "["
      ++ (fix go (xs : list json) : string :=
            match xs with
            | [] => EmptyString
            | [x] => break indent (S depth) ++ stringify indent (S depth) x
            | x :: rest =>
                break indent (S depth) ++ stringify indent (S depth) x ++ "," ++ go rest
            end) items
      ++ break indent depth ++ "]"
  | JObj [] => "{}"
  | JObj fields =>
      "{"
      ++ (fix go (xs : list (string * json)) : string :=
            match xs with
            | [] => EmptyString
            | [(k, x)] =>
                break indent (S depth) ++ quoted k ++ ":"
                ++ (match indent with O => EmptyString | _ => " " end)
                ++ stringify indent (S depth) x
            | (k, x) :: rest =>
                break indent (S depth) ++ quoted k ++ ":"
                ++ (match indent with O => EmptyString | _ => " " end)
                ++ stringify indent (S depth) x ++ "," ++ go rest
            end) fields
      ++ break indent depth ++ "}"
  end.

#[local] Instance engine : Runtime := {
  JSON_stringify v indent := stringify indent 0 v;
  Number_toString := number_text
}.

(** *** A page that holds its cookies in a list *)

#[local] Instance jar : SessionManager.CookiePage (list SessionManager.SerializedCookie) := {
  page_cookies := gets (fun cookies => cookies);
  page_setCookie cs := modify (fun cookies => (cookies ++ cs)%list)
}.

(** A session cookie as Puppeteer reports it ([expires: -1]), a cookie that
    ran out in 2020, and a first run: both cookies in the page, no file. *)
Definition session_cookie : SessionManager.SerializedCookie :=
  {| SessionManager.name := "session-id";
     SessionManager.value := "131-0000000-0000000";
     SessionManager.domain := ".amazon.com";
     SessionManager.path := "/";
     SessionManager.expires := -1;
     SessionManager.httpOnly := false;
     SessionManager.secure := true;
     SessionManager.sameSite := SessionManager.Lax |}.

Definition stale_cookie : SessionManager.SerializedCookie :=
  {| SessionManager.name := "csm-hit";
     SessionManager.value := "tb:s-0000";
     SessionManager.domain := "www.amazon.com";
     SessionManager.path := "/";
     SessionManager.expires := 1600000000;
     SessionManager.httpOnly := false;
     SessionManager.secure := false;
     SessionManager.sameSite := SessionManager.NoneSite |}.

Definition first_run : SessionManager.World (list SessionManager.SerializedCookie) :=
  {| SessionManager.page := [session_cookie; stale_cookie];
     SessionManager.disk := {| SessionManager.can_write := true;
                               SessionManager.cookies_file := None;
                               SessionManager.torn := None |};
     SessionManager.console := [] |}.

(** A run that finds a file that is not JSON. *)
Definition corrupt_file : SessionManager.World (list SessionManager.SerializedCookie) :=
  {| SessionManager.page := [];
     SessionManager.disk :=
       {| SessionManager.can_write := true;
          SessionManager.cookies_file :=
            Some (SessionManager.Unparseable "[{" "Unexpected end of JSON input");
          SessionManager.torn := None |};
     SessionManager.console := [] |}.

(** A clock reading (14 November 2023), in milliseconds. *)
Definition clock : Z := 1700000000000.

(** *** A browser in which every step succeeds; its state is the list of
    the calls made on it. *)

Definition logged (call : string) : M (list string) unit :=
  modify (fun calls => (calls ++ [call])%list).

#[local] Instance cooperative : Amazon.Browser (list string) := {
  getPage := logged "getPage";
  page_goto url := logged ("goto " ++ url);
  page_waitForSelector sel _ := logged ("waitForSelector " ++ sel);
  page_type sel text := logged ("type " ++ sel ++ " " ++ text);
  page_click sel := logged ("click " ++ sel);
  page_waitForNavigation := logged "waitForNavigation";
  page_trimmed_text _ := ret (Some "Wireless Mouse");
  page_select sel v := logged ("select " ++ sel ++ " " ++ v);
  page_query _ := ret true;
  handle_click sel := logged ("click handle " ++ sel);
  sleep _ := ret tt
}.

(** *** Tools that answer at once, on a browser without state *)

Definition done (message : string) : M unit json :=
  ret (JObj [("success", JBool true); ("message", JStr message)]).

#[local] Instance idle : Server.Tools unit := {
  searchProducts _ := done "Found 0 products";
  addToCart _ := done "Added to cart";
  getCart := done "Cart is empty";
  checkLoginStatus := done "Not logged in";
  getPage := ret tt;
  saveAmazonSession := ret tt
}.

(** *** Requests and worlds of the relay *)

Definition local_request (body : option json) : Server.Request :=
  {| Server.authorization := None;
     Server.query_token := None;
     Server.x_forwarded_proto := None;
     Server.x_forwarded_host := None;
     Server.host := Some "localhost:3000";
     Server.body := body |}.

(** [{"jsonrpc":"2.0","id":<id>,"method":"tools/list"}] *)
Definition tools_list (id : json) : json :=
  JObj [("jsonrpc", JStr "2.0"); ("id", id); ("method", JStr "tools/list")].

(** [{"jsonrpc":"2.0","method":"notifications/initialized"}] *)
Definition initialized : json :=
  JObj [("jsonrpc", JStr "2.0"); ("method", JStr "notifications/initialized")].

(** [{"jsonrpc":"2.0","id":1,"method":"tools/call","params":{"name":"does_not_exist"}}] *)
Definition unknown_tool_call : json :=
  JObj [("jsonrpc", JStr "2.0"); ("id", JNum 1); ("method", JStr "tools/call");
        ("params", JObj [("name", JStr "does_not_exist")])].

Definition fresh_stream (id : string) : Server.SSEConnection :=
  {| Server.res := {| Server.writable := true; Server.written := [] |};
     Server.sessionId := id |}.

Definition no_stream : Server.World unit :=
  {| Server.activeConnections := []; Server.browser := tt |}.

Definition one_stream : Server.World unit :=
  {| Server.activeConnections := [fresh_stream "session_1_a"]; Server.browser := tt |}.

Definition guarded : Server.Config := {| Server.AUTH_TOKEN := Some "s3cret" |}.

End Sample.

(* ===================================================================== *)
(** ** src/browser.ts: the browser singleton *)
(* ===================================================================== *)

Module BrowserTs.
Import Js.
Open Scope string_scope.
Open Scope js_scope.

(** The options [getBrowser] passes to [puppeteer.launch]. *)
Record LaunchOptions : Type := {
  headless : bool;
  userDataDir : string;
  args : list string;
  defaultViewport : Z * Z    (* width, height *)
}.

(** Puppeteer and Node, as far as this file uses them.  [W] is the state of
    the machine (the Chrome processes), [Br] a [Browser] and [Pg] a [Page]. *)
Class Puppeteer (W Br Pg : Type) : Type := {
  puppeteer_launch : LaunchOptions -> M W Br;
  browser_connected : Br -> W -> bool;     (* browser.connected *)
  browser_pages : Br -> M W (list Pg);     (* browser.pages() *)
  browser_newPage : Br -> M W Pg;          (* browser.newPage() *)
  browser_close : Br -> M W unit;          (* browser.close() *)
  path_resolve : string -> string          (* path.resolve(p) *)
}.

(** [process.env.USER_DATA_DIR] and [process.env.HEADLESS] *)
Record Env : Type := {
  USER_DATA_DIR : option string;
  HEADLESS : option string
}.

(** The module variable [browserInstance] and the machine. *)
Record State (W Br : Type) : Type := {
  browserInstance : option Br;
  machine : W
}.

Section Singleton.
Context {W Br Pg : Type} {PP : Puppeteer W Br Pg}.
Variable env : Env.

(** [process.env.USER_DATA_DIR || './user-data'] *)
Definition user_data_dir : string :=
  match USER_DATA_DIR env with
  | Some d => if d =? EmptyString then "./user-data" else d
  | None => "./user-data"
  end.

(** [process.env.HEADLESS === 'true'] *)
Definition headless_flag : bool :=
  match HEADLESS env with
  | Some h => h =? "true"
  | None => false
  end.

Definition launch_options : LaunchOptions :=
  {| headless := headless_flag;
     userDataDir := path_resolve user_data_dir;
     args := ["--no-sandbox"; "--disable-setuid-sandbox";
              "--disable-blink-features=AutomationControlled"];
     defaultViewport := (1280, 800)%Z |}.

Definition on_machine {A} (m : M W A) : M (State W Br) A :=
  lift (@machine W Br)
       (fun w s => {| browserInstance := browserInstance s; machine := w |}) m.

(** [getBrowser()] *)
Definition getBrowser : M (State W Br) Br :=
  fun s =>
    match browserInstance s with
    | Some instance =>
        if browser_connected instance (machine s)
        then Ok instance s
        else
          (launched <- on_machine (puppeteer_launch launch_options) ;;
           modify (fun s' => {| browserInstance := Some launched; machine := machine s' |}) ;;
           ret launched) s
    | None =>
        (launched <- on_machine (puppeteer_launch launch_options) ;;
         modify (fun s' => {| browserInstance := Some launched; machine := machine s' |}) ;;
         ret launched) s
    end.

(** [getPage()] *)
Definition getPage : M (State W Br) Pg :=
  browser <- getBrowser ;;
  pages <- on_machine (browser_pages browser) ;;
  match pages with
  | first :: _ => ret first
  | [] => on_machine (browser_newPage browser)
  end.

(** [closeBrowser()] *)
Definition closeBrowser : M (State W Br) unit :=
  fun s =>
    match browserInstance s with
    | Some instance =>
        (on_machine (browser_close instance) ;;
         modify (fun s' => {| browserInstance := None; machine := machine s' |})) s
    | None => Ok tt s
    end.

End Singleton.

End BrowserTs.

(* ===================================================================== *)
(** ** src/amazon.ts: search, cart view and login check *)
(* ===================================================================== *)

Module AmazonQueries.
Import Js Amazon.
Open Scope string_scope.
Open Scope js_scope.

(** What the [page.evaluate] callback of [searchProducts] reads off one
    [[data-component-type="s-search-result"]] element; [None] is
    [undefined] or [null]. *)
Record SearchElement : Type := {
  title_text : option string;      (* querySelector('h2 a span')?.textContent?.trim() *)
  price_whole : option string;     (* textContent of .a-price-whole, when the element is there *)
  price_fraction : option string;  (* textContent of .a-price-fraction, when the element is there *)
  rating_text : option string;     (* querySelector('.a-icon-star-small span')?.textContent?.trim() *)
  image_src : option string;       (* querySelector('img.s-image')?.getAttribute('src') *)
  data_asin : option string        (* getAttribute('data-asin') *)
}.

(** What the callback of [getCart] reads off one [.sc-list-item] element. *)
Record CartElement : Type := {
  product_title : option string;   (* querySelector('.sc-product-title')?.textContent?.trim() *)
  product_price : option string;   (* querySelector('.sc-product-price')?.textContent?.trim() *)
  quantity_value : option string;  (* querySelector('[name^="quantity"]')?.value *)
  cart_image_src : option string;  (* querySelector('img')?.getAttribute('src') *)
  cart_data_asin : option string   (* getAttribute('data-asin') *)
}.

(** The document under the page, and [parseInt] as its result comes back
    from the page. *)
Class Dom (B : Type) : Type := {
  (** [Array.from(document.querySelectorAll('[data-component-type="s-search-result"]'))] *)
  search_result_elements : M B (list SearchElement);
  (** [Array.from(document.querySelectorAll('[data-name="Active Items"] .sc-list-item'))] *)
  cart_item_elements : M B (list CartElement);
  (** [document.querySelector(sel)?.textContent] *)
  page_textContent : string -> M B (option string);
  parseInt : string -> json
}.

Section Queries.
Context {RT : Runtime} {B : Type} {BR : Browser B} {DM : Dom B}.

(** [process.env.AMAZON_DOMAIN] *)
Variable env : option string.

(** [s || fallback] *)
Definition or_default (s : option string) (fallback : string) : string :=
  if supplied s then text_of s else fallback.

(** ['[data-component-type="s-search-result"]'] *)
Definition SEARCH_RESULT : string :=
  "[data-component-type=" ++ DQ ++ "s-search-result" ++ DQ ++ "]".

(** The object the callback of [searchProducts] returns for one element. *)
Definition search_item (item : SearchElement) : json :=
  JObj [("title", JStr (or_default (title_text item) "Unknown"));
        ("price", JStr (match price_whole item, price_fraction item with
                        | Some whole, Some fraction => "$" ++ whole ++ fraction
                        | _, _ => "Price not available"
                        end));
        ("rating", JStr (or_default (rating_text item) "No rating"));
        ("imageUrl", JStr (or_default (image_src item) EmptyString));
        ("asin", JStr (or_default (data_asin item) EmptyString))].

(** The text of [results.length] and [items.length]. *)
Definition count_text {A} (l : list A) : string :=
  Number_toString (inject_Z (Z.of_nat (length l))).

(** [searchProducts(query)] *)
Definition searchProducts (query : string) : M B OperationResult :=
  try_catch
    (getPage ;;
     page_goto (BASE_URL env) ;;
     page_waitForSelector "#twotabsearchtextbox" None ;;
     page_type "#twotabsearchtextbox" query ;;
     page_click "#nav-search-submit-button" ;;
     page_waitForSelector SEARCH_RESULT None ;;
     items <- search_result_elements ;;
     let results := map search_item (firstn 5 items) in
     ret {| success := true;
            message := "Found " ++ count_text results ++ " products";
            data := Some (JArr results);
            error := None |})
    (fun e =>
       ret {| success := false;
              message := "Failed to search products";
              data := None;
              error := Some (error_text e) |}).

(** The object the callback of [getCart] returns for one element. *)
Definition cart_item (item : CartElement) : json :=
  JObj [("title", JStr (or_default (product_title item) "Unknown"));
        ("price", JStr (or_default (product_price item) "N/A"));
        ("quantity", if supplied (quantity_value item)
                     then parseInt (text_of (quantity_value item))
                     else JNum 1);
        ("asin", JStr (or_default (cart_data_asin item) EmptyString));
        ("imageUrl", JStr (or_default (cart_image_src item) EmptyString))].

(** [getCart()] *)
Definition getCart : M B OperationResult :=
  try_catch
    (getPage ;;
     page_goto (BASE_URL env ++ "/gp/cart/view.html") ;;
     emptyCart <- page_query ".sc-your-amazon-cart-is-empty" ;;
     if emptyCart
     then ret {| success := true;
                 message := "Cart is empty";
                 data := Some (JObj [("items", JArr []); ("total", JStr "$0.00")]);
                 error := None |}
     else
       elements <- cart_item_elements ;;
       let items := map cart_item elements in
       found <- page_trimmed_text "#sc-subtotal-amount-activecart .sc-price" ;;
       let subtotal := or_default found "$0.00" in
       ret {| success := true;
              message := "Cart contains " ++ count_text items ++ " item(s)";
              data := Some (JObj [("items", JArr items); ("subtotal", JStr subtotal)]);
              error := None |})
    (fun e =>
       ret {| success := false;
              message := "Failed to get cart contents";
              data := None;
              error := Some (error_text e) |}).

(** [accountList?.textContent?.includes('Hello') || false] *)
Definition says_hello (text : option string) : bool :=
  match text with
  | Some t => SessionManager.includes t "Hello"
  | None => false
  end.

(** [checkLoginStatus()] *)
Definition checkLoginStatus : M B OperationResult :=
  try_catch
    (getPage ;;
     page_goto (BASE_URL env) ;;
     text <- page_textContent "#nav-link-accountList-nav-line-1" ;;
     let isLoggedIn := says_hello text in
     ret {| success := true;
            message := if isLoggedIn then "Logged in to Amazon" else "Not logged in";
            data := Some (JObj [("loggedIn", JBool isLoggedIn)]);
            error := None |})
    (fun e =>
       ret {| success := false;
              message := "Failed to check login status";
              data := None;
              error := Some (error_text e) |}).

End Queries.

End AmazonQueries.

(* ===================================================================== *)
(** ** src/session-manager.ts: the login probe *)
(* ===================================================================== *)

Module SessionProbe.
Import Js.
Open Scope string_scope.
Open Scope js_scope.

(** The page, as far as [isLoggedIn] uses it. *)
Class AccountPage (P : Type) : Type := {
  (** [page.evaluate] of
      [document.querySelector('#nav-link-accountList-nav-line-1')?.textContent?.trim() || ''] *)
  account_text : M P string
}.

Section Probe.
Context {P : Type} {AP : AccountPage P}.

(** [isLoggedIn(page)] *)
Definition isLoggedIn : M P bool :=
  try_catch
    (accountText <- account_text ;;
     ret (SessionManager.includes accountText "Hello"))
    (fun _ => ret false).

End Probe.

End SessionProbe.

(* ===================================================================== *)
(** ** src/server.ts: start-up and shutdown *)
(* ===================================================================== *)

Module Lifecycle.
Import Js.
Open Scope string_scope.
Open Scope js_scope.

(** What the two callbacks use of browser.ts and session-manager.ts. *)
Class Host (W Pg : Type) : Type := {
  getBrowser : M W unit;                       (* its result is not used here *)
  getPage : M W Pg;
  restoreAmazonSession : Pg -> M W bool;
  saveAmazonSession : Pg -> M W unit;
  page_goto : Pg -> string -> M W unit;        (* waitUntil: 'networkidle2' *)
  closeBrowser : M W unit
}.

(** [process.env.PORT] and [process.env.AMAZON_DOMAIN] *)
Record Env : Type := {
  PORT : option string;
  AMAZON_DOMAIN : option string
}.

(** The lines the two callbacks print. *)
Inductive ConsoleLine : Type :=
| Running (port : string)            (* Amazon MCP Server running on port ${PORT} *)
| UseNgrok (port : string)           (* Use ngrok to expose: ngrok http ${PORT} *)
| HealthCheck (port : string)        (* Health check: http://localhost:${PORT}/health *)
| Initializing                       (* Initializing browser... *)
| OpenedRestored                     (* Browser opened with restored session! *)
| OpenedFresh                        (* Browser opened! Please log into Amazon if needed. *)
| WillBeSaved                        (* Your session will be automatically saved. *)
| AutoSaved                          (* Session auto-saved *)
| AutoSaveFailed (error : thrown)    (* Failed to auto-save session: *)
| InitFailed (error : thrown)        (* Failed to initialize browser: *)
| ShuttingDown                       (* Shutting down... *)
| SavedBeforeShutdown                (* Session saved before shutdown *)
| ShutdownSaveFailed (error : thrown). (* Failed to save session before shutdown: *)

(** The Node process: the host, the console, the intervals set with
    [setInterval] (in milliseconds) and the code [process.exit] was called
    with, if it was. *)
Record Process (W : Type) : Type := {
  host : W;
  console : list ConsoleLine;
  intervals : list Z;
  exited : option Z
}.

Section Callbacks.
Context {W Pg : Type} {HS : Host W Pg}.
Variable env : Env.

(** [process.env.PORT || 3000], as the templates print it *)
Definition port : string :=
  match PORT env with
  | Some p => if p =? EmptyString then "3000" else p
  | None => "3000"
  end.

(** [process.env.AMAZON_DOMAIN || 'amazon.com'] *)
Definition domain : string :=
  match AMAZON_DOMAIN env with
  | Some d => if d =? EmptyString then "amazon.com" else d
  | None => "amazon.com"
  end.

Definition on_host {A} (m : M W A) : M (Process W) A :=
  lift (@host W)
       (fun h p => {| host := h; console := console p;
                      intervals := intervals p; exited := exited p |}) m.

Definition console_print (line : ConsoleLine) : M (Process W) unit :=
  modify (fun p => {| host := host p; console := console p ++ [line];
                      intervals := intervals p; exited := exited p |}).


Definition process_exit (code : Z) : M (Process W) unit :=
  modify (fun p => {| host := host p; console := console p;
                      intervals := intervals p; exited := Some code |}).



(** The listener of [process.on('SIGINT', ...)]. *)
Definition SIGINT : M (Process W) unit :=
  console_print ShuttingDown ;;
  try_catch
    (page <- on_host getPage ;;
     on_host (saveAmazonSession page) ;;
     console_print SavedBeforeShutdown)
    (fun error => console_print (ShutdownSaveFailed error)) ;;
  on_host closeBrowser ;;
  process_exit 0.

End Callbacks.

End Lifecycle.

(** A host whose Chrome is installed or not: without it [getBrowser] and
    [getPage] throw; everything else goes through. *)
Module SampleHost.
Import Js.
Open Scope string_scope.

Definition needs_chrome {A} (a : A) : M bool A :=
  fun installed =>
    if installed then Ok a installed
    else Raise (ErrorObject "Could not find Chrome") installed.

#[local] Instance laptop : Lifecycle.Host bool unit := {
  Lifecycle.getBrowser := needs_chrome tt;
  Lifecycle.getPage := needs_chrome tt;
  Lifecycle.restoreAmazonSession _ := ret false;
  Lifecycle.saveAmazonSession _ := ret tt;
  Lifecycle.page_goto _ _ := ret tt;
  Lifecycle.closeBrowser := ret tt
}.


Definition booting (installed : bool) : Lifecycle.Process bool :=
  {| Lifecycle.host := installed; Lifecycle.console := [];
     Lifecycle.intervals := []; Lifecycle.exited := None |}.

End SampleHost.

(* ===================================================================== *)
(** ** More sample environments *)
(* ===================================================================== *)

Module SampleMore.
Import Js.
Open Scope string_scope.

(** A machine that counts the launches it has seen; a browser is its launch
    number, connected until closed; it has no page open until one is asked
    for. *)
Record Machine : Type := {
  launches : nat;
  closed : list nat
}.

#[local] Instance desktop : BrowserTs.Puppeteer Machine nat nat := {
  puppeteer_launch _ :=
    fun m => Ok (S (launches m)) {| launches := S (launches m); closed := closed m |};
  browser_connected b m := negb (existsb (Nat.eqb b) (closed m));
  browser_pages _ := ret [];
  browser_newPage b := ret b;
  browser_close b :=
    modify (fun m => {| launches := launches m; closed := b :: closed m |});
  path_resolve p := "/srv/amazon-mcp/" ++ p
}.

Definition plain_env : BrowserTs.Env :=
  {| BrowserTs.USER_DATA_DIR := None; BrowserTs.HEADLESS := None |}.

Definition cold : BrowserTs.State Machine nat :=
  {| BrowserTs.browserInstance := None;
     BrowserTs.machine := {| launches := 0; closed := [] |} |}.

(** A document with seven search results, a cart of one item and the
    navigation bar of a visitor who has not signed in. *)
Definition listing (n : string) : AmazonQueries.SearchElement :=
  {| AmazonQueries.title_text := Some ("Mouse " ++ n);
     AmazonQueries.price_whole := Some "19.";
     AmazonQueries.price_fraction := Some "99";
     AmazonQueries.rating_text := None;
     AmazonQueries.image_src := None;
     AmazonQueries.data_asin := Some ("B00" ++ n) |}.

#[local] Instance storefront : AmazonQueries.Dom (list string) := {
  search_result_elements :=
    ret (map listing ["1"; "2"; "3"; "4"; "5"; "6"; "7"]);
  cart_item_elements :=
    ret [{| AmazonQueries.product_title := Some "Mouse 1";
            AmazonQueries.product_price := Some "$19.99";
            AmazonQueries.quantity_value := Some "2";
            AmazonQueries.cart_image_src := None;
            AmazonQueries.cart_data_asin := Some "B001" |}];
  page_textContent _ := ret (Some "Hello, sign in");
  parseInt s := if s =? "2" then JNum 2 else JNull
}.

(** A browser like [Sample.cooperative] whose cart page shows no
    empty-cart marker. *)
#[local] Instance shopper : Amazon.Browser (list string) := {
  getPage := Sample.logged "getPage";
  page_goto url := Sample.logged ("goto " ++ url);
  page_waitForSelector sel _ := Sample.logged ("waitForSelector " ++ sel);
  page_type sel text := Sample.logged ("type " ++ sel ++ " " ++ text);
  page_click sel := Sample.logged ("click " ++ sel);
  page_waitForNavigation := Sample.logged "waitForNavigation";
  page_trimmed_text _ := ret (Some "$39.98");
  page_select sel v := Sample.logged ("select " ++ sel ++ " " ++ v);
  page_query _ := ret false;
  handle_click sel := Sample.logged ("click handle " ++ sel);
  sleep _ := ret tt
}.

#[local] Instance signed_out : SessionProbe.AccountPage unit := {
  account_text := ret "Hello, sign in"
}.

(** Two streams, the first of which reads [res.writable] as [false] and
    is still in the map. *)
Definition unwritable_then_live : Server.World unit :=
  {| Server.activeConnections :=
       [{| Server.res := {| Server.writable := false; Server.written := [] |};
           Server.sessionId := "session_1_a" |};
        Sample.fresh_stream "session_2_b"];
     Server.browser := tt |}.

(** A cookie of another site whose domain has the word in it. *)
Definition lookalike_cookie : SessionManager.SerializedCookie :=
  {| SessionManager.name := "sid";
     SessionManager.value := "1";
     SessionManager.domain := "notamazon.example.org";
     SessionManager.path := "/";
     SessionManager.expires := 1800000000;
     SessionManager.httpOnly := false;
     SessionManager.secure := false;
     SessionManager.sameSite := SessionManager.Lax |}.

End SampleMore.

(* ===================================================================== *)
(** ** Notions the further properties are stated with *)
(* ===================================================================== *)

Module Notions.
Import Js.
Open Scope string_scope.

(** The first character of [s] is white space. *)
Definition starts_with_space (s : string) : bool :=
  match s with
  | String c _ => Server.is_space c
  | EmptyString => false
  end.

(** [s] is white space throughout. *)
Fixpoint blank (s : string) : bool :=
  match s with
  | String c rest => Server.is_space c && blank rest
  | EmptyString => true
  end.

(** The keys of the connection map, in order. *)
Definition ids (m : Server.ConnectionMap) : list string :=
  map Server.sessionId m.

(** The world a computation leaves, whether it returned or threw. *)
Definition world_after {W A} (o : outcome W A) : W :=
  match o with
  | Ok _ w => w
  | Raise _ w => w
  end.

(** What a computation returned, if it did. *)
Definition returned {W A} (o : outcome W A) : option A :=
  match o with
  | Ok a _ => Some a
  | Raise _ _ => None
  end.

(** The [name] of an entry of the tools list. *)
Definition tool_name (entry : json) : string :=
  match prop entry "name" with
  | Some (JStr n) => n
  | _ => EmptyString
  end.

(** All of a cookie but its expiry. *)
Definition identity (c : SessionManager.SerializedCookie)
  : string * string * string * string * bool * bool * SessionManager.SameSite :=
  (SessionManager.name c, SessionManager.value c, SessionManager.domain c,
   SessionManager.path c, SessionManager.httpOnly c, SessionManager.secure c,
   SessionManager.sameSite c).

(** The uniform envelope of the capabilities: a success with data and no
    error, or a failure with the given message, an error and no data. *)
Definition envelope (failure : string) (r : Amazon.OperationResult) : Prop :=
  (Amazon.success r = true /\ Amazon.data r <> None /\ Amazon.error r = None) \/
  (Amazon.success r = false /\ Amazon.data r = None /\ Amazon.error r <> None /\
   Amazon.message r = failure).



(** The [title] of an item of a result list. *)
Definition item_title (item : json) : string :=
  match prop item "title" with
  | Some (JStr t) => t
  | _ => EmptyString
  end.

Section Table.
Context {RT : Runtime} {B : Type} {TL : Server.Tools B}.

(** The gates of the /message handler, in the order the handler has them:
    [handled body w reply w'] says which gate answers [body] in the world
    [w], with what, and what world it leaves. *)
Inductive handled : option json -> Server.World B -> Server.HttpReply -> Server.World B -> Prop :=
| invalid_request (body : option json) (w : Server.World B) :
    match body with
    | Some request => truthy_opt (prop request "method")
    | None => false
    end = false ->
    handled body w
            {| Server.status := 400;
               Server.payload := Some (Server.error_body (-32600) "Invalid Request" JNull) |}
            w
| no_connection (request : json) (w : Server.World B) :
    truthy_opt (prop request "method") = true ->
    Server.activeConnections w = [] ->
    handled (Some request) w
            {| Server.status := 503;
               Server.payload := Some (Server.error_body (-32000) "No active connection"
                                                         (Server.id_or_null request)) |}
            w
| notification (request : json) (w : Server.World B)
               (c : Server.SSEConnection) (rest : Server.ConnectionMap) :
    truthy_opt (prop request "method") = true ->
    Server.activeConnections w = c :: rest ->
    prop request "id" = None ->
    handled (Some request) w Server.accepted w
| internal_error (request : json) (w : Server.World B)
                 (c : Server.SSEConnection) (rest : Server.ConnectionMap)
                 (id : json) (e : thrown) (b' : B) :
    truthy_opt (prop request "method") = true ->
    Server.activeConnections w = c :: rest ->
    prop request "id" = Some id ->
    Server.route request (Server.browser w) = Raise e b' ->
    handled (Some request) w
            {| Server.status := 500;
               Server.payload := Some (Server.error_body (-32603) "Internal error"
                                                         (Server.id_or_null request)) |}
            {| Server.activeConnections := Server.activeConnections w;
               Server.browser := b' |}
| connection_closed (request : json) (w : Server.World B)
                    (c : Server.SSEConnection) (rest : Server.ConnectionMap)
                    (id response : json) (b' : B) :
    truthy_opt (prop request "method") = true ->
    Server.activeConnections w = c :: rest ->
    prop request "id" = Some id ->
    Server.route request (Server.browser w) = Ok response b' ->
    Server.writable (Server.res c) = false ->
    handled (Some request) w
            {| Server.status := 503;
               Server.payload := Some (Server.error_body (-32000) "SSE connection closed"
                                                         (Server.id_or_null request)) |}
            {| Server.activeConnections := Server.activeConnections w;
               Server.browser := b' |}
| delivered (request : json) (w : Server.World B)
            (c : Server.SSEConnection) (rest : Server.ConnectionMap)
            (id response : json) (b' : B) :
    truthy_opt (prop request "method") = true ->
    Server.activeConnections w = c :: rest ->
    prop request "id" = Some id ->
    Server.route request (Server.browser w) = Ok response b' ->
    Server.writable (Server.res c) = true ->
    handled (Some request) w Server.accepted
            {| Server.activeConnections :=
                 {| Server.res := Server.sendSSEMessage (Server.res c) response;
                    Server.sessionId := Server.sessionId c |} :: rest;
               Server.browser := b' |}.

(** What [tools/call] runs for the [save_session] tool. *)
Definition save_session_tool : M B json :=
  bind Server.getPage (fun _ =>
  bind Server.saveAmazonSession (fun _ =>
  ret (JObj [("success", JBool true);
             ("message", JStr "Amazon session saved successfully. Your login will persist across server restarts.")]))).

End Table.

End Notions.

(* ===================================================================== *)
(** ** Properties of the credential store *)
(* ===================================================================== *)

Unset Implicit Arguments.

Module SessionManagerProperties.
Import Js SessionManager.
Open Scope Q_scope.

Lemma Qltb_lt (a b : Q) : Qltb a b = true <-> a < b.
Proof.
  unfold Qltb. rewrite negb_true_iff. split.
  - intros H. apply Qnot_le_lt. intros Hle.
    apply Qle_bool_iff in Hle. congruence.
  - intros H. destruct (Qle_bool b a) eqn:E; [|reflexivity].
    apply Qle_bool_iff in E. exfalso. exact (Qlt_not_le _ _ H E).
Qed.

Lemma Qltb_ge (a b : Q) : Qltb a b = false <-> b <= a.
Proof.
  unfold Qltb. rewrite negb_false_iff. apply Qle_bool_iff.
Qed.

Lemma has_expiry_pos (c : SerializedCookie) :
  has_expiry c = true <-> 0 < expires c.
Proof.
  unfold has_expiry. rewrite andb_true_iff, negb_true_iff, Qltb_lt. split.
  - tauto.
  - intros H. split; [|exact H].
    destruct (Qeq_bool (expires c) 0) eqn:E; [|reflexivity].
    apply Qeq_bool_iff in E. rewrite E in H. exfalso. exact (Qlt_irrefl _ H).
Qed.

Lemma with_expires_same (c : SerializedCookie) : with_expires c (expires c) = c.
Proof. destruct c; reflexivity. Qed.

(** Less than 365 days on the millisecond clock is less than the year the
    save adds, in seconds. *)
Lemma within_a_year (now_save now_restore : Z) :
  (now_restore < now_save + 31536000000)%Z ->
  seconds now_restore < oneYearFromNow now_save.
Proof.
  intros H. unfold oneYearFromNow, seconds, Qlt. cbn. lia.
Qed.

(** The clock in seconds grows with the clock in milliseconds. *)
Lemma seconds_le (earlier later : Z) :
  (earlier <= later)%Z -> seconds earlier <= seconds later.
Proof.
  intros H. unfold seconds, Qle. cbn. lia.
Qed.

(** Reduce, using [H] wherever a reduction brings its left side up. *)
Ltac run_with H := repeat (progress (simpl; rewrite ?H)).

Section WithPage.
Context {P : Type} {CP : CookiePage P}.

(** Every cookie handed to [page.setCookie] expires after [now]. *)
Lemma validCookies_fresh (now : Q) (cookies : list SerializedCookie) (c : SerializedCookie) :
  In c (validCookies now cookies) <-> In c cookies /\ now < expires c.
Proof.
  unfold validCookies. rewrite filter_In, Qltb_lt. reflexivity.
Qed.

Lemma validCookies_all_expired (now : Q) (cookies : list SerializedCookie) :
  Forall (fun c => expires c <= now) cookies -> validCookies now cookies = [].
Proof.
  induction 1 as [|c cs Hc _ IH]; [reflexivity|].
  unfold validCookies in *. simpl.
  apply Qltb_ge in Hc. rewrite Hc. exact IH.
Qed.

(** What a save leaves on disk when the page gives its cookies and the
    file can be written. *)
Lemma save_writes_file (now_ms : Z) (w : World P) (cs : list SerializedCookie) (p' : P) :
  page_cookies (page w) = Ok cs p' ->
  can_write (disk w) = true ->
  exists lines,
    saveAmazonSession now_ms w =
    Ok tt {| page := p';
             disk := {| can_write := true;
                        cookies_file :=
                          Some (CookieArray (persistentCookies now_ms (amazonCookies cs)));
                        torn := torn (disk w) |};
             console := console w ++ lines |}.
Proof.
  intros Hc Hw.
  unfold saveAmazonSession, try_catch, bind, on_page, lift, fs_writeFileSync,
    console_print, modify, ret.
  rewrite Hc. simpl. rewrite Hw. simpl.
  destruct (0 <? length (sessionCookies (amazonCookies cs)))%nat; simpl.
  - rewrite <- app_assoc. eexists. reflexivity.
  - eexists. reflexivity.
Qed.

(** [saveAmazonSession] and [restoreAmazonSession] catch whatever their
    bodies throw. *)
Lemma save_never_raises (now_ms : Z) (w : World P) :
  exists w', saveAmazonSession now_ms w = Ok tt w'.
Proof.
  unfold saveAmazonSession, try_catch, bind, on_page, lift, fs_writeFileSync,
    console_print, modify, ret.
  destruct (page_cookies (page w)) as [cs p'|e p']; simpl; [|eauto].
  destruct (can_write (disk w)); simpl; [|destruct (torn (disk w)); eauto].
  destruct (0 <? length (sessionCookies (amazonCookies cs)))%nat; eauto.
Qed.

(** A restore with something to apply hands exactly the unexpired cookies
    of the file to [page.setCookie] and answers [true] when that call
    returns. *)
Lemma restore_applies_valid (now_ms : Z) (w : World P)
      (cs : list SerializedCookie) (p' : P) :
  cookies_file (disk w) = Some (CookieArray cs) ->
  validCookies (seconds now_ms) cs <> [] ->
  page_setCookie (validCookies (seconds now_ms) cs) (page w) = Ok tt p' ->
  exists lines,
    restoreAmazonSession now_ms w =
    Ok true {| page := p'; disk := disk w; console := console w ++ lines |}.
Proof.
  intros Hf Hne Hset.
  unfold restoreAmazonSession, try_catch, bind, on_page, lift, fs_existsSync,
    fs_readFileSync, JSON_parse, console_print, modify, gets, ret.
  run_with Hf.
  destruct (length (validCookies (seconds now_ms) cs) =? 0)%nat eqn:E0.
  { apply Nat.eqb_eq, length_zero_iff_nil in E0. congruence. }
  run_with Hset.
  destruct (length (validCookies (seconds now_ms) cs) <? length cs)%nat; simpl.
  - rewrite <- app_assoc. eexists. reflexivity.
  - eexists. reflexivity.
Qed.

Lemma restore_absent (now_ms : Z) (w : World P) :
  cookies_file (disk w) = None ->
  restoreAmazonSession now_ms w =
  Ok false {| page := page w; disk := disk w;
              console := console w ++ [LogNoSavedSession] |}.
Proof.
  intros Hf.
  unfold restoreAmazonSession, try_catch, bind, fs_existsSync, console_print,
    modify, gets, ret.
  run_with Hf. reflexivity.
Qed.

Lemma restore_unparseable (now_ms : Z) (w : World P) (raw msg : string) :
  cookies_file (disk w) = Some (Unparseable raw msg) ->
  restoreAmazonSession now_ms w =
  Ok false {| page := page w; disk := disk w;
              console := console w ++ [ErrRestoreFailed (ErrorObject msg)] |}.
Proof.
  intros Hf.
  unfold restoreAmazonSession, try_catch, bind, fs_existsSync, fs_readFileSync,
    JSON_parse, console_print, modify, gets, ret, throw.
  run_with Hf. reflexivity.
Qed.

Lemma restore_all_expired (now_ms : Z) (w : World P) (cs : list SerializedCookie) :
  cookies_file (disk w) = Some (CookieArray cs) ->
  Forall (fun c => expires c <= seconds now_ms) cs ->
  restoreAmazonSession now_ms w =
  Ok false {| page := page w; disk := disk w;
              console := console w ++ [LogAllExpired] |}.
Proof.
  intros Hf Hall.
  unfold restoreAmazonSession, try_catch, bind, fs_existsSync, fs_readFileSync,
    JSON_parse, console_print, modify, gets, ret.
  run_with Hf. rewrite (validCookies_all_expired _ _ Hall). reflexivity.
Qed.

Lemma restore_never_raises (now_ms : Z) (w : World P) :
  exists b w', restoreAmazonSession now_ms w = Ok b w'.
Proof.
  destruct (cookies_file (disk w)) as [[raw msg|cs]|] eqn:Hf.
  - rewrite (restore_unparseable now_ms w raw msg Hf). eauto.
  - unfold restoreAmazonSession, try_catch, bind, on_page, lift, fs_existsSync,
      fs_readFileSync, JSON_parse, console_print, modify, gets, ret.
    run_with Hf.
    destruct (length (validCookies (seconds now_ms) cs) =? 0)%nat; simpl; eauto.
    destruct (page_setCookie (validCookies (seconds now_ms) cs) (page w)); simpl; eauto.
    destruct (length (validCookies (seconds now_ms) cs) <? length cs)%nat; simpl; eauto.
  - rewrite (restore_absent now_ms w Hf). eauto.
Qed.

(** A restore that finds nothing unexpired in the file. *)
Lemma restore_nothing_valid (now_ms : Z) (w : World P) (cs : list SerializedCookie) :
  cookies_file (disk w) = Some (CookieArray cs) ->
  validCookies (seconds now_ms) cs = [] ->
  restoreAmazonSession now_ms w =
  Ok false {| page := page w; disk := disk w;
              console := console w ++ [LogAllExpired] |}.
Proof.
  intros Hf Hnil.
  unfold restoreAmazonSession, try_catch, bind, fs_existsSync, fs_readFileSync,
    JSON_parse, console_print, modify, gets, ret.
  run_with Hf. rewrite Hnil. reflexivity.
Qed.

(** What is restored at [now_restore] of the cookies [tokens] of the page
    saved at [now_save] is put together cookie by cookie. *)
Lemma round_trip_app (now_save now_restore : Z) (l1 l2 : list SerializedCookie) :
  validCookies (seconds now_restore)
               (persistentCookies now_save (amazonCookies (l1 ++ l2)%list))
  = (validCookies (seconds now_restore) (persistentCookies now_save (amazonCookies l1))
     ++ validCookies (seconds now_restore)
                     (persistentCookies now_save (amazonCookies l2)))%list.
Proof.
  unfold validCookies, persistentCookies, amazonCookies.
  rewrite filter_app, map_app, filter_app. reflexivity.
Qed.

(** A cookie with an expiry is stored as it is, and is not restored once
    that expiry is reached. *)
Lemma round_trip_expired (now_save now_restore : Z) (c : SerializedCookie) :
  has_expiry c = true ->
  expires c <= seconds now_restore ->
  validCookies (seconds now_restore) (persistentCookies now_save (amazonCookies [c])) = [].
Proof.
  intros Hyes Hpast. unfold validCookies, persistentCookies, amazonCookies. simpl.
  destruct (includes (domain c) "amazon"); [|reflexivity].
  simpl. rewrite Hyes. simpl.
  apply Qltb_ge in Hpast. rewrite Hpast. reflexivity.
Qed.

(** An Amazon cookie without an expiry is stored with the expiry one year
    after the save, and restored until then. *)
Lemma round_trip_session (now_save now_restore : Z) (c : SerializedCookie) :
  includes (domain c) "amazon" = true ->
  has_expiry c = false ->
  seconds now_restore < oneYearFromNow now_save ->
  validCookies (seconds now_restore) (persistentCookies now_save (amazonCookies [c]))
  = [with_expires c (oneYearFromNow now_save)].
Proof.
  intros Ham Hno Hlt. unfold validCookies, persistentCookies, amazonCookies. simpl.
  rewrite Ham. simpl. rewrite Hno. simpl.
  apply Qltb_lt in Hlt. rewrite Hlt. reflexivity.
Qed.

(** C5, as amended.  Round trip of the credential store: when a save has
    gone through (the page gave its cookies, the file was written), a
    restore hands [page.setCookie] exactly the saved cookies that expire
    after the time of the restore, and nothing when there is none.  This
    restored set is put together token by token, in the page's order.  An
    Amazon token saved with no expiry contributes one cookie, itself with
    the expiry one year after the save, which is after the time of the
    restore whenever the restore comes less than one year (365 days) after
    the save.  A token saved with an expiry that is not after the time of
    the restore contributes nothing, under no expiry: the restored set is
    the one the page without that token gives; so it is with a token whose
    expiry was already past when it was saved, the restore coming after
    the save.  Every cookie of the restored set expires after the time of
    the restore. *)
Theorem token_expiry_round_trip
        (now_save now_restore : Z) (w : World P)
        (cs : list SerializedCookie) (p' : P) :
  page_cookies (page w) = Ok cs p' ->
  can_write (disk w) = true ->
  exists w1 : World P,
    saveAmazonSession now_save w = Ok tt w1 /\
    page w1 = p' /\
    let restored_of := fun tokens =>
      validCookies (seconds now_restore)
                   (persistentCookies now_save (amazonCookies tokens)) in
    (forall p2, restored_of cs <> [] -> page_setCookie (restored_of cs) p' = Ok tt p2 ->
                exists w2, restoreAmazonSession now_restore w1 = Ok true w2 /\
                           page w2 = p2) /\
    (restored_of cs = [] ->
     exists w2, restoreAmazonSession now_restore w1 = Ok false w2 /\ page w2 = p') /\
    (forall before c after,
        cs = (before ++ c :: after)%list ->
        includes (domain c) "amazon" = true -> has_expiry c = false ->
        (now_restore < now_save + 31536000000)%Z ->
        restored_of cs
        = (restored_of before
           ++ with_expires c (oneYearFromNow now_save) :: restored_of after)%list /\
        seconds now_restore < expires (with_expires c (oneYearFromNow now_save))) /\
    (forall before c after,
        cs = (before ++ c :: after)%list ->
        has_expiry c = true ->
        expires c <= seconds now_restore ->
        restored_of cs = restored_of (before ++ after)%list) /\
    (forall before c after,
        cs = (before ++ c :: after)%list ->
        has_expiry c = true ->
        expires c <= seconds now_save ->
        (now_save <= now_restore)%Z ->
        restored_of cs = restored_of (before ++ after)%list) /\
    (forall r, In r (restored_of cs) -> seconds now_restore < expires r).
Proof.
  intros Hc Hw.
  destruct (save_writes_file now_save w cs p' Hc Hw) as [lines Hsave].
  eexists. split; [exact Hsave|]. split; [reflexivity|].
  cbv zeta.
  assert (Hgone : forall before c after,
             cs = (before ++ c :: after)%list ->
             has_expiry c = true ->
             expires c <= seconds now_restore ->
             validCookies (seconds now_restore)
                          (persistentCookies now_save (amazonCookies cs))
             = validCookies (seconds now_restore)
                            (persistentCookies now_save
                               (amazonCookies (before ++ after)%list))).
  { intros before c after -> Hyes Hpast.
    change (c :: after) with ([c] ++ after)%list.
    rewrite !round_trip_app.
    rewrite (round_trip_expired now_save now_restore c Hyes Hpast). reflexivity. }
  split; [|split; [|split; [|split; [|split]]]].
  - intros p2 Hne Hset.
    edestruct (restore_applies_valid now_restore) as [lines' Hr];
      [ | exact Hne | | rewrite Hr; eexists; split; reflexivity ].
    + reflexivity.
    + exact Hset.
  - intros Hnil.
    erewrite restore_nothing_valid; [eexists; split; reflexivity|reflexivity|exact Hnil].
  - intros before c after -> Ham Hno Hyear.
    pose proof (within_a_year now_save now_restore Hyear) as Hlt.
    split; [|exact Hlt].
    change (c :: after) with ([c] ++ after)%list.
    rewrite !round_trip_app.
    rewrite (round_trip_session now_save now_restore c Ham Hno Hlt). reflexivity.
  - exact Hgone.
  - intros before c after Hcs Hyes Hpast Hthen.
    apply (Hgone before c after Hcs Hyes).
    apply Qle_trans with (seconds now_save); [exact Hpast|].
    apply seconds_le. exact Hthen.
  - intros r Hin. apply validCookies_fresh in Hin. exact (proj2 Hin).
Qed.

(** C6.  When the cookie file is absent, is not parseable, or holds only
    expired cookies, [restoreAmazonSession] returns [false], leaves the
    page as it was (nothing is applied), prints one line, and does not
    throw. *)
Theorem restore_without_usable_file (now_ms : Z) (w : World P) :
  (cookies_file (disk w) = None \/
   (exists raw msg, cookies_file (disk w) = Some (Unparseable raw msg)) \/
   (exists cs, cookies_file (disk w) = Some (CookieArray cs) /\
               Forall (fun c => expires c <= seconds now_ms) cs)) ->
  exists line,
    restoreAmazonSession now_ms w =
    Ok false {| page := page w; disk := disk w; console := console w ++ [line] |}.
Proof.
  intros [Hf | [(raw & msg & Hf) | (cs & Hf & Hall)]].
  - exists LogNoSavedSession. exact (restore_absent now_ms w Hf).
  - exists (ErrRestoreFailed (ErrorObject msg)).
    exact (restore_unparseable now_ms w raw msg Hf).
  - exists LogAllExpired. exact (restore_all_expired now_ms w cs Hf Hall).
Qed.

End WithPage.

#[local] Existing Instance Sample.jar.

(** The round trip on a first run, restored one second after the save: the
    page is handed the session cookie with its one-year expiry and nothing
    else; the restored set is the one the session cookie alone gives. *)
Lemma token_expiry_round_trip_witness :
  let restored_of := fun tokens =>
    validCookies (seconds (Sample.clock + 1000))
                 (persistentCookies Sample.clock (amazonCookies tokens)) in
  (exists w1 w2,
      saveAmazonSession Sample.clock Sample.first_run = Ok tt w1 /\
      restoreAmazonSession (Sample.clock + 1000) w1 = Ok true w2 /\
      page w2 = [Sample.session_cookie; Sample.stale_cookie;
                 with_expires Sample.session_cookie (oneYearFromNow Sample.clock)]) /\
  restored_of [Sample.session_cookie; Sample.stale_cookie]
  = (restored_of [] ++ with_expires Sample.session_cookie (oneYearFromNow Sample.clock)
       :: restored_of [Sample.stale_cookie])%list /\
  restored_of [Sample.session_cookie; Sample.stale_cookie]
  = restored_of [Sample.session_cookie].
Proof.
  intros restored_of. subst restored_of.
  destruct (token_expiry_round_trip (CP := Sample.jar)
              Sample.clock (Sample.clock + 1000) Sample.first_run
              [Sample.session_cookie; Sample.stale_cookie]
              [Sample.session_cookie; Sample.stale_cookie]
              eq_refl eq_refl)
    as (w1 & Hsave & _ & Happlied & _ & Hsession & _ & Hstale & _).
  split; [|split].
  - destruct (Happlied
                [Sample.session_cookie; Sample.stale_cookie;
                 with_expires Sample.session_cookie (oneYearFromNow Sample.clock)])
      as (w2 & Hrestore & Hpage).
    + vm_compute. discriminate.
    + vm_compute. reflexivity.
    + exists w1, w2. split; [exact Hsave|]. split; [exact Hrestore|exact Hpage].
  - apply (Hsession [] Sample.session_cookie [Sample.stale_cookie]).
    + reflexivity.
    + reflexivity.
    + reflexivity.
    + unfold Sample.clock. lia.
  - apply (Hstale [Sample.session_cookie] Sample.stale_cookie []).
    + reflexivity.
    + reflexivity.
    + unfold seconds, Sample.clock, Qle. simpl. lia.
    + lia.
Defined.

(** A file that is not JSON: the restore answers [false]. *)
Lemma restore_without_usable_file_witness :
  exists line,
    restoreAmazonSession Sample.clock Sample.corrupt_file =
    Ok false {| page := []; disk := disk Sample.corrupt_file; console := [line] |}.
Proof.
  apply (restore_without_usable_file (CP := Sample.jar) Sample.clock Sample.corrupt_file).
  right. left. exists "[{"%string, "Unexpected end of JSON input"%string. reflexivity.
Defined.

(** C5 as stated fails once a year has gone by: a session cookie saved on a
    first run and restored 365 days later is not handed to the page; the
    restore finds every saved cookie expired and answers [false]. *)
Lemma session_token_gone_after_a_year :
  exists w1 w2,
    saveAmazonSession Sample.clock Sample.first_run = Ok tt w1 /\
    restoreAmazonSession (Sample.clock + 31536000000) w1 = Ok false w2 /\
    page w2 = page Sample.first_run /\
    validCookies (seconds (Sample.clock + 31536000000))
                 (persistentCookies Sample.clock
                    (amazonCookies (page Sample.first_run))) = [].
Proof.
  eexists. eexists.
  split; [vm_compute; reflexivity|].
  split; [vm_compute; reflexivity|].
  split; vm_compute; reflexivity.
Qed.

End SessionManagerProperties.

(* ===================================================================== *)
(** ** Properties of the cart driver *)
(* ===================================================================== *)

Module AmazonProperties.
Import Js Amazon.
Open Scope string_scope.

Lemma bind_Ok {W A C} (m : M W A) (k : A -> M W C) (w w' : W) (r : C) :
  bind m k w = Ok r w' ->
  exists a w1, m w = Ok a w1 /\ k a w1 = Ok r w'.
Proof.
  unfold bind. destruct (m w) as [a w1|e w1]; [eauto|discriminate].
Qed.

Lemma try_catch_Ok {W A} (m : M W A) (h : thrown -> M W A) (w w' : W) (r : A) :
  try_catch m h w = Ok r w' ->
  m w = Ok r w' \/ exists e w1, m w = Raise e w1 /\ h e w1 = Ok r w'.
Proof.
  unfold try_catch. destruct (m w) as [a w1|e w1]; [left; exact H|right; eauto].
Qed.

(** Split a successful [x <- m ;; k] in [H] into its two steps. *)
Ltac bind_inv H :=
  let a := fresh "a" in
  let w := fresh "w" in
  let Hm := fresh "Hm" in
  apply bind_Ok in H; destruct H as (a & w & Hm & H).

Section WithBrowser.
Context {RT : Runtime} {B : Type} {BR : Browser B}.
Variable env : option string.

(** [addToCart] catches whatever its body throws. *)
Lemma addToCart_never_raises (params : AddToCartParams) (b : B) :
  exists r b', addToCart env params b = Ok r b'.
Proof.
  unfold addToCart, try_catch.
  match goal with |- context [match ?m b with _ => _ end] => destruct (m b) end;
    unfold ret; eauto.
Qed.




End WithBrowser.




End AmazonProperties.

(* ===================================================================== *)
(** ** Properties of the relay *)
(* ===================================================================== *)

Module ServerProperties.
Import Js Server.
Open Scope string_scope.

(** Only an object has a [method]. *)
Lemma method_of_object (request : json) :
  truthy_opt (prop request "method") = true ->
  exists fields, request = JObj fields.
Proof.
  destruct request; simpl; try discriminate. eauto.
Qed.

Lemma Map_get_head (c : SSEConnection) (rest : ConnectionMap) :
  Map_get (sessionId c) (c :: rest) = Some c.
Proof. simpl. rewrite String.eqb_refl. reflexivity. Qed.

Lemma on_res_head (f : Response -> Response) (c : SSEConnection) (rest : ConnectionMap) :
  on_res (sessionId c) f (c :: rest)
  = {| res := f (res c); sessionId := sessionId c |} :: rest.
Proof. simpl. rewrite String.eqb_refl. reflexivity. Qed.

Section WithTools.
Context {RT : Runtime} {B : Type} {TL : Tools B}.

(** The validation gate lets a message with a method through. *)
Lemma post_message_valid (request : json) (w : World B) :
  truthy_opt (prop request "method") = true ->
  negb (truthy request) || negb (truthy_opt (prop request "method")) = false.
Proof.
  intros Hm. destruct (method_of_object request Hm) as [fields ->].
  rewrite Hm. reflexivity.
Qed.

(** Without a stream, every message with a method is answered 503. *)
Lemma post_message_no_stream (request : json) (w : World B) :
  truthy_opt (prop request "method") = true ->
  activeConnections w = [] ->
  post_message (Some request) w =
  Ok {| status := 503;
        payload := Some (error_body (-32000) "No active connection"
                                    (id_or_null request)) |} w.
Proof.
  intros Hm Hc. unfold post_message.
  rewrite (post_message_valid request w Hm).
  unfold bind, gets. rewrite Hc. reflexivity.
Qed.

(** A notification, with a stream open: acknowledged, nothing written. *)
Lemma post_message_notification (request : json) (w : World B)
      (c : SSEConnection) (rest : ConnectionMap) :
  truthy_opt (prop request "method") = true ->
  prop request "id" = None ->
  activeConnections w = c :: rest ->
  post_message (Some request) w = Ok accepted w.
Proof.
  intros Hm Hid Hc. unfold post_message.
  rewrite (post_message_valid request w Hm).
  destruct (method_of_object request Hm) as [fields ->].
  simpl in Hid.
  unfold bind, gets, try_catch, isNotification, js_in, ret. rewrite Hc. simpl.
  rewrite Hid. reflexivity.
Qed.

(** A request whose routing completes, with the first stream writable: the
    response goes onto the first stream of the map, as one message frame. *)
Lemma post_message_request (request : json) (w : World B)
      (c : SSEConnection) (rest : ConnectionMap)
      (id response : json) (b' : B) :
  truthy_opt (prop request "method") = true ->
  prop request "id" = Some id ->
  activeConnections w = c :: rest ->
  route request (browser w) = Ok response b' ->
  writable (res c) = true ->
  post_message (Some request) w =
  Ok accepted
     {| activeConnections :=
          {| res := sendSSEMessage (res c) response; sessionId := sessionId c |} :: rest;
        browser := b' |}.
Proof.
  intros Hm Hid Hc Hr Hw. unfold post_message.
  rewrite (post_message_valid request w Hm).
  destruct (method_of_object request Hm) as [fields ->].
  simpl in Hid.
  unfold bind, gets, try_catch, isNotification, js_in, ret, on_browser, lift,
    on_connections, modify.
  rewrite Hc. simpl. rewrite Hid. simpl. rewrite Hr. simpl.
  rewrite Hc, Map_get_head, Hw. simpl.
  rewrite String.eqb_refl. reflexivity.
Qed.


(** What [post_message] does to the streams: nothing, or one message
    frame more on the first stream of the map.  It never throws. *)
Lemma post_message_writes (body : option json) (w : World B) :
  exists reply w',
    post_message body w = Ok reply w' /\
    (activeConnections w' = activeConnections w \/
     exists c rest response,
       activeConnections w = c :: rest /\
       activeConnections w' =
       {| res := sendSSEMessage (res c) response; sessionId := sessionId c |} :: rest).
Proof.
  unfold post_message.
  destruct body as [request|]; [|unfold ret; eauto].
  destruct (negb (truthy request) || negb (truthy_opt (prop request "method")));
    [unfold ret; eauto|].
  unfold bind at 1. unfold gets at 1.
  destruct (activeConnections w) as [|c rest] eqn:Hc; simpl; [unfold ret; eauto|].
  unfold try_catch, bind, isNotification, js_in, gets, ret, throw, on_browser, lift,
    on_connections, modify.
  destruct request as [ | flag | q | text | items | fields]; simpl;
    try (do 2 eexists; split; [reflexivity|left; first [exact Hc | reflexivity | simpl; rewrite ?Hc; reflexivity]]).
  destruct (assoc "id" fields); simpl.
  2:{ do 2 eexists; split; [reflexivity|left; first [exact Hc | reflexivity | simpl; rewrite ?Hc; reflexivity]]. }
  destruct (route (JObj fields) (browser w)) as [response b'|e b']; simpl.
  2:{ do 2 eexists; split; [reflexivity|left; first [exact Hc | reflexivity | simpl; rewrite ?Hc; reflexivity]]. }
  rewrite Hc. simpl. rewrite String.eqb_refl.
  destruct (writable (res c)); simpl.
  - rewrite String.eqb_refl.
    do 2 eexists; split; [reflexivity|right].
    exists c, rest, response. split; reflexivity.
  - do 2 eexists; split; [reflexivity|left; first [exact Hc | reflexivity | simpl; rewrite ?Hc; reflexivity]].
Qed.

(** C1.  With two streams opened one after the other, the response to a
    request is written onto the stream opened first, and the stream opened
    second gets nothing (the source picks element 0 of the map's values,
    under a comment that says "most recent").  After the second stream
    has closed, the response goes onto the first. *)
Theorem delivery_goes_to_the_oldest_session (b : B) (reqA reqB : Request) :
  let handshake (req : Request) :=
    [connected_frame; endpoint_event_line; endpoint_data_line req] in
  let stream (id : string) (chunks : list string) :=
    {| res := {| writable := true; written := chunks |}; sessionId := id |} in
  let opened :=
    {| activeConnections := [stream "session_1_a" (handshake reqA);
                             stream "session_2_b" (handshake reqB)];
       browser := b |} in
  let answer :=
    message_frame (result_response (Sample.tools_list (JNum 1))
                                   (JObj [("tools", JArr TOOLS)])) in
  bind (sse_open reqA "session_1_a") (fun _ => sse_open reqB "session_2_b")
       {| activeConnections := []; browser := b |}
  = Ok tt opened /\
  post_message (Some (Sample.tools_list (JNum 1))) opened
  = Ok accepted
       {| activeConnections := [stream "session_1_a" (handshake reqA ++ [answer])%list;
                                stream "session_2_b" (handshake reqB)];
          browser := b |} /\
  bind (on_close "session_2_b")
       (fun _ => post_message (Some (Sample.tools_list (JNum 1)))) opened
  = Ok accepted
       {| activeConnections := [stream "session_1_a" (handshake reqA ++ [answer])%list];
          browser := b |}.
Proof.
  repeat split.
Qed.

(** C2, as amended.  With a stream open, a message (with a method) is
    taken as a notification exactly when it has no [id] key.  Without the
    key it is acknowledged with 202 and nothing is written on any stream.
    With the key, whatever its value (0 included), it is routed, and when
    the routing completes and the stream is writable the chunk
    [event: message], [data: <the response as JSON>] and an empty line is
    appended to what was written on the first stream, nothing is written
    on another, and the post is acknowledged with 202. *)
Theorem notification_iff_no_id
        (request : json) (w : World B) (c : SSEConnection) (rest : ConnectionMap) :
  truthy_opt (prop request "method") = true ->
  activeConnections w = c :: rest ->
  isNotification request w
  = Ok (match prop request "id" with None => true | Some _ => false end) w /\
  (prop request "id" = None -> post_message (Some request) w = Ok accepted w) /\
  (forall id response b',
      prop request "id" = Some id ->
      route request (browser w) = Ok response b' ->
      writable (res c) = true ->
      post_message (Some request) w =
      Ok accepted
         {| activeConnections :=
              {| res :=
                   {| writable := true;
                      written :=
                        (written (res c)
                           ++ [("event: message" ++ LF ++ "data: "
                                ++ JSON_stringify response 0 ++ LF ++ LF)%string])%list |};
                 sessionId := sessionId c |}
                :: rest;
            browser := b' |}).
Proof.
  intros Hm Hc. split; [|split].
  - destruct (method_of_object request Hm) as [fields ->].
    unfold isNotification, bind, js_in, ret. simpl.
    destruct (assoc "id" fields); reflexivity.
  - intros Hid. exact (post_message_notification request w c rest Hm Hid Hc).
  - intros id response b' Hid Hr Hw.
    rewrite (post_message_request request w c rest id response b' Hm Hid Hc Hr Hw).
    unfold sendSSEMessage, res_write, message_frame. rewrite Hw. reflexivity.
Qed.

(** C3.  With no stream open, a request posted to /message is answered
    at once with status 503 and a JSON-RPC error object; nothing else
    changes.  The same holds of the route, for a request that passes
    [authenticate]. *)
Theorem no_active_stream_is_503 (request : json) (w : World B) :
  truthy_opt (prop request "method") = true ->
  activeConnections w = [] ->
  let reply :=
    {| status := 503;
       payload := Some (JObj [("jsonrpc", JStr "2.0");
                              ("error", JObj [("code", JNum (-32000));
                                              ("message", JStr "No active connection")]);
                              ("id", id_or_null request)]) |} in
  post_message (Some request) w = Ok reply w /\
  forall cfg req fresh,
    body req = Some request ->
    authenticate cfg req = Next ->
    serve cfg POST_message req fresh w = Ok (Replied reply) w.
Proof.
  intros Hm Hc reply.
  pose proof (post_message_no_stream request w Hm Hc) as Hp.
  split; [exact Hp|].
  intros cfg req fresh Hb Ha. unfold serve. rewrite Ha, Hb.
  unfold bind. fold reply in Hp. rewrite Hp. reflexivity.
Qed.

(** C4.  A [tools/call] that names no tool of the switch, posted with a
    stream open: the frame on the stream carries a JSON-RPC [error]
    object (code -32603) and no [result].  The handler registered for
    the same call on the MCP server object answers with a result whose
    payload is marked [isError]. *)
Theorem unknown_tool_is_a_protocol_error (b : B) :
  post_message (Some Sample.unknown_tool_call)
               {| activeConnections := [Sample.fresh_stream "session_1_a"];
                  browser := b |}
  = Ok accepted
       {| activeConnections :=
            [{| res :=
                  {| writable := true;
                     written :=
                       [message_frame
                          (JObj [("jsonrpc", JStr "2.0"); ("id", JNum 1);
                                 ("error",
                                  JObj [("code", JNum (-32603));
                                        ("message",
                                         JStr "Unknown tool: does_not_exist")])])] |};
                sessionId := "session_1_a" |}];
          browser := b |} /\
  CallTool_handler (Some (JStr "does_not_exist")) None b
  = Ok (JObj [("content",
               JArr [JObj [("type", JStr "text");
                           ("text",
                            JStr (JSON_stringify
                                    (JObj [("success", JBool false);
                                           ("error",
                                            JStr "Unknown tool: does_not_exist")]) 2))]]);
              ("isError", JBool true)]) b.
Proof.
  split; reflexivity.
Qed.

(** C8, as amended.  The liveness probe answers without authentication.
    On the stream and message endpoints: with no secret configured the
    handler runs; with a secret, it runs exactly when the provided token
    (the bearer of the Authorization header, else the [token] query
    parameter) is the secret, and any other request is answered 401
    Unauthorized and changes nothing. *)
Theorem authentication_gate (cfg : Config) (req : Request) (fresh : string) (w : World B) :
  serve cfg GET_health req fresh w = Ok (Replied health) w /\
  (secret_configured cfg = false -> authenticate cfg req = Next) /\
  (forall secret,
      AUTH_TOKEN cfg = Some secret -> secret <> EmptyString ->
      (authenticate cfg req = Next <-> providedToken req = Some (QString secret)) /\
      (providedToken req <> Some (QString secret) ->
       authenticate cfg req = Rejected unauthorized)) /\
  (authenticate cfg req = Next ->
   serve cfg GET_sse req fresh w
   = bind (sse_open req fresh) (fun _ => ret Streaming) w /\
   serve cfg POST_message req fresh w
   = bind (post_message (body req)) (fun r => ret (Replied r)) w) /\
  (authenticate cfg req = Rejected unauthorized ->
   serve cfg GET_sse req fresh w = Ok (Replied unauthorized) w /\
   serve cfg POST_message req fresh w = Ok (Replied unauthorized) w).
Proof.
  split; [reflexivity|]. split; [|split; [|split]].
  - intros Hs. unfold authenticate. rewrite Hs. reflexivity.
  - intros secret Ht Hne.
    assert (Hs : secret_configured cfg = true).
    { unfold secret_configured. rewrite Ht.
      destruct (String.eqb_spec secret EmptyString); [contradiction|reflexivity]. }
    assert (Hiff : token_matches cfg req = true <->
                   providedToken req = Some (QString secret)).
    { unfold token_matches. rewrite Ht.
      destruct (providedToken req) as [[p|]|].
      - rewrite String.eqb_eq. split; congruence.
      - split; discriminate.
      - split; discriminate. }
    unfold authenticate. rewrite Hs. simpl.
    destruct (token_matches cfg req).
    + split; [split; [intros _; apply Hiff; reflexivity|reflexivity]|].
      intros Hn. exfalso. apply Hn, Hiff. reflexivity.
    + split; [split; [discriminate|]|reflexivity].
      intros Hp. apply Hiff in Hp. discriminate Hp.
  - intros Ha. unfold serve. rewrite Ha. split; reflexivity.
  - intros Ha. unfold serve. rewrite Ha. split; reflexivity.
Qed.

(** C9.  [sendSSEMessage] writes one chunk, [event: message] on its first
    line and the envelope on its [data:] line.  A reader takes that
    first line as the event type [message]; it takes the
    connection-established and heartbeat chunks as comments and the
    endpoint chunk as the event type [endpoint].  Whatever [post_message]
    writes on a stream it writes through [sendSSEMessage]. *)
Theorem delivered_frames_are_marked (r : Response) (data : json) (req : Request) :
  written (sendSSEMessage r data)
  = (written r
     ++ [("event: message" ++ LF ++ "data: " ++ JSON_stringify data 0 ++ LF ++ LF)%string])%list /\
  EventStream.read (message_frame data) = EventStream.EventType "message" /\
  EventStream.read connected_frame = EventStream.Comment /\
  EventStream.read ping_frame = EventStream.Comment /\
  EventStream.read endpoint_event_line = EventStream.EventType "endpoint" /\
  EventStream.read (endpoint_data_line req) = EventStream.Data /\
  forall body w,
  exists reply w',
    post_message body w = Ok reply w' /\
    (activeConnections w' = activeConnections w \/
     exists c rest response,
       activeConnections w = c :: rest /\
       activeConnections w' =
       {| res := sendSSEMessage (res c) response; sessionId := sessionId c |} :: rest).
Proof.
  do 5 (split; [reflexivity|]).
  split; [|exact post_message_writes].
  unfold EventStream.read, endpoint_data_line. simpl.
  destruct (EventStream.first_line _); reflexivity.
Qed.

(** C10.  A notification (a message with a method and no [id] key) posted
    while no stream is open is answered 503 "No active connection", with a
    null id: the handler looks for a connection before it tests for a
    notification, and its test would have found one. *)
Theorem notification_without_stream_is_503 (request : json) (w : World B) :
  truthy_opt (prop request "method") = true ->
  prop request "id" = None ->
  activeConnections w = [] ->
  isNotification request w = Ok true w /\
  post_message (Some request) w =
  Ok {| status := 503;
        payload := Some (JObj [("jsonrpc", JStr "2.0");
                               ("error", JObj [("code", JNum (-32000));
                                               ("message", JStr "No active connection")]);
                               ("id", JNull)]) |} w.
Proof.
  intros Hm Hid Hc. split.
  - destruct (method_of_object request Hm) as [fields ->].
    simpl in Hid. unfold isNotification, bind, js_in, ret. rewrite Hid. reflexivity.
  - rewrite (post_message_no_stream request w Hm Hc).
    unfold id_or_null, or_else. rewrite Hid. reflexivity.
Qed.

End WithTools.

#[local] Existing Instance Sample.engine.
#[local] Existing Instance Sample.idle.

(** With one stream open: a [tools/list] request with id 0 puts its answer
    on the stream; a notification is acknowledged and writes nothing. *)
Lemma notification_iff_no_id_witness :
  post_message (Some (Sample.tools_list (JNum 0))) Sample.one_stream
  = Ok accepted
       {| activeConnections :=
            [{| res :=
                  {| writable := true;
                     written :=
                       ["event: message" ++ LF ++ "data: "
                        ++ JSON_stringify
                             (JObj [("jsonrpc", JStr "2.0"); ("id", JNum 0);
                                    ("result", JObj [("tools", JArr TOOLS)])]) 0
                        ++ LF ++ LF] |};
                sessionId := "session_1_a" |}];
          browser := tt |} /\
  post_message (Some Sample.initialized) Sample.one_stream
  = Ok accepted Sample.one_stream.
Proof.
  split.
  - destruct (notification_iff_no_id (Sample.tools_list (JNum 0)) Sample.one_stream
                (Sample.fresh_stream "session_1_a") [] eq_refl eq_refl)
      as (_ & _ & Hrequest).
    exact (Hrequest (JNum 0) _ tt eq_refl eq_refl eq_refl).
  - destruct (notification_iff_no_id Sample.initialized Sample.one_stream
                (Sample.fresh_stream "session_1_a") [] eq_refl eq_refl)
      as (_ & Hnotification & _).
    exact (Hnotification eq_refl).
Defined.

(** C2 as stated fails without its conditions.  With no stream open a
    message without an [id] key, a notification by the handler's own test,
    is answered 503 and not 202.  With a stream open a [tools/call] with
    the id 0 and no [params] is answered 500, and no frame is written on
    the stream. *)
Lemma no_id_is_not_always_acknowledged :
  isNotification Sample.initialized Sample.no_stream = Ok true Sample.no_stream /\
  post_message (Some Sample.initialized) Sample.no_stream
  = Ok {| status := 503;
          payload := Some (JObj [("jsonrpc", JStr "2.0");
                                 ("error", JObj [("code", JNum (-32000));
                                                 ("message", JStr "No active connection")]);
                                 ("id", JNull)]) |}
       Sample.no_stream /\
  post_message (Some (JObj [("jsonrpc", JStr "2.0"); ("id", JNum 0);
                            ("method", JStr "tools/call")]))
               Sample.one_stream
  = Ok {| status := 500;
          payload := Some (JObj [("jsonrpc", JStr "2.0");
                                 ("error", JObj [("code", JNum (-32603));
                                                 ("message", JStr "Internal error")]);
                                 ("id", JNull)]) |}
       Sample.one_stream.
Proof.
  split; [reflexivity|]. split; reflexivity.
Qed.

(** A [tools/list] request with no stream open, on a server without a
    secret: 503 from the handler and from the route. *)
Lemma no_active_stream_is_503_witness :
  let reply :=
    {| status := 503;
       payload := Some (JObj [("jsonrpc", JStr "2.0");
                              ("error", JObj [("code", JNum (-32000));
                                              ("message", JStr "No active connection")]);
                              ("id", JNum 1)]) |} in
  post_message (Some (Sample.tools_list (JNum 1))) Sample.no_stream
  = Ok reply Sample.no_stream /\
  serve {| AUTH_TOKEN := None |} POST_message
        (Sample.local_request (Some (Sample.tools_list (JNum 1)))) "session_1_a"
        Sample.no_stream
  = Ok (Replied reply) Sample.no_stream.
Proof.
  destruct (no_active_stream_is_503 (Sample.tools_list (JNum 1)) Sample.no_stream
              eq_refl eq_refl) as (Hhandler & Hroute).
  split.
  - exact Hhandler.
  - exact (Hroute {| AUTH_TOKEN := None |}
                  (Sample.local_request (Some (Sample.tools_list (JNum 1))))
                  "session_1_a" eq_refl eq_refl).
Defined.

(** A guarded server: the bearer token opens the message endpoint, a request
    without a token gets 401 on the stream endpoint. *)
Lemma authentication_gate_witness :
  let with_bearer :=
    {| authorization := Some "Bearer s3cret"; query_token := None;
       x_forwarded_proto := None; x_forwarded_host := None;
       host := Some "localhost:3000"; body := Some Sample.initialized |} in
  authenticate Sample.guarded with_bearer = Next /\
  serve Sample.guarded GET_sse (Sample.local_request None) "session_1_a" Sample.no_stream
  = Ok (Replied unauthorized) Sample.no_stream.
Proof.
  intros with_bearer. split.
  - destruct (authentication_gate Sample.guarded with_bearer "session_1_a" Sample.no_stream)
      as (_ & _ & Hsecret & _).
    destruct (Hsecret "s3cret" eq_refl) as (Hiff & _); [discriminate|].
    apply Hiff. reflexivity.
  - destruct (authentication_gate Sample.guarded (Sample.local_request None)
                                  "session_1_a" Sample.no_stream)
      as (_ & _ & Hsecret & _ & Hrejected).
    destruct (Hsecret "s3cret" eq_refl) as (_ & Hno); [discriminate|].
    apply Hrejected. apply Hno. discriminate.
Defined.

(** C8 as stated fails on the liveness probe: with a secret configured, a
    request without any token is rejected by [authenticate] and still gets
    the 200 answer of /health. *)
Lemma health_needs_no_token :
  authenticate Sample.guarded (Sample.local_request None) = Rejected unauthorized /\
  serve Sample.guarded GET_health (Sample.local_request None) "session_1_a" Sample.no_stream
  = Ok (Replied {| status := 200;
                   payload := Some (JObj [("status", JStr "ok");
                                          ("server", JStr "amazon-mcp-server")]) |})
       Sample.no_stream.
Proof.
  split; reflexivity.
Qed.

(** A notification with no stream open. *)
Lemma notification_without_stream_is_503_witness :
  post_message (Some Sample.initialized) Sample.no_stream
  = Ok {| status := 503;
          payload := Some (JObj [("jsonrpc", JStr "2.0");
                                 ("error", JObj [("code", JNum (-32000));
                                                 ("message", JStr "No active connection")]);
                                 ("id", JNull)]) |}
       Sample.no_stream.
Proof.
  exact (proj2 (notification_without_stream_is_503 Sample.initialized Sample.no_stream
                  eq_refl eq_refl eq_refl)).
Defined.

(** *** The earlier revision *)

(** Its frames had no event line, and it took a null id for no id. *)
Lemma legacy_frame_unmarked (data : json) :
  EventStream.read (Legacy.message_frame data) = EventStream.Data.
Proof.
  unfold EventStream.read, Legacy.message_frame. simpl.
  destruct (EventStream.first_line _); reflexivity.
Qed.

Lemma legacy_null_id_is_notification (fields : list (string * json)) :
  assoc "id" fields = Some JNull ->
  Legacy.isNotification (JObj fields) = true.
Proof.
  intros H. unfold Legacy.isNotification. simpl. rewrite H. reflexivity.
Qed.

End ServerProperties.

(* ===================================================================== *)
(** ** Further properties of the relay: authentication *)
(* ===================================================================== *)

Module GateProperties.
Import Js Server Notions.
Open Scope string_scope.

Lemma skip_spaces_kept (s : string) :
  starts_with_space s = false -> skip_spaces s = s.
Proof.
  destruct s as [|c rest]; simpl; [reflexivity|].
  intros H. rewrite H. reflexivity.
Qed.

Lemma skip_spaces_blank (gap rest : string) :
  blank gap = true -> starts_with_space rest = false ->
  skip_spaces (gap ++ rest) = rest.
Proof.
  induction gap as [|c gap IH]; simpl; intros Hb Hr.
  - apply skip_spaces_kept. exact Hr.
  - apply andb_true_iff in Hb. destruct Hb as [Hc Hg].
    rewrite Hc. apply IH; assumption.
Qed.

Lemma after_word_app (word scheme rest : string) :
  after_word word scheme = Some EmptyString ->
  after_word word (scheme ++ rest) = Some rest.
Proof.
  revert scheme. induction word as [|a word IH]; intros scheme H.
  - simpl in H. injection H as ->. reflexivity.
  - destruct scheme as [|c scheme]; simpl in *; [discriminate|].
    destruct (Ascii.eqb (to_lower c) a); [|discriminate].
    apply IH. exact H.
Qed.

(** The scheme word in any capitals, then white space, then the token: the
    token is what is left. *)
Lemma strip_bearer_token (scheme gap token : string) :
  after_word "bearer" scheme = Some EmptyString ->
  gap <> EmptyString -> blank gap = true ->
  starts_with_space token = false ->
  strip_bearer (scheme ++ gap ++ token) = token.
Proof.
  intros Hs Hne Hb Ht. unfold strip_bearer.
  rewrite (after_word_app "bearer" scheme (gap ++ token) Hs).
  destruct gap as [|c gap]; [contradiction|].
  simpl in *. apply andb_true_iff in Hb. destruct Hb as [Hc Hg].
  rewrite Hc. apply skip_spaces_blank; assumption.
Qed.

(** X1.  With a secret configured, a request whose Authorization header is
    the word Bearer (in any capitals), white space and the secret passes
    [authenticate], whatever its query string; the secret must not be empty
    nor begin with white space. *)
Theorem bearer_header_passes
        (cfg : Config) (req : Request) (scheme gap secret : string) :
  AUTH_TOKEN cfg = Some secret ->
  secret <> EmptyString ->
  starts_with_space secret = false ->
  after_word "bearer" scheme = Some EmptyString ->
  gap <> EmptyString -> blank gap = true ->
  authorization req = Some (scheme ++ gap ++ secret) ->
  authenticate cfg req = Next.
Proof.
  intros Ht Hne Hsp Hs Hg Hb Ha.
  unfold authenticate, secret_configured, token_matches, providedToken, headerToken.
  rewrite Ht, Ha. simpl.
  rewrite (strip_bearer_token scheme gap secret Hs Hg Hb Hsp).
  destruct (String.eqb_spec secret EmptyString) as [E|_]; [contradiction|].
  simpl. rewrite String.eqb_refl. reflexivity.
Qed.

(** X2.  The header comes before the query string: a header that leaves a
    non-empty token other than the secret is answered 401 even when the
    [token] query parameter is the secret; the query parameter counts when
    there is no Authorization header or when nothing is left of it. *)
Theorem header_token_comes_first (cfg : Config) (req : Request) (secret : string) :
  AUTH_TOKEN cfg = Some secret ->
  secret <> EmptyString ->
  (forall header,
      authorization req = Some header ->
      strip_bearer header <> EmptyString ->
      strip_bearer header <> secret ->
      authenticate cfg req = Rejected unauthorized) /\
  ((authorization req = None \/
    exists header, authorization req = Some header /\ strip_bearer header = EmptyString) ->
   query_token req = Some (QString secret) ->
   authenticate cfg req = Next).
Proof.
  intros Ht Hne.
  assert (Hs : secret_configured cfg = true).
  { unfold secret_configured. rewrite Ht.
    destruct (String.eqb_spec secret EmptyString); [contradiction|reflexivity]. }
  split.
  - intros header Ha Hleft Hwrong.
    unfold authenticate, token_matches, providedToken, headerToken.
    rewrite Hs, Ha, Ht. simpl.
    destruct (String.eqb_spec (strip_bearer header) EmptyString); [contradiction|].
    destruct (String.eqb_spec (strip_bearer header) secret); [contradiction|].
    reflexivity.
  - intros Hhead Hq.
    unfold authenticate, token_matches, providedToken, headerToken.
    rewrite Hs, Ht. simpl.
    destruct Hhead as [Ha | (header & Ha & Hleft)]; rewrite Ha; simpl.
    + rewrite Hq. rewrite String.eqb_refl. reflexivity.
    + rewrite Hleft. simpl. rewrite Hq. rewrite String.eqb_refl. reflexivity.
Qed.

(** A wrong bearer is not made good by the right query token; without a
    header the query token is enough. *)
Lemma header_token_comes_first_witness :
  let wrong_bearer :=
    {| authorization := Some "Bearer guess"; query_token := Some (QString "s3cret");
       x_forwarded_proto := None; x_forwarded_host := None; host := None;
       body := None |} in
  let no_header :=
    {| authorization := None; query_token := Some (QString "s3cret");
       x_forwarded_proto := None; x_forwarded_host := None; host := None;
       body := None |} in
  authenticate Sample.guarded wrong_bearer = Rejected unauthorized /\
  authenticate Sample.guarded no_header = Next.
Proof.
  intros wrong_bearer no_header. split.
  - refine (proj1 (header_token_comes_first Sample.guarded wrong_bearer "s3cret" eq_refl _)
                  "Bearer guess" eq_refl _ _); discriminate.
  - refine (proj2 (header_token_comes_first Sample.guarded no_header "s3cret" eq_refl _)
                  (or_introl eq_refl) eq_refl); discriminate.
Defined.

(** [bEaReR], a tab and two spaces, then the secret. *)
Lemma bearer_header_passes_witness :
  let odd_capitals :=
    {| authorization :=
         Some ("bEaReR" ++ (String (ascii_of_nat 9) "  ") ++ "s3cret");
       query_token := None;
       x_forwarded_proto := None; x_forwarded_host := None; host := None;
       body := None |} in
  authenticate Sample.guarded odd_capitals = Next.
Proof.
  intros odd_capitals.
  apply (bearer_header_passes Sample.guarded odd_capitals "bEaReR"
                              (String (ascii_of_nat 9) "  ") "s3cret" eq_refl).
  - discriminate.
  - reflexivity.
  - reflexivity.
  - discriminate.
  - reflexivity.
  - reflexivity.
Defined.

End GateProperties.

(* ===================================================================== *)
(** ** Further properties of the relay: the dispatcher *)
(* ===================================================================== *)

Module DispatchProperties.
Import Js Server Notions.
Open Scope string_scope.
Close Scope Q_scope.


Section WithTools.
Context {RT : Runtime} {B : Type} {TL : Tools B}.

Lemma post_message_invalid (body : option json) (w : World B) :
  match body with
  | Some request => truthy_opt (prop request "method")
  | None => false
  end = false ->
  post_message body w =
  Ok {| status := 400;
        payload := Some (error_body (-32600) "Invalid Request" JNull) |} w.
Proof.
  intros H. unfold post_message. destruct body as [request|]; [|reflexivity].
  rewrite H. rewrite orb_true_r. reflexivity.
Qed.

Lemma post_message_route_raises (request : json) (w : World B)
      (c : SSEConnection) (rest : ConnectionMap) (id : json) (e : thrown) (b' : B) :
  truthy_opt (prop request "method") = true ->
  activeConnections w = c :: rest ->
  prop request "id" = Some id ->
  route request (browser w) = Raise e b' ->
  post_message (Some request) w =
  Ok {| status := 500;
        payload := Some (error_body (-32603) "Internal error" (id_or_null request)) |}
     {| activeConnections := activeConnections w; browser := b' |}.
Proof.
  intros Hm Hc Hid Hr. unfold post_message.
  rewrite (ServerProperties.post_message_valid request w Hm).
  destruct (ServerProperties.method_of_object request Hm) as [fields ->].
  simpl in Hid.
  unfold bind, gets, try_catch, isNotification, js_in, ret, on_browser, lift.
  rewrite Hc. simpl. rewrite Hid. simpl. rewrite Hr. simpl.
  rewrite ?Hc. reflexivity.
Qed.

Lemma post_message_closed (request : json) (w : World B)
      (c : SSEConnection) (rest : ConnectionMap) (id response : json) (b' : B) :
  truthy_opt (prop request "method") = true ->
  activeConnections w = c :: rest ->
  prop request "id" = Some id ->
  route request (browser w) = Ok response b' ->
  writable (res c) = false ->
  post_message (Some request) w =
  Ok {| status := 503;
        payload := Some (error_body (-32000) "SSE connection closed"
                                    (id_or_null request)) |}
     {| activeConnections := activeConnections w; browser := b' |}.
Proof.
  intros Hm Hc Hid Hr Hw. unfold post_message.
  rewrite (ServerProperties.post_message_valid request w Hm).
  destruct (ServerProperties.method_of_object request Hm) as [fields ->].
  simpl in Hid.
  unfold bind, gets, try_catch, isNotification, js_in, ret, on_browser, lift.
  rewrite Hc. simpl. rewrite Hid. simpl. rewrite Hr. simpl.
  rewrite ?Hc. rewrite ServerProperties.Map_get_head, Hw. simpl.
  rewrite ?Hc. reflexivity.
Qed.

(** The gate that applies determines the outcome. *)
Lemma handled_sound (body : option json) (w w' : World B) (reply : HttpReply) :
  handled body w reply w' -> post_message body w = Ok reply w'.
Proof.
  intros H. destruct H.
  - apply post_message_invalid. assumption.
  - apply ServerProperties.post_message_no_stream; assumption.
  - eapply ServerProperties.post_message_notification; eassumption.
  - eapply post_message_route_raises; eassumption.
  - eapply post_message_closed; eassumption.
  - eapply ServerProperties.post_message_request; eassumption.
Qed.

(** Some gate always applies. *)
Lemma handled_total (body : option json) (w : World B) :
  exists reply w', handled body w reply w'.
Proof.
  destruct (match body with
            | Some request => truthy_opt (prop request "method")
            | None => false
            end) eqn:Hv.
  2:{ do 2 eexists. apply invalid_request. exact Hv. }
  destruct body as [request|]; [|discriminate].
  destruct (activeConnections w) as [|c rest] eqn:Hc.
  { do 2 eexists. apply no_connection; assumption. }
  destruct (prop request "id") as [id|] eqn:Hid.
  2:{ do 2 eexists. eapply notification; eassumption. }
  destruct (route request (browser w)) as [response b'|e b'] eqn:Hr.
  2:{ do 2 eexists. eapply internal_error; eassumption. }
  destruct (writable (res c)) eqn:Hw.
  - do 2 eexists. eapply delivered; eassumption.
  - do 2 eexists. eapply connection_closed; eassumption.
Qed.

(** Only the gate that applies gives the outcome. *)
Lemma handled_complete (body : option json) (w w' : World B) (reply : HttpReply) :
  post_message body w = Ok reply w' -> handled body w reply w'.
Proof.
  intros E.
  destruct (handled_total body w) as (reply0 & w0 & H0).
  rewrite (handled_sound body w w0 reply0 H0) in E.
  injection E as <- <-. exact H0.
Qed.

(** X3.  The /message handler is its table of gates: it never throws, and it
    answers [reply] leaving [w'] exactly when the first gate that applies
    (no method: 400; no connection: 503; no id: 202; routing threw: 500;
    first stream not writable: 503; else the frame on the first stream and
    202) says so. *)
Theorem post_message_decision_table (body : option json) (w : World B) :
  (exists reply w', post_message body w = Ok reply w') /\
  (forall reply w', post_message body w = Ok reply w' <-> handled body w reply w').
Proof.
  split.
  - destruct (handled_total body w) as (reply0 & w0 & H0).
    exists reply0, w0. apply handled_sound. exact H0.
  - intros reply w'. split; [apply handled_complete|apply handled_sound].
Qed.

(** X4.  The handler answers 202, 400, 500 or 503.  Unless it answers 202 no
    stream has changed; when it answers 400, or 503 for want of a
    connection, no tool has run either: the world is as it was. *)
Theorem only_an_accepted_post_writes
        (body : option json) (w w' : World B) (reply : HttpReply) :
  post_message body w = Ok reply w' ->
  In (status reply) [202; 400; 500; 503] /\
  (status reply <> 202 -> activeConnections w' = activeConnections w) /\
  (status reply = 400 \/ activeConnections w = [] -> w' = w).
Proof.
  intros E. apply handled_complete in E.
  destruct E as [body w Hv | request w Hm Hc | request w c rest Hm Hc Hid
                 | request w c rest id e b' Hm Hc Hid Hr
                 | request w c rest id response b' Hm Hc Hid Hr Hw
                 | request w c rest id response b' Hm Hc Hid Hr Hw]; simpl.
  - repeat split; auto.
  - repeat split; auto 10.
  - repeat split; auto.
  - split; [auto 10|]. split; [reflexivity|].
    intros [H|H]; [discriminate|congruence].
  - split; [auto 10|]. split; [reflexivity|].
    intros [H|H]; [discriminate|congruence].
  - split; [auto|]. split; [congruence|].
    intros [H|H]; [discriminate|congruence].
Qed.




(** The shape of every response envelope the routing builds. *)
Lemma route_envelope (request : json) (b b' : B) (id response : json) :
  prop request "id" = Some id ->
  route request b = Ok response b' ->
  exists k v,
    response = JObj [("jsonrpc", JStr "2.0"); ("id", id); (k, v)] /\
    (k = "result" \/
     k = "error" /\ exists code text, v = JObj [("code", JNum code); ("message", JStr text)]).
Proof.
  intros Hid H. unfold route in H.
  unfold result_response, error_response, object in H. simpl in H. rewrite Hid in H.
  destruct (is_str (prop request "method") "initialize").
  { injection H as <- _. do 2 eexists. split; [reflexivity|left; reflexivity]. }
  destruct (is_str (prop request "method") "tools/list").
  { injection H as <- _. do 2 eexists. split; [reflexivity|left; reflexivity]. }
  destruct (is_str (prop request "method") "tools/call").
  2:{ injection H as <- _. do 2 eexists. split; [reflexivity|right; eauto]. }
  unfold bind, prop_of, try_catch, throw, ret in H.
  destruct (prop request "params") as [p|]; [|discriminate H].
  destruct p; try discriminate H;
    match type of H with
    | context [call_tool ?n ?a b] => destruct (call_tool n a b)
    end;
    injection H as <- _; do 2 eexists;
    (split; [reflexivity|(left; reflexivity) || (right; eauto)]).
Qed.

(** X6.  Every response envelope is an object of three keys: [jsonrpc]
    "2.0", the [id] of the request as it came, and either [result] or
    [error] (a code and a message), never both. *)
Theorem response_is_result_or_error (request : json) (b b' : B) (id response : json) :
  prop request "id" = Some id ->
  route request b = Ok response b' ->
  exists k v,
    response = JObj [("jsonrpc", JStr "2.0"); ("id", id); (k, v)] /\
    (k = "result" \/
     k = "error" /\ exists code text, v = JObj [("code", JNum code); ("message", JStr text)]).
Proof.
  exact (route_envelope request b b' id response).
Qed.

(** X7.  A request whose method is a string other than [initialize],
    [tools/list] and [tools/call] ([ping], [resources/list] and
    [prompts/list] among them) is answered, on the first stream when it
    is writable, with the error -32601 "Method not found: <method>"; the
    post is acknowledged 202 and no tool runs. *)
Theorem other_methods_are_not_found
        (request : json) (w : World B) (c : SSEConnection) (rest : ConnectionMap)
        (id : json) (method : string) :
  prop request "method" = Some (JStr method) ->
  method <> EmptyString ->
  ~ In method ["initialize"; "tools/list"; "tools/call"] ->
  prop request "id" = Some id ->
  activeConnections w = c :: rest ->
  writable (res c) = true ->
  post_message (Some request) w =
  Ok accepted
     {| activeConnections :=
          {| res := sendSSEMessage (res c)
                      (JObj [("jsonrpc", JStr "2.0"); ("id", id);
                             ("error",
                              JObj [("code", JNum (-32601));
                                    ("message", JStr ("Method not found: " ++ method))])]);
             sessionId := sessionId c |} :: rest;
        browser := browser w |}.
Proof.
  intros Hmeth Hne Hnot Hid Hc Hw.
  assert (Hm : truthy_opt (prop request "method") = true).
  { rewrite Hmeth. simpl.
    destruct (String.eqb_spec method EmptyString); [contradiction|reflexivity]. }
  apply (ServerProperties.post_message_request request w c rest id); try assumption.
  unfold route. rewrite Hmeth. simpl.
  destruct (String.eqb_spec method "initialize") as [E|_];
    [exfalso; apply Hnot; subst; simpl; auto|].
  destruct (String.eqb_spec method "tools/list") as [E|_];
    [exfalso; apply Hnot; subst; simpl; auto|].
  destruct (String.eqb_spec method "tools/call") as [E|_];
    [exfalso; apply Hnot; subst; simpl; auto|].
  unfold error_response, object. simpl. rewrite Hid. reflexivity.
Qed.

(** The heartbeat of a first stream that is not writable takes it out of
    the map. *)
Lemma heartbeat_reaps_first (w : World B) (c : SSEConnection) (rest : ConnectionMap) :
  activeConnections w = c :: rest ->
  writable (res c) = false ->
  heartbeat (sessionId c) w = Ok tt {| activeConnections := rest; browser := browser w |}.
Proof.
  intros Hc Hw. unfold heartbeat, bind, gets, on_connections, modify.
  rewrite Hc, ServerProperties.Map_get_head, Hw. simpl.
  rewrite Hc. simpl. rewrite String.eqb_refl. reflexivity.
Qed.

(** X8.  The handler looks at the first stream of the map only.  When
    [res.writable] of that stream reads [false] while it is still in the
    map, a request is answered 503 "SSE connection closed" although a
    later stream is writable: the tool has run, its response is written
    nowhere.  Once the heartbeat of the first stream has fired, which
    under the same test takes it out of the map, the same request is
    delivered on the next stream. *)
Theorem unwritable_first_stream_blocks_delivery
        (request : json) (w : World B) (c d : SSEConnection) (rest : ConnectionMap)
        (id response : json) (b' : B) :
  truthy_opt (prop request "method") = true ->
  prop request "id" = Some id ->
  activeConnections w = c :: d :: rest ->
  route request (browser w) = Ok response b' ->
  writable (res c) = false ->
  writable (res d) = true ->
  post_message (Some request) w =
  Ok {| status := 503;
        payload := Some (error_body (-32000) "SSE connection closed"
                                    (id_or_null request)) |}
     {| activeConnections := c :: d :: rest; browser := b' |} /\
  bind (heartbeat (sessionId c)) (fun _ => post_message (Some request)) w =
  Ok accepted
     {| activeConnections :=
          {| res := sendSSEMessage (res d) response; sessionId := sessionId d |} :: rest;
        browser := b' |}.
Proof.
  intros Hm Hid Hc Hr Hwc Hwd. split.
  - rewrite (post_message_closed request w c (d :: rest) id response b' Hm Hc Hid Hr Hwc).
    rewrite Hc. reflexivity.
  - unfold bind at 1.
    rewrite (heartbeat_reaps_first w c (d :: rest) Hc Hwc).
    apply (ServerProperties.post_message_request request _ d rest id response b');
      try assumption; reflexivity.
Qed.

(** X9.  Discovery and invocation agree: the names [tools/list] gives are
    [search_amazon], [add_to_cart], [view_cart], [check_login] and
    [save_session]; a call by one of these names runs the tool of that
    name; a call by any other name throws "Unknown tool: <name>" and
    touches nothing. *)
Theorem listed_tools_are_the_callable_ones (name : string) (toolArgs : json) (b : B) :
  map tool_name TOOLS
  = ["search_amazon"; "add_to_cart"; "view_cart"; "check_login"; "save_session"] /\
  (In name (map tool_name TOOLS) ->
   In (name, call_tool (Some (JStr name)) toolArgs b)
      [("search_amazon", searchProducts (prop toolArgs "query") b);
       ("add_to_cart", addToCart toolArgs b);
       ("view_cart", getCart b);
       ("check_login", checkLoginStatus b);
       ("save_session", save_session_tool b)]) /\
  (~ In name (map tool_name TOOLS) ->
   call_tool (Some (JStr name)) toolArgs b
   = Raise (ErrorObject ("Unknown tool: " ++ name)) b).
Proof.
  split; [reflexivity|]. split.
  - intros Hin. simpl in Hin.
    destruct Hin as [<-|[<-|[<-|[<-|[<-|[]]]]]]; simpl; auto 10.
  - intros Hnot. unfold call_tool. simpl.
    destruct (String.eqb_spec name "search_amazon") as [E|_];
      [exfalso; apply Hnot; subst; simpl; auto|].
    destruct (String.eqb_spec name "add_to_cart") as [E|_];
      [exfalso; apply Hnot; subst; simpl; auto|].
    destruct (String.eqb_spec name "view_cart") as [E|_];
      [exfalso; apply Hnot; subst; simpl; auto|].
    destruct (String.eqb_spec name "check_login") as [E|_];
      [exfalso; apply Hnot; subst; simpl; auto 10|].
    destruct (String.eqb_spec name "save_session") as [E|_];
      [exfalso; apply Hnot; subst; simpl; auto 10|].
    reflexivity.
Qed.

(** X10.  With no stream open, the 503 body carries the id of the request
    only when that id is truthy: an id of 0, of the empty string, of false
    or of null comes back as null.  A response envelope carries the id as
    it came, 0 included. *)
Theorem falsy_id_is_not_echoed_in_the_503 (request : json) (w : World B) (id : json) :
  truthy_opt (prop request "method") = true ->
  prop request "id" = Some id ->
  (activeConnections w = [] ->
   post_message (Some request) w =
   Ok {| status := 503;
         payload := Some (JObj [("jsonrpc", JStr "2.0");
                                ("error", JObj [("code", JNum (-32000));
                                                ("message", JStr "No active connection")]);
                                ("id", if truthy id then id else JNull)]) |} w) /\
  (forall response b', route request (browser w) = Ok response b' ->
                       prop response "id" = Some id).
Proof.
  intros Hm Hid. split.
  - intros Hc. rewrite (ServerProperties.post_message_no_stream request w Hm Hc).
    unfold id_or_null, or_else, error_body. rewrite Hid. simpl.
    destruct (truthy id); reflexivity.
  - intros response b' Hr.
    destruct (route_envelope request (browser w) b' id response Hid Hr)
      as (k & v & -> & _).
    reflexivity.
Qed.

End WithTools.

(** A notification with a stream open goes through the third gate. *)
Lemma post_message_decision_table_witness :
  handled (RT := Sample.engine) (TL := Sample.idle)
          (Some Sample.initialized) Sample.one_stream accepted Sample.one_stream.
Proof.
  apply (proj2 (post_message_decision_table (RT := Sample.engine) (TL := Sample.idle)
                  (Some Sample.initialized) Sample.one_stream)).
  reflexivity.
Defined.

(** A request without a stream: 503, and the world is as it was. *)
Lemma only_an_accepted_post_writes_witness :
  world_after (post_message (RT := Sample.engine) (TL := Sample.idle)
                            (Some (Sample.tools_list (JNum 1))) Sample.no_stream)
  = Sample.no_stream.
Proof.
  refine (proj2 (proj2 (only_an_accepted_post_writes
                          (RT := Sample.engine) (TL := Sample.idle)
                          (Some (Sample.tools_list (JNum 1))) Sample.no_stream
                          (world_after (post_message (RT := Sample.engine)
                                                     (TL := Sample.idle)
                                                     (Some (Sample.tools_list (JNum 1)))
                                                     Sample.no_stream))
                          {| status := 503;
                             payload :=
                               Some (error_body (-32000) "No active connection"
                                                (JNum 1)) |}
                          eq_refl)) (or_intror eq_refl)).
Defined.


(** The answer to [tools/list] with id 0. *)
Lemma response_is_result_or_error_witness :
  exists k v,
    JObj [("jsonrpc", JStr "2.0"); ("id", JNum 0);
          ("result", JObj [("tools", JArr TOOLS)])]
    = JObj [("jsonrpc", JStr "2.0"); ("id", JNum 0); (k, v)] /\
    (k = "result" \/
     k = "error" /\ exists code text, v = JObj [("code", JNum code); ("message", JStr text)]).
Proof.
  exact (response_is_result_or_error (RT := Sample.engine) (TL := Sample.idle)
           (Sample.tools_list (JNum 0)) tt tt (JNum 0)
           (JObj [("jsonrpc", JStr "2.0"); ("id", JNum 0);
                  ("result", JObj [("tools", JArr TOOLS)])])
           eq_refl eq_refl).
Defined.

(** [{"jsonrpc":"2.0","id":2,"method":"ping"}] with a stream open. *)
Lemma other_methods_are_not_found_witness :
  post_message (RT := Sample.engine) (TL := Sample.idle)
               (Some (JObj [("jsonrpc", JStr "2.0"); ("id", JNum 2);
                            ("method", JStr "ping")]))
               Sample.one_stream
  = Ok accepted
       {| activeConnections :=
            [{| res := sendSSEMessage (RT := Sample.engine)
                         {| writable := true; written := [] |}
                         (JObj [("jsonrpc", JStr "2.0"); ("id", JNum 2);
                                ("error",
                                 JObj [("code", JNum (-32601));
                                       ("message", JStr "Method not found: ping")])]);
                sessionId := "session_1_a" |}];
          browser := tt |}.
Proof.
  refine (other_methods_are_not_found (RT := Sample.engine) (TL := Sample.idle)
            (JObj [("jsonrpc", JStr "2.0"); ("id", JNum 2); ("method", JStr "ping")])
            Sample.one_stream (Sample.fresh_stream "session_1_a") [] (JNum 2) "ping"
            eq_refl _ _ eq_refl eq_refl eq_refl).
  - discriminate.
  - simpl. intros [H|[H|[H|[]]]]; discriminate H.
Defined.

(** A first stream that is not writable and a live second one. *)
Lemma unwritable_first_stream_blocks_delivery_witness :
  exists reply,
    post_message (RT := Sample.engine) (TL := Sample.idle)
                 (Some (Sample.tools_list (JNum 1))) SampleMore.unwritable_then_live
    = Ok reply SampleMore.unwritable_then_live /\
    status reply = 503.
Proof.
  destruct (unwritable_first_stream_blocks_delivery (RT := Sample.engine) (TL := Sample.idle)
              (Sample.tools_list (JNum 1)) SampleMore.unwritable_then_live
              {| res := {| writable := false; written := [] |};
                 sessionId := "session_1_a" |}
              (Sample.fresh_stream "session_2_b") [] (JNum 1)
              (JObj [("jsonrpc", JStr "2.0"); ("id", JNum 1);
                     ("result", JObj [("tools", JArr TOOLS)])]) tt
              eq_refl eq_refl eq_refl eq_refl eq_refl eq_refl) as (Hblocked & _).
  eexists. split; [exact Hblocked|reflexivity].
Defined.

(** [view_cart] is listed and runs [getCart]; [checkout] is not listed. *)
Lemma listed_tools_are_the_callable_ones_witness :
  call_tool (RT := Sample.engine) (TL := Sample.idle) (Some (JStr "checkout")) (JObj []) tt
  = Raise (ErrorObject "Unknown tool: checkout") tt.
Proof.
  refine (proj2 (proj2 (listed_tools_are_the_callable_ones
                          (RT := Sample.engine) (TL := Sample.idle)
                          "checkout" (JObj []) tt)) _).
  simpl. intros [H|[H|[H|[H|[H|[]]]]]]; discriminate H.
Defined.

(** A request with id 0 and no stream: the 503 body has a null id. *)
Lemma falsy_id_is_not_echoed_in_the_503_witness :
  post_message (RT := Sample.engine) (TL := Sample.idle)
               (Some (Sample.tools_list (JNum 0))) Sample.no_stream
  = Ok {| status := 503;
          payload := Some (JObj [("jsonrpc", JStr "2.0");
                                 ("error", JObj [("code", JNum (-32000));
                                                 ("message", JStr "No active connection")]);
                                 ("id", JNull)]) |}
       Sample.no_stream.
Proof.
  exact (proj1 (falsy_id_is_not_echoed_in_the_503 (RT := Sample.engine) (TL := Sample.idle)
                  (Sample.tools_list (JNum 0)) Sample.no_stream (JNum 0)
                  eq_refl eq_refl) eq_refl).
Defined.

End DispatchProperties.

(* ===================================================================== *)
(** ** Further properties of the relay: the streams *)
(* ===================================================================== *)

Module StreamProperties.
Import Js Server Notions.
Open Scope string_scope.
Close Scope Q_scope.

Lemma ids_on_res (id : string) (f : Response -> Response) (m : ConnectionMap) :
  ids (on_res id f m) = ids m.
Proof.
  induction m as [|d m IH]; simpl; [reflexivity|].
  destruct (sessionId d =? id); simpl; [reflexivity|].
  f_equal. exact IH.
Qed.

Lemma Map_set_fresh (c : SSEConnection) (m : ConnectionMap) :
  ~ In (sessionId c) (ids m) -> Map_set c m = (m ++ [c])%list.
Proof.
  induction m as [|d m IH]; simpl; intros H; [reflexivity|].
  destruct (String.eqb_spec (sessionId d) (sessionId c)) as [E|_].
  - exfalso. apply H. left. exact E.
  - f_equal. apply IH. intros Hin. apply H. right. exact Hin.
Qed.

Lemma Map_set_present (c : SSEConnection) (m : ConnectionMap) :
  In (sessionId c) (ids m) -> ids (Map_set c m) = ids m.
Proof.
  induction m as [|d m IH]; simpl; intros H; [contradiction|].
  destruct (String.eqb_spec (sessionId d) (sessionId c)) as [E|N]; simpl.
  - f_equal. symmetry. exact E.
  - f_equal. apply IH. destruct H as [H|H]; [contradiction|exact H].
Qed.

Lemma NoDup_snoc (x : string) (l : list string) :
  NoDup l -> ~ In x l -> NoDup (l ++ [x]).
Proof.
  induction 1 as [|y l Hy Hl IH]; simpl; intros Hx.
  - constructor; [tauto|constructor].
  - constructor.
    + intros Hin. apply in_app_or in Hin. destruct Hin as [Hin|[E|[]]].
      * exact (Hy Hin).
      * apply Hx. left. symmetry. exact E.
    + apply IH. intros Hin. apply Hx. right. exact Hin.
Qed.

Lemma Map_set_unique (c : SSEConnection) (m : ConnectionMap) :
  NoDup (ids m) -> NoDup (ids (Map_set c m)).
Proof.
  intros H. destruct (in_dec string_dec (sessionId c) (ids m)) as [Hin|Hout].
  - rewrite (Map_set_present c m Hin). exact H.
  - rewrite (Map_set_fresh c m Hout). unfold ids. rewrite map_app. simpl.
    apply NoDup_snoc; assumption.
Qed.

Lemma Map_delete_absent (id : string) (m : ConnectionMap) :
  ~ In id (ids m) -> Map_delete id m = m.
Proof.
  induction m as [|d m IH]; simpl; intros H; [reflexivity|].
  destruct (String.eqb_spec (sessionId d) id) as [E|_].
  - exfalso. apply H. left. exact E.
  - f_equal. apply IH. intros Hin. apply H. right. exact Hin.
Qed.

Lemma Map_delete_subset (id j : string) (m : ConnectionMap) :
  In j (ids (Map_delete id m)) -> In j (ids m).
Proof.
  induction m as [|d m IH]; simpl; [tauto|].
  destruct (sessionId d =? id); simpl; [tauto|].
  intros [H|H]; [left; exact H|right; apply IH; exact H].
Qed.

Lemma Map_delete_unique (id : string) (m : ConnectionMap) :
  NoDup (ids m) ->
  NoDup (ids (Map_delete id m)) /\ ~ In id (ids (Map_delete id m)).
Proof.
  induction m as [|d m IH]; simpl; intros H.
  - split; [constructor|tauto].
  - inversion H as [|x l Hx Hl]; subst.
    destruct (String.eqb_spec (sessionId d) id) as [E|N]; simpl.
    + subst id. split; assumption.
    + destruct (IH Hl) as [Hu Hn]. split.
      * constructor; [|exact Hu].
        intros Hin. apply Hx. exact (Map_delete_subset id _ m Hin).
      * intros [E|Hin]; [contradiction|exact (Hn Hin)].
Qed.

Lemma Map_get_absent (id : string) (m : ConnectionMap) :
  ~ In id (ids m) -> Map_get id m = None.
Proof.
  induction m as [|d m IH]; simpl; intros H; [reflexivity|].
  destruct (String.eqb_spec (sessionId d) id) as [E|_].
  - exfalso. apply H. left. exact E.
  - apply IH. intros Hin. apply H. right. exact Hin.
Qed.

Lemma Map_get_delete_other (id j : string) (m : ConnectionMap) :
  j <> id -> Map_get j (Map_delete id m) = Map_get j m.
Proof.
  intros Hj. induction m as [|d m IH]; simpl; [reflexivity|].
  destruct (String.eqb_spec (sessionId d) id) as [E|N]; simpl.
  - destruct (String.eqb_spec (sessionId d) j) as [E'|_]; [congruence|reflexivity].
  - destruct (sessionId d =? j); [reflexivity|exact IH].
Qed.

Lemma Map_get_on_res_other (id j : string) (f : Response -> Response) (m : ConnectionMap) :
  j <> id -> Map_get j (on_res id f m) = Map_get j m.
Proof.
  intros Hj. induction m as [|d m IH]; simpl; [reflexivity|].
  destruct (String.eqb_spec (sessionId d) id) as [E|N]; simpl.
  - destruct (String.eqb_spec (sessionId d) j) as [E'|_]; [congruence|reflexivity].
  - destruct (sessionId d =? j); [reflexivity|exact IH].
Qed.

Lemma Map_get_on_res_same (id : string) (f : Response -> Response) (m : ConnectionMap) :
  Map_get id (on_res id f m)
  = option_map (fun c => {| res := f (res c); sessionId := sessionId c |}) (Map_get id m).
Proof.
  induction m as [|d m IH]; simpl; [reflexivity|].
  destruct (String.eqb_spec (sessionId d) id) as [E|N]; simpl.
  - rewrite E, String.eqb_refl. reflexivity.
  - destruct (String.eqb_spec (sessionId d) id); [contradiction|exact IH].
Qed.

Lemma on_res_last (id : string) (f : Response -> Response) (m : ConnectionMap)
      (c : SSEConnection) :
  ~ In id (ids m) -> sessionId c = id ->
  on_res id f (m ++ [c])%list
  = (m ++ [{| res := f (res c); sessionId := sessionId c |}])%list.
Proof.
  intros Hout Hc. induction m as [|d m IH]; simpl.
  - rewrite Hc, String.eqb_refl. reflexivity.
  - destruct (String.eqb_spec (sessionId d) id) as [E|_].
    + exfalso. apply Hout. left. exact E.
    + f_equal. apply IH. intros Hin. apply Hout. right. exact Hin.
Qed.

Lemma handshake_on_fresh (f1 f2 f3 : Response -> Response) (r : Response)
      (id : string) (m : ConnectionMap) :
  ~ In id (ids m) ->
  on_res id f3 (on_res id f2 (on_res id f1 (Map_set {| res := r; sessionId := id |} m)))
  = (m ++ [{| res := f3 (f2 (f1 r)); sessionId := id |}])%list.
Proof.
  induction m as [|d m IH]; simpl; intros Hout.
  - rewrite String.eqb_refl. simpl. rewrite String.eqb_refl. simpl.
    rewrite String.eqb_refl. reflexivity.
  - destruct (String.eqb_spec (sessionId d) id) as [E|N].
    + exfalso. apply Hout. left. exact E.
    + simpl. destruct (String.eqb_spec (sessionId d) id) as [E|_]; [contradiction|].
      simpl. destruct (String.eqb_spec (sessionId d) id) as [E|_]; [contradiction|].
      simpl. destruct (String.eqb_spec (sessionId d) id) as [E|_]; [contradiction|].
      f_equal. apply IH. intros Hin. apply Hout. right. exact Hin.
Qed.

Section WithTools.
Context {RT : Runtime} {B : Type} {TL : Tools B}.

Lemma sse_open_run (req : Request) (id : string) (w : World B) :
  sse_open req id w =
  Ok tt {| activeConnections :=
             on_res id (res_write (endpoint_data_line req))
               (on_res id (res_write endpoint_event_line)
                  (on_res id (res_write connected_frame)
                     (Map_set {| res := {| writable := true; written := [] |};
                                 sessionId := id |}
                              (activeConnections w))));
           browser := browser w |}.
Proof. reflexivity. Qed.

Lemma heartbeat_run (id : string) (w : World B) :
  heartbeat id w =
  Ok tt {| activeConnections :=
             match Map_get id (activeConnections w) with
             | Some c => if writable (res c)
                         then on_res id (res_write ping_frame) (activeConnections w)
                         else Map_delete id (activeConnections w)
             | None => activeConnections w
             end;
           browser := browser w |}.
Proof.
  unfold heartbeat, bind, gets, on_connections, modify, ret.
  destruct (Map_get id (activeConnections w)) as [c|]; [|destruct w; reflexivity].
  destruct (writable (res c)); reflexivity.
Qed.

Lemma post_message_keeps_ids (body : option json) (w w' : World B) (reply : HttpReply) :
  post_message body w = Ok reply w' ->
  ids (activeConnections w') = ids (activeConnections w).
Proof.
  intros E. apply DispatchProperties.handled_complete in E.
  destruct E; simpl; try reflexivity.
  match goal with H : activeConnections _ = _ :: _ |- _ => rewrite H end.
  reflexivity.
Qed.

(** X11.  The session ids of the map stay distinct under every operation on
    it: a stream opening, a heartbeat, a close and a post.  A post neither
    adds nor removes a session. *)
Theorem session_ids_stay_distinct
        (w : World B) (req : Request) (id : string) (body : option json) :
  NoDup (ids (activeConnections w)) ->
  NoDup (ids (activeConnections (world_after (sse_open req id w)))) /\
  NoDup (ids (activeConnections (world_after (heartbeat id w)))) /\
  NoDup (ids (activeConnections (world_after (on_close id w)))) /\
  ids (activeConnections (world_after (post_message body w)))
  = ids (activeConnections w).
Proof.
  intros H. split; [|split; [|split]].
  - rewrite sse_open_run. simpl. rewrite !ids_on_res. apply Map_set_unique. exact H.
  - rewrite heartbeat_run. simpl.
    destruct (Map_get id (activeConnections w)) as [c|]; [|exact H].
    destruct (writable (res c)).
    + rewrite ids_on_res. exact H.
    + apply Map_delete_unique. exact H.
  - unfold on_close, on_connections, modify. simpl. apply Map_delete_unique. exact H.
  - destruct (DispatchProperties.handled_total body w) as (reply & w' & Hh).
    pose proof (DispatchProperties.handled_sound body w w' reply Hh) as E.
    rewrite E. simpl. exact (post_message_keeps_ids body w w' reply E).
Qed.

(** X12.  Closing a session takes its stream out of the map and leaves every
    other session as it was; a second close of the same session (the
    request's, the response's and the error listener all call it) changes
    nothing, nor does the close of a session that is not in the map. *)
Theorem close_is_idempotent (w : World B) (id : string) :
  NoDup (ids (activeConnections w)) ->
  exists w1,
    on_close id w = Ok tt w1 /\
    browser w1 = browser w /\
    Map_get id (activeConnections w1) = None /\
    (forall j, j <> id ->
               Map_get j (activeConnections w1) = Map_get j (activeConnections w)) /\
    on_close id w1 = Ok tt w1 /\
    (Map_get id (activeConnections w) = None -> w1 = w).
Proof.
  intros H. eexists. split; [reflexivity|]. simpl.
  destruct (Map_delete_unique id (activeConnections w) H) as [_ Hout].
  split; [reflexivity|]. split; [apply Map_get_absent; exact Hout|].
  split; [intros j Hj; apply Map_get_delete_other; exact Hj|]. split.
  - unfold on_close, on_connections, modify. simpl.
    rewrite (Map_delete_absent id _ Hout). reflexivity.
  - intros Hnone.
    assert (Habs : ~ In id (ids (activeConnections w))).
    { clear H Hout. induction (activeConnections w) as [|d m IH]; simpl; [tauto|].
      simpl in Hnone.
      destruct (String.eqb_spec (sessionId d) id) as [E|N]; [discriminate|].
      intros [E|Hin]; [contradiction|exact (IH Hnone Hin)]. }
    rewrite (Map_delete_absent id _ Habs). destruct w; reflexivity.
Qed.

(** X13.  A stream opened under a new session id goes last in the map, with
    the connected comment, the endpoint event line and its data line
    written on it and nothing else; the streams already in the map are
    untouched.  So while an earlier stream is in the map, a request posted
    after the opening is still answered on that earlier stream. *)
Theorem new_stream_goes_last
        (w : World B) (req : Request) (id : string) :
  ~ In id (ids (activeConnections w)) ->
  let opened :=
    {| res := {| writable := true;
                 written := [connected_frame; endpoint_event_line;
                             endpoint_data_line req] |};
       sessionId := id |} in
  sse_open req id w =
  Ok tt {| activeConnections := (activeConnections w ++ [opened])%list;
           browser := browser w |} /\
  (forall c rest request rid response b',
      activeConnections w = c :: rest ->
      truthy_opt (prop request "method") = true ->
      prop request "id" = Some rid ->
      route request (browser w) = Ok response b' ->
      writable (res c) = true ->
      bind (sse_open req id) (fun _ => post_message (Some request)) w =
      Ok accepted
         {| activeConnections :=
              ({| res := sendSSEMessage (res c) response; sessionId := sessionId c |}
                 :: rest ++ [opened])%list;
            browser := b' |}).
Proof.
  intros Hout opened.
  assert (Hrun : sse_open req id w =
                 Ok tt {| activeConnections := (activeConnections w ++ [opened])%list;
                          browser := browser w |}).
  { rewrite sse_open_run. rewrite (handshake_on_fresh _ _ _ _ id _ Hout). reflexivity. }
  split; [exact Hrun|].
  intros c rest request rid response b' Hc Hm Hid Hr Hw.
  unfold bind at 1. rewrite Hrun.
  apply (ServerProperties.post_message_request request _ c (rest ++ [opened])%list
                                               rid response b'); try assumption.
  simpl. rewrite Hc. reflexivity.
Qed.

(** X14.  A heartbeat of a session whose stream is writable writes the ping
    comment on that stream and touches no other; on a stream that is not
    writable it takes the session out of the map; for a session that is
    not in the map it does nothing. *)
Theorem heartbeat_pings_its_own_stream (w : World B) (id : string) :
  NoDup (ids (activeConnections w)) ->
  exists w1,
    heartbeat id w = Ok tt w1 /\
    browser w1 = browser w /\
    (forall j, j <> id ->
               Map_get j (activeConnections w1) = Map_get j (activeConnections w)) /\
    (forall c, Map_get id (activeConnections w) = Some c ->
               Map_get id (activeConnections w1)
               = if writable (res c)
                 then Some {| res := {| writable := true;
                                        written := (written (res c) ++ [ping_frame])%list |};
                              sessionId := sessionId c |}
                 else None) /\
    (Map_get id (activeConnections w) = None -> w1 = w).
Proof.
  intros H. eexists. split; [apply heartbeat_run|]. simpl.
  split; [reflexivity|]. split; [|split].
  - intros j Hj.
    destruct (Map_get id (activeConnections w)) as [c|]; [|reflexivity].
    destruct (writable (res c)).
    + apply Map_get_on_res_other. exact Hj.
    + apply Map_get_delete_other. exact Hj.
  - intros c Hc. rewrite Hc.
    destruct (writable (res c)) eqn:Hw.
    + rewrite Map_get_on_res_same, Hc. simpl. unfold res_write. rewrite Hw. reflexivity.
    + apply Map_get_absent. apply Map_delete_unique. exact H.
  - intros Hnone. rewrite Hnone. destruct w; reflexivity.
Qed.

(** X15.  The URL the endpoint event announces: the forwarded protocol
    and host when the proxy sends them, else [http] and the Host header;
    with no host at all the URL names the host [undefined]. *)
Theorem endpoint_prefers_forwarded_headers (req : Request) :
  (forall proto fhost,
      x_forwarded_proto req = Some proto -> proto <> EmptyString ->
      x_forwarded_host req = Some fhost -> fhost <> EmptyString ->
      endpoint_url req = proto ++ "://" ++ fhost ++ "/message") /\
  (forall h,
      x_forwarded_proto req = None -> x_forwarded_host req = None ->
      host req = Some h -> h <> EmptyString ->
      endpoint_url req = "http://" ++ h ++ "/message") /\
  (x_forwarded_proto req = None -> x_forwarded_host req = None -> host req = None ->
   endpoint_url req = "http://undefined/message").
Proof.
  unfold endpoint_url, header_or. split; [|split].
  - intros proto fhost Hp Hpn Hh Hhn. rewrite Hp, Hh.
    destruct (String.eqb_spec proto EmptyString); [contradiction|].
    destruct (String.eqb_spec fhost EmptyString); [contradiction|].
    reflexivity.
  - intros h Hp Hf Hh Hn. rewrite Hp, Hf, Hh. reflexivity.
  - intros Hp Hf Hh. rewrite Hp, Hf, Hh. reflexivity.
Qed.

End WithTools.

Lemma two_sessions_distinct :
  NoDup (ids (activeConnections SampleMore.unwritable_then_live)).
Proof.
  simpl. constructor.
  - simpl. intros [H|[]]. discriminate H.
  - constructor; [simpl; tauto|constructor].
Defined.

(** A third stream opening beside two. *)
Lemma session_ids_stay_distinct_witness :
  NoDup (ids (activeConnections
                (world_after (sse_open (RT := Sample.engine) (Sample.local_request None)
                                       "session_3_c" SampleMore.unwritable_then_live)))).
Proof.
  exact (proj1 (session_ids_stay_distinct (RT := Sample.engine) (TL := Sample.idle)
                  SampleMore.unwritable_then_live (Sample.local_request None)
                  "session_3_c" None two_sessions_distinct)).
Defined.

(** Closing the first stream, twice. *)
Lemma close_is_idempotent_witness :
  exists w1,
    on_close "session_1_a" SampleMore.unwritable_then_live = Ok tt w1 /\
    Map_get "session_1_a" (activeConnections w1) = None /\
    on_close "session_1_a" w1 = Ok tt w1.
Proof.
  destruct (close_is_idempotent SampleMore.unwritable_then_live "session_1_a"
                                two_sessions_distinct)
    as (w1 & Hrun & _ & Hgone & _ & Hagain & _).
  exists w1. repeat split; assumption.
Defined.

(** A second stream opening beside a first. *)
Lemma new_stream_goes_last_witness :
  exists opened,
    sse_open (RT := Sample.engine) (Sample.local_request None) "session_2_b"
             Sample.one_stream
    = Ok tt {| activeConnections := [Sample.fresh_stream "session_1_a"; opened];
               browser := tt |}.
Proof.
  eexists.
  refine (proj1 (new_stream_goes_last (RT := Sample.engine) (TL := Sample.idle)
                   Sample.one_stream (Sample.local_request None) "session_2_b" _)).
  simpl. intros [H|[]]. discriminate H.
Defined.

(** A heartbeat of the live second stream leaves the first alone. *)
Lemma heartbeat_pings_its_own_stream_witness :
  exists w1,
    heartbeat "session_2_b" SampleMore.unwritable_then_live = Ok tt w1 /\
    Map_get "session_1_a" (activeConnections w1)
    = Map_get "session_1_a" (activeConnections SampleMore.unwritable_then_live).
Proof.
  destruct (heartbeat_pings_its_own_stream SampleMore.unwritable_then_live "session_2_b"
                                           two_sessions_distinct)
    as (w1 & Hrun & _ & Hothers & _).
  exists w1. split; [exact Hrun|]. apply Hothers. discriminate.
Defined.

(** Behind a tunnel, and on the local port. *)
Lemma endpoint_prefers_forwarded_headers_witness :
  endpoint_url (RT := Sample.engine)
    {| authorization := None; query_token := None;
       x_forwarded_proto := Some "https"; x_forwarded_host := Some "abc.ngrok.io";
       host := Some "localhost:3000"; body := None |}
  = "https://abc.ngrok.io/message" /\
  endpoint_url (RT := Sample.engine) (Sample.local_request None)
  = "http://localhost:3000/message".
Proof.
  split.
  - refine (proj1 (endpoint_prefers_forwarded_headers (RT := Sample.engine)
                     {| authorization := None; query_token := None;
                        x_forwarded_proto := Some "https";
                        x_forwarded_host := Some "abc.ngrok.io";
                        host := Some "localhost:3000"; body := None |})
                  "https" "abc.ngrok.io" eq_refl _ eq_refl _); discriminate.
  - refine (proj1 (proj2 (endpoint_prefers_forwarded_headers (RT := Sample.engine)
                            (Sample.local_request None)))
                  "localhost:3000" eq_refl eq_refl eq_refl _); discriminate.
Defined.

End StreamProperties.

(* ===================================================================== *)
(** ** Further properties of the credential store *)
(* ===================================================================== *)

Module CredentialProperties.
Import Js SessionManager Notions.
Open Scope string_scope.

Lemma prefix_app (p s : string) :
  prefix p s = true <-> exists rest, s = p ++ rest.
Proof.
  revert s. induction p as [|a p IH]; intros s.
  - split; [intros _; exists s; reflexivity|intros _; destruct s; reflexivity].
  - destruct s as [|c s]; simpl.
    + split; [discriminate|intros [rest H]; discriminate H].
    + destruct (ascii_dec a c) as [E|N].
      * subst c. rewrite IH. split.
        -- intros [rest ->]. exists rest. reflexivity.
        -- intros [rest H]. injection H as H. exists rest. exact H.
      * split; [discriminate|].
        intros [rest H]. injection H as H _. congruence.
Qed.

Lemma includes_unfold (s sub : string) :
  includes s sub =
  if prefix sub s then true
  else match s with
       | EmptyString => false
       | String _ rest => includes rest sub
       end.
Proof. destruct s; reflexivity. Qed.

(** [includes] finds [sub] exactly when [s] has it somewhere. *)
Lemma includes_somewhere (s sub : string) :
  includes s sub = true <-> exists before after, s = before ++ sub ++ after.
Proof.
  induction s as [|c s IH]; rewrite includes_unfold.
  - destruct (prefix sub EmptyString) eqn:Hp.
    + split; [|reflexivity]. intros _.
      apply prefix_app in Hp. destruct Hp as [rest Hp].
      exists EmptyString, rest. exact Hp.
    + split; [discriminate|].
      intros (before & after & H).
      destruct before; simpl in H.
      * assert (prefix sub EmptyString = true) by (apply prefix_app; eauto).
        congruence.
      * discriminate H.
  - destruct (prefix sub (String c s)) eqn:Hp.
    + split; [|reflexivity]. intros _.
      apply prefix_app in Hp. destruct Hp as [rest Hp].
      exists EmptyString, rest. exact Hp.
    + rewrite IH. split.
      * intros (before & after & ->). exists (String c before), after. reflexivity.
      * intros (before & after & H).
        destruct before as [|c' before]; simpl in H.
        -- assert (prefix sub (String c s) = true) by (apply prefix_app; eauto).
           congruence.
        -- injection H as _ H. eauto.
Qed.

Section WithPage.
Context {P : Type} {CP : CookiePage P}.

(** X16.  A cookie of the page is written to the file exactly when its
    domain has the text "amazon" somewhere in it, in lower case: the first
    label, a subdomain, or part of another site's name alike. *)
Theorem saved_iff_domain_mentions_amazon
        (now_ms : Z) (w : World P) (cs : list SerializedCookie) (p' : P)
        (c : SerializedCookie) :
  page_cookies (page w) = Ok cs p' ->
  can_write (disk w) = true ->
  exists w1 saved,
    saveAmazonSession now_ms w = Ok tt w1 /\
    cookies_file (disk w1) = Some (CookieArray saved) /\
    (In (identity c) (map identity saved) <->
     exists c0, In c0 cs /\ identity c0 = identity c /\
                exists before after, domain c0 = before ++ "amazon" ++ after).
Proof.
  intros Hc Hw.
  destruct (SessionManagerProperties.save_writes_file now_ms w cs p' Hc Hw)
    as [lines Hsave].
  do 2 eexists. split; [exact Hsave|]. split; [reflexivity|].
  unfold persistentCookies, amazonCookies.
  rewrite map_map. rewrite in_map_iff. split.
  - intros (c0 & Hid & Hin). apply filter_In in Hin. destruct Hin as [Hin Hdom].
    exists c0. split; [exact Hin|]. split; [exact Hid|].
    apply includes_somewhere. exact Hdom.
  - intros (c0 & Hin & Hid & Hdom). exists c0. split; [exact Hid|].
    apply filter_In. split; [exact Hin|]. apply includes_somewhere. exact Hdom.
Qed.


Lemma persistent_has_expiry (now_ms : Z) (c : SerializedCookie) :
  (0 <= now_ms)%Z ->
  has_expiry (with_expires c (if has_expiry c then expires c else oneYearFromNow now_ms))
  = true.
Proof.
  intros Hnow. destruct (has_expiry c) eqn:Hc.
  - rewrite SessionManagerProperties.with_expires_same. exact Hc.
  - apply SessionManagerProperties.has_expiry_pos. simpl.
    unfold oneYearFromNow, seconds, Qlt. cbn. lia.
Qed.

Lemma no_session_cookie_left (l : list SerializedCookie) :
  Forall (fun c => (0 < expires c)%Q) l -> sessionCookies l = [].
Proof.
  unfold sessionCookies.
  induction 1 as [|c l Hpos _ IH]; simpl; [reflexivity|].
  destruct (Qeq_bool (expires c) 0) eqn:E0.
  { apply Qeq_bool_iff in E0. rewrite E0 in Hpos. discriminate Hpos. }
  destruct (Qeq_bool (expires c) (-1)) eqn:E1.
  { apply Qeq_bool_iff in E1. rewrite E1 in Hpos. discriminate Hpos. }
  exact IH.
Qed.

(** X18.  Every cookie a save writes has an expiry after the epoch, none
    the 0 or -1 of a session cookie (the clock being past the epoch), and
    is the page's cookie in all but the expiry, in the page's order. *)
Theorem saved_cookies_have_an_expiry
        (now_ms : Z) (w : World P) (cs : list SerializedCookie) (p' : P) :
  (0 <= now_ms)%Z ->
  page_cookies (page w) = Ok cs p' ->
  can_write (disk w) = true ->
  exists w1 saved,
    saveAmazonSession now_ms w = Ok tt w1 /\
    cookies_file (disk w1) = Some (CookieArray saved) /\
    Forall (fun c => (0 < expires c)%Q) saved /\
    map identity saved = map identity (amazonCookies cs) /\
    sessionCookies saved = [].
Proof.
  intros Hnow Hc Hw.
  destruct (SessionManagerProperties.save_writes_file now_ms w cs p' Hc Hw)
    as [lines Hsave].
  do 2 eexists. split; [exact Hsave|]. split; [reflexivity|].
  assert (Hall : Forall (fun c => (0 < expires c)%Q)
                        (persistentCookies now_ms (amazonCookies cs))).
  { unfold persistentCookies. apply Forall_forall. intros c Hin.
    apply in_map_iff in Hin. destruct Hin as (c0 & <- & _).
    apply SessionManagerProperties.has_expiry_pos.
    apply persistent_has_expiry. exact Hnow. }
  split; [exact Hall|]. split.
  - unfold persistentCookies. rewrite map_map. apply map_ext. intros c. reflexivity.
  - apply no_session_cookie_left. exact Hall.
Qed.

Lemma persistentCookies_again (now1 now2 : Z) (cs : list SerializedCookie) :
  (0 <= now1)%Z ->
  persistentCookies now2 (persistentCookies now1 cs) = persistentCookies now1 cs.
Proof.
  intros Hnow. unfold persistentCookies. rewrite map_map.
  apply map_ext. intros c.
  rewrite (persistent_has_expiry now1 c Hnow).
  destruct (has_expiry c); reflexivity.
Qed.

Lemma amazonCookies_persistent (now_ms : Z) (cs : list SerializedCookie) :
  amazonCookies (persistentCookies now_ms (amazonCookies cs))
  = persistentCookies now_ms (amazonCookies cs).
Proof.
  unfold amazonCookies, persistentCookies.
  induction cs as [|c cs IH]; simpl; [reflexivity|].
  destruct (includes (domain c) "amazon") eqn:E; simpl; [|exact IH].
  rewrite E. f_equal. exact IH.
Qed.

(** X19.  A save does not extend what an earlier save has made persistent:
    when the page holds the cookies an earlier save wrote (as it does after
    a restore), a later save writes them with the same expiries. *)
Theorem resave_keeps_the_expiries
        (first later : Z) (w : World P) (cs : list SerializedCookie) (p' : P) :
  (0 <= first)%Z ->
  page_cookies (page w) = Ok (persistentCookies first (amazonCookies cs)) p' ->
  can_write (disk w) = true ->
  exists w1,
    saveAmazonSession later w = Ok tt w1 /\
    cookies_file (disk w1)
    = Some (CookieArray (persistentCookies first (amazonCookies cs))).
Proof.
  intros Hnow Hc Hw.
  destruct (SessionManagerProperties.save_writes_file later w _ p' Hc Hw)
    as [lines Hsave].
  eexists. split; [exact Hsave|]. simpl.
  rewrite amazonCookies_persistent, (persistentCookies_again first later _ Hnow).
  reflexivity.
Qed.

(** When [page.setCookie] throws, the restore answers [false]. *)
Lemma restore_refused (now_ms : Z) (w : World P)
      (cs : list SerializedCookie) (e : thrown) (p' : P) :
  cookies_file (disk w) = Some (CookieArray cs) ->
  validCookies (seconds now_ms) cs <> [] ->
  page_setCookie (validCookies (seconds now_ms) cs) (page w) = Raise e p' ->
  restoreAmazonSession now_ms w =
  Ok false {| page := p'; disk := disk w;
              console := (console w ++ [ErrRestoreFailed e])%list |}.
Proof.
  intros Hf Hne Hset.
  unfold restoreAmazonSession, try_catch, bind, on_page, lift, fs_existsSync,
    fs_readFileSync, JSON_parse, console_print, modify, gets, ret.
  repeat (progress (simpl; rewrite ?Hf)).
  destruct (length (validCookies (seconds now_ms) cs) =? 0)%nat eqn:E0.
  { apply Nat.eqb_eq, length_zero_iff_nil in E0. congruence. }
  repeat (progress (simpl; rewrite ?Hset)). reflexivity.
Qed.

(** X20.  A restore never writes the file.  It answers [true] exactly when
    the file parses, at least one of its cookies expires after the time of
    the restore, and [page.setCookie] takes those cookies; the page is then
    the one that call leaves. *)
Theorem restore_answers_true_iff (now_ms : Z) (w w' : World P) (b : bool) :
  restoreAmazonSession now_ms w = Ok b w' ->
  disk w' = disk w /\
  (b = true <->
   exists cs p',
     cookies_file (disk w) = Some (CookieArray cs) /\
     validCookies (seconds now_ms) cs <> [] /\
     page_setCookie (validCookies (seconds now_ms) cs) (page w) = Ok tt p' /\
     page w' = p').
Proof.
  intros H.
  destruct (cookies_file (disk w)) as [[raw msg|cs]|] eqn:Hf.
  - rewrite (SessionManagerProperties.restore_unparseable now_ms w raw msg Hf) in H.
    injection H as <- <-. split; [reflexivity|].
    split; [discriminate|]. intros (cs & p' & Hcs & _). discriminate Hcs.
  - destruct (validCookies (seconds now_ms) cs) as [|v vs] eqn:Hv.
    + assert (Hall : Forall (fun c => (expires c <= seconds now_ms)%Q) cs).
      { apply Forall_forall. intros c Hin.
        destruct (Qlt_le_dec (seconds now_ms) (expires c)) as [Hlt|Hle]; [|exact Hle].
        assert (Hin' : In c (validCookies (seconds now_ms) cs))
          by (apply SessionManagerProperties.validCookies_fresh; split; assumption).
        rewrite Hv in Hin'. destruct Hin'. }
      rewrite (SessionManagerProperties.restore_all_expired now_ms w cs Hf Hall) in H.
      injection H as <- <-. split; [reflexivity|].
      split; [discriminate|].
      intros (cs' & p' & Hcs & Hne & _). injection Hcs as <-. congruence.
    + destruct (page_setCookie (validCookies (seconds now_ms) cs) (page w))
        as [[] p'|e p'] eqn:Hset.
      * assert (Hne : validCookies (seconds now_ms) cs <> []) by (rewrite Hv; discriminate).
        destruct (SessionManagerProperties.restore_applies_valid now_ms w cs p' Hf Hne Hset)
          as [lines Hr].
        rewrite Hr in H. injection H as <- <-. split; [reflexivity|].
        split; [|reflexivity]. intros _. exists cs, p'.
        split; [reflexivity|]. split; [exact Hne|]. split; [exact Hset|reflexivity].
      * assert (Hne : validCookies (seconds now_ms) cs <> []) by (rewrite Hv; discriminate).
        rewrite (restore_refused now_ms w cs e p' Hf Hne Hset) in H.
        injection H as <- <-. split; [reflexivity|].
        split; [discriminate|].
        intros (cs' & p1 & Hcs & _ & Hset' & _). injection Hcs as <-.
        congruence.
  - rewrite (SessionManagerProperties.restore_absent now_ms w Hf) in H.
    injection H as <- <-. split; [reflexivity|].
    split; [discriminate|]. intros (cs & p' & Hcs & _). discriminate Hcs.
Qed.

End WithPage.

(** A page that holds the cookie of another site whose domain has the word
    in it: the cookie is saved. *)
Lemma saved_iff_domain_mentions_amazon_witness :
  let w :=
    {| page := [SampleMore.lookalike_cookie];
       disk := {| can_write := true; cookies_file := None; torn := None |};
       console := [] |} in
  exists w1 saved,
    saveAmazonSession (CP := Sample.jar) Sample.clock w = Ok tt w1 /\
    cookies_file (disk w1) = Some (CookieArray saved) /\
    In (identity SampleMore.lookalike_cookie) (map identity saved).
Proof.
  intros w.
  destruct (saved_iff_domain_mentions_amazon (CP := Sample.jar) Sample.clock w
              [SampleMore.lookalike_cookie] [SampleMore.lookalike_cookie]
              SampleMore.lookalike_cookie eq_refl eq_refl)
    as (w1 & saved & Hsave & Hfile & Hiff).
  exists w1, saved. split; [exact Hsave|]. split; [exact Hfile|].
  apply Hiff. exists SampleMore.lookalike_cookie.
  split; [left; reflexivity|]. split; [reflexivity|].
  exists "not", ".example.org". reflexivity.
Defined.


(** The first run: what is saved has no session cookie in it. *)
Lemma saved_cookies_have_an_expiry_witness :
  exists w1 saved,
    saveAmazonSession (CP := Sample.jar) Sample.clock Sample.first_run = Ok tt w1 /\
    cookies_file (disk w1) = Some (CookieArray saved) /\
    sessionCookies saved = [].
Proof.
  destruct (saved_cookies_have_an_expiry (CP := Sample.jar) Sample.clock Sample.first_run
              [Sample.session_cookie; Sample.stale_cookie]
              [Sample.session_cookie; Sample.stale_cookie])
    as (w1 & saved & Hsave & Hfile & _ & _ & Hnone).
  - unfold Sample.clock. lia.
  - reflexivity.
  - reflexivity.
  - exists w1, saved. repeat split; assumption.
Defined.

(** A save a day after the first, on a page that holds what the first save
    wrote. *)
Lemma resave_keeps_the_expiries_witness :
  let w :=
    {| page := persistentCookies Sample.clock (amazonCookies [Sample.session_cookie]);
       disk := {| can_write := true; cookies_file := None; torn := None |};
       console := [] |} in
  exists w1,
    saveAmazonSession (CP := Sample.jar) (Sample.clock + 86400000) w = Ok tt w1 /\
    cookies_file (disk w1)
    = Some (CookieArray [with_expires Sample.session_cookie
                                      (oneYearFromNow Sample.clock)]).
Proof.
  intros w.
  refine (resave_keeps_the_expiries (CP := Sample.jar) Sample.clock
            (Sample.clock + 86400000) w [Sample.session_cookie] _ _ eq_refl eq_refl).
  unfold Sample.clock. lia.
Defined.

(** A restore from a file that is not JSON leaves the file there. *)
Lemma restore_answers_true_iff_witness :
  disk (world_after (restoreAmazonSession (CP := Sample.jar) Sample.clock
                                          Sample.corrupt_file))
  = disk Sample.corrupt_file.
Proof.
  exact (proj1 (restore_answers_true_iff (CP := Sample.jar) Sample.clock
                  Sample.corrupt_file
                  (world_after (restoreAmazonSession (CP := Sample.jar) Sample.clock
                                                     Sample.corrupt_file))
                  false eq_refl)).
Defined.

End CredentialProperties.

(* ===================================================================== *)
(** ** Further properties of the cart driver *)
(* ===================================================================== *)

Module QueryProperties.
Import Js Amazon AmazonQueries Notions AmazonProperties.
Open Scope string_scope.

Lemma or_default_filled (s : option string) (fallback : string) :
  fallback <> EmptyString -> or_default s fallback <> EmptyString.
Proof.
  intros Hf. unfold or_default, supplied, text_of.
  destruct s as [x|]; [|exact Hf].
  destruct (String.eqb_spec x EmptyString) as [E|N]; simpl; [exact Hf|exact N].
Qed.

(** What a [try]/[catch] that turns every throw into a failure envelope
    returns. *)
Lemma caught_envelope {W} (failure : string) (body : M W OperationResult) (w : W) :
  (forall r w', body w = Ok r w' ->
                success r = true /\ data r <> None /\ error r = None) ->
  exists r w',
    try_catch body
      (fun e => ret {| success := false; message := failure;
                       data := None; error := Some (error_text e) |}) w
    = Ok r w' /\
    envelope failure r.
Proof.
  intros Hbody. unfold try_catch, ret.
  destruct (body w) as [r w'|e w'] eqn:E.
  - exists r, w'. split; [reflexivity|]. left. exact (Hbody r w' eq_refl).
  - do 2 eexists. split; [reflexivity|]. right. simpl.
    repeat split. discriminate.
Qed.

(** Run the first step of a sequence on what it is known to return. *)
Lemma bind_run {W A C} (m : M W A) (k : A -> M W C) (w w1 : W) (a : A) :
  m w = Ok a w1 -> bind m k w = k a w1.
Proof.
  intros H. unfold bind. rewrite H. reflexivity.
Qed.

(** Run the first step of the goal on an equation of the context. *)
Ltac chain :=
  match goal with
  | H : ?m ?w = Ok ?a ?w1 |- context [bind ?m ?k ?w] =>
      rewrite (bind_run m k w w1 a H); cbv beta
  end.

Section WithBrowser.
Context {RT : Runtime} {B : Type} {BR : Browser B} {DM : Dom B}.
Variable env : option string.

(** X21.  The search reads its results off the page it has brought up:
    when the steps up to the result list go through and the page then
    holds [elements], the search succeeds with the first five of them, in
    the page's order, none with an empty title (a missing title reads
    "Unknown"), and the message counts what is returned.  A successful
    search has come about in this way. *)
Theorem search_gives_at_most_five (query : string) (b : B) :
  let visit :=
    (getPage ;;
     page_goto (BASE_URL env) ;;
     page_waitForSelector "#twotabsearchtextbox" None ;;
     page_type "#twotabsearchtextbox" query ;;
     page_click "#nav-search-submit-button" ;;
     page_waitForSelector SEARCH_RESULT None)%js in
  (forall b1 elements b2,
      visit b = Ok tt b1 ->
      search_result_elements b1 = Ok elements b2 ->
      searchProducts env query b
      = Ok {| success := true;
              message := "Found " ++ count_text (map search_item (firstn 5 elements))
                         ++ " products";
              data := Some (JArr (map search_item (firstn 5 elements)));
              error := None |} b2 /\
      length (map search_item (firstn 5 elements)) = Nat.min 5 (length elements) /\
      Forall (fun item => item_title item <> EmptyString)
             (map search_item (firstn 5 elements))) /\
  (forall r b',
      searchProducts env query b = Ok r b' ->
      success r = true ->
      exists b1 elements,
        visit b = Ok tt b1 /\
        search_result_elements b1 = Ok elements b' /\
        data r = Some (JArr (map search_item (firstn 5 elements)))).
Proof.
  intros visit. subst visit. split.
  - intros b1 elements b2 Hv He.
    do 5 bind_inv Hv.
    unfold searchProducts, try_catch.
    do 5 chain. rewrite (bind_run _ _ _ _ _ Hv). cbv beta.
    rewrite (bind_run _ _ _ _ _ He). cbv beta. unfold ret.
    split; [reflexivity|]. split.
    + rewrite length_map. apply length_firstn.
    + apply Forall_forall. intros item Hin.
      apply in_map_iff in Hin. destruct Hin as (el & <- & _).
      unfold item_title, search_item. simpl.
      apply or_default_filled. discriminate.
  - intros r b' H Hs. unfold searchProducts in H. apply try_catch_Ok in H.
    destruct H as [H | (e & w1 & _ & H)].
    2:{ unfold ret in H. injection H as <- _. discriminate Hs. }
    do 7 bind_inv H.
    unfold ret in H. injection H as <- <-. clear Hs.
    destruct a4. do 2 eexists. split; [|split; [eassumption|reflexivity]].
    do 5 chain. assumption.
Qed.

(** X22.  The cart answer has two shapes, chosen by the empty-cart marker
    of the cart page.  When the page shows the marker the data are
    [{items: [], total: "$0.00"}].  When it does not, they are
    [{items, subtotal}], one item for each element of the page and in its
    order, the subtotal being the text the page shows, or "$0.00" when it
    shows none.  The first has no [subtotal] key and the second no [total]
    key.  A successful answer has come about in one of the two ways. *)
Theorem cart_answer_has_two_shapes (b : B) :
  let visit :=
    (getPage ;;
     page_goto (BASE_URL env ++ "/gp/cart/view.html") ;;
     page_query ".sc-your-amazon-cart-is-empty")%js in
  (forall b1,
      visit b = Ok true b1 ->
      getCart env b
      = Ok {| success := true;
              message := "Cart is empty";
              data := Some (JObj [("items", JArr []); ("total", JStr "$0.00")]);
              error := None |} b1) /\
  (forall b1 elements b2 found b3,
      visit b = Ok false b1 ->
      cart_item_elements b1 = Ok elements b2 ->
      page_trimmed_text "#sc-subtotal-amount-activecart .sc-price" b2 = Ok found b3 ->
      getCart env b
      = Ok {| success := true;
              message := "Cart contains " ++ count_text (map cart_item elements)
                         ++ " item(s)";
              data := Some (JObj [("items", JArr (map cart_item elements));
                                  ("subtotal", JStr (or_default found "$0.00"))]);
              error := None |} b3 /\
      or_default found "$0.00" <> EmptyString) /\
  (forall r b',
      getCart env b = Ok r b' ->
      success r = true ->
      (visit b = Ok true b' /\
       data r = Some (JObj [("items", JArr []); ("total", JStr "$0.00")])) \/
      (exists b1 elements b2 found,
          visit b = Ok false b1 /\
          cart_item_elements b1 = Ok elements b2 /\
          page_trimmed_text "#sc-subtotal-amount-activecart .sc-price" b2 = Ok found b' /\
          data r = Some (JObj [("items", JArr (map cart_item elements));
                               ("subtotal", JStr (or_default found "$0.00"))]))).
Proof.
  intros visit. subst visit. split; [|split].
  - intros b1 Hv. do 2 bind_inv Hv.
    unfold getCart, try_catch.
    do 2 chain. rewrite (bind_run _ _ _ _ _ Hv). reflexivity.
  - intros b1 elements b2 found b3 Hv He Hf. do 2 bind_inv Hv.
    unfold getCart, try_catch.
    do 2 chain. rewrite (bind_run _ _ _ _ _ Hv). cbv beta iota.
    rewrite (bind_run _ _ _ _ _ He). cbv beta.
    rewrite (bind_run _ _ _ _ _ Hf). cbv beta. unfold ret.
    split; [reflexivity|]. apply or_default_filled. discriminate.
  - intros r b' H Hs. unfold getCart in H. apply try_catch_Ok in H.
    destruct H as [H | (e & w1 & _ & H)].
    2:{ unfold ret in H. injection H as <- _. discriminate Hs. }
    do 3 bind_inv H.
    destruct a1.
    + unfold ret in H. injection H as <- <-. left. split; [|reflexivity].
      do 2 chain. assumption.
    + do 2 bind_inv H. unfold ret in H. injection H as <- <-. right.
      do 4 eexists. split; [|split; [eassumption|split; [eassumption|reflexivity]]].
      do 2 chain. assumption.
Qed.

(** X23.  Each of the four capabilities returns whatever the browser does:
    it never throws, and what it returns is a success with data and no
    error, or a failure with its own fixed message, the text of what was
    thrown as error, and no data. *)
Theorem capabilities_return_an_envelope
        (query : string) (params : AddToCartParams) (b : B) :
  (exists r b', searchProducts env query b = Ok r b' /\
                envelope "Failed to search products" r) /\
  (exists r b', addToCart env params b = Ok r b' /\
                envelope "Failed to add item to cart" r) /\
  (exists r b', getCart env b = Ok r b' /\
                envelope "Failed to get cart contents" r) /\
  (exists r b', checkLoginStatus env b = Ok r b' /\
                envelope "Failed to check login status" r).
Proof.
  split; [|split; [|split]].
  - apply caught_envelope. intros r w' H.
    do 7 bind_inv H. unfold ret in H. injection H as <- _.
    split; [reflexivity|]. split; [discriminate|reflexivity].
  - apply caught_envelope. intros r w' H.
    do 5 bind_inv H.
    destruct a3; [|simpl in H; unfold throw in H; discriminate H].
    simpl in H. do 3 bind_inv H. unfold ret in H. injection H as <- _. simpl.
    repeat split. discriminate.
  - apply caught_envelope. intros r w' H.
    do 3 bind_inv H. destruct a1.
    + unfold ret in H. injection H as <- _. simpl. repeat split. discriminate.
    + do 2 bind_inv H. unfold ret in H. injection H as <- _. simpl.
      repeat split. discriminate.
  - apply caught_envelope. intros r w' H.
    do 3 bind_inv H. unfold ret in H. injection H as <- _. simpl.
    repeat split. discriminate.
Qed.

(** X24.  The login check reads the text of the account link of the page
    it has brought up, and reports a login exactly when that text has
    "Hello" somewhere in it, whatever follows; the message says the same.
    A successful check has come about in this way. *)
Theorem login_check_looks_for_hello (b : B) :
  let visit := (getPage ;; page_goto (BASE_URL env))%js in
  (forall b1 text b2,
      visit b = Ok tt b1 ->
      page_textContent "#nav-link-accountList-nav-line-1" b1 = Ok text b2 ->
      checkLoginStatus env b
      = Ok {| success := true;
              message := if says_hello text then "Logged in to Amazon"
                         else "Not logged in";
              data := Some (JObj [("loggedIn", JBool (says_hello text))]);
              error := None |} b2 /\
      (says_hello text = true <->
       exists t before after, text = Some t /\ t = before ++ "Hello" ++ after)) /\
  (forall r b',
      checkLoginStatus env b = Ok r b' ->
      success r = true ->
      exists b1 text,
        visit b = Ok tt b1 /\
        page_textContent "#nav-link-accountList-nav-line-1" b1 = Ok text b' /\
        data r = Some (JObj [("loggedIn", JBool (says_hello text))])).
Proof.
  intros visit. subst visit. split.
  - intros b1 text b2 Hv Ht. bind_inv Hv.
    unfold checkLoginStatus, try_catch.
    chain. rewrite (bind_run _ _ _ _ _ Hv). cbv beta.
    rewrite (bind_run _ _ _ _ _ Ht). cbv beta. unfold ret.
    split; [reflexivity|].
    unfold says_hello. destruct text as [t|].
    + rewrite CredentialProperties.includes_somewhere. split.
      * intros (before & after & ->). exists (before ++ "Hello" ++ after), before, after.
        split; reflexivity.
      * intros (t' & before & after & Ht' & Heq). injection Ht' as <-.
        exists before, after. exact Heq.
    + split; [discriminate|]. intros (t & _ & _ & Ht' & _). discriminate Ht'.
  - intros r b' H Hs. unfold checkLoginStatus in H. apply try_catch_Ok in H.
    destruct H as [H | (e & w1 & _ & H)].
    2:{ unfold ret in H. injection H as <- _. discriminate Hs. }
    do 3 bind_inv H. unfold ret in H. injection H as <- <-. simpl.
    destruct a0. do 2 eexists. split; [|split; [eassumption|reflexivity]].
    chain. assumption.
Qed.

End WithBrowser.

(** Seven results on the page: the first five come back. *)
Lemma search_gives_at_most_five_witness :
  let elements := map SampleMore.listing ["1"; "2"; "3"; "4"; "5"; "6"; "7"] in
  let calls :=
    ["getPage"; "goto https://www.amazon.com";
     "waitForSelector #twotabsearchtextbox"; "type #twotabsearchtextbox mouse";
     "click #nav-search-submit-button"; "waitForSelector " ++ SEARCH_RESULT] in
  searchProducts (RT := Sample.engine) (BR := Sample.cooperative)
                 (DM := SampleMore.storefront) None "mouse" []
  = Ok {| success := true;
          message := "Found " ++ count_text (RT := Sample.engine)
                                   (map search_item (firstn 5 elements))
                     ++ " products";
          data := Some (JArr (map search_item (firstn 5 elements)));
          error := None |} calls /\
  length (map search_item (firstn 5 elements)) = Nat.min 5 (length elements) /\
  Forall (fun item => item_title item <> EmptyString)
         (map search_item (firstn 5 elements)).
Proof.
  intros elements calls.
  exact (proj1 (search_gives_at_most_five
                  (RT := Sample.engine) (BR := Sample.cooperative)
                  (DM := SampleMore.storefront) None "mouse" [])
               calls elements calls eq_refl eq_refl).
Defined.

(** A cart page without the empty-cart marker and with one item: the data
    have a subtotal and no total. *)
Lemma cart_answer_has_two_shapes_witness :
  getCart (RT := Sample.engine) (BR := SampleMore.shopper)
          (DM := SampleMore.storefront) None []
  = Ok {| success := true;
          message := "Cart contains "
                     ++ count_text (RT := Sample.engine)
                          [JObj [("title", JStr "Mouse 1");
                                 ("price", JStr "$19.99");
                                 ("quantity", JNum 2);
                                 ("asin", JStr "B001");
                                 ("imageUrl", JStr EmptyString)]]
                     ++ " item(s)";
          data := Some (JObj [("items",
                               JArr [JObj [("title", JStr "Mouse 1");
                                           ("price", JStr "$19.99");
                                           ("quantity", JNum 2);
                                           ("asin", JStr "B001");
                                           ("imageUrl", JStr EmptyString)]]);
                              ("subtotal", JStr "$39.98")]);
          error := None |}
       ["getPage"; "goto https://www.amazon.com/gp/cart/view.html"].
Proof.
  exact (proj1 (proj1 (proj2 (cart_answer_has_two_shapes
                                (RT := Sample.engine) (BR := SampleMore.shopper)
                                (DM := SampleMore.storefront) None []))
                      ["getPage"; "goto https://www.amazon.com/gp/cart/view.html"]
                      [{| product_title := Some "Mouse 1";
                          product_price := Some "$19.99";
                          quantity_value := Some "2";
                          cart_image_src := None;
                          cart_data_asin := Some "B001" |}]
                      ["getPage"; "goto https://www.amazon.com/gp/cart/view.html"]
                      (Some "$39.98")
                      ["getPage"; "goto https://www.amazon.com/gp/cart/view.html"]
                      eq_refl eq_refl eq_refl)).
Defined.

(** The navigation bar of a visitor who has not signed in reads
    "Hello, sign in": the check reports a login. *)
Lemma login_check_looks_for_hello_witness :
  checkLoginStatus (BR := Sample.cooperative) (DM := SampleMore.storefront) None []
  = Ok {| success := true;
          message := "Logged in to Amazon";
          data := Some (JObj [("loggedIn", JBool true)]);
          error := None |}
       ["getPage"; "goto https://www.amazon.com"].
Proof.
  exact (proj1 (proj1 (login_check_looks_for_hello
                         (BR := Sample.cooperative) (DM := SampleMore.storefront) None [])
                      ["getPage"; "goto https://www.amazon.com"]
                      (Some "Hello, sign in")
                      ["getPage"; "goto https://www.amazon.com"]
                      eq_refl eq_refl)).
Defined.

End QueryProperties.

(* ===================================================================== *)
(** ** Properties of the login probe and of the browser singleton *)
(* ===================================================================== *)

Module BrowserProperties.
Import Js Notions.
Open Scope string_scope.

Section WithAccountPage.
Context {P : Type} {AP : SessionProbe.AccountPage P}.

(** X25.  The login probe never throws.  It answers [true] exactly when
    reading the account text went through and the text has "Hello"
    somewhere in it; when the reading throws it answers [false]. *)
Theorem probe_fails_closed (p : P) :
  exists b p',
    SessionProbe.isLoggedIn p = Ok b p' /\
    (b = true <->
     exists t before after,
       SessionProbe.account_text p = Ok t p' /\ t = before ++ "Hello" ++ after) /\
    (forall e p1, SessionProbe.account_text p = Raise e p1 -> b = false /\ p' = p1).
Proof.
  unfold SessionProbe.isLoggedIn, try_catch, bind, ret.
  destruct (SessionProbe.account_text p) as [t p'|e p'] eqn:E.
  - do 2 eexists. split; [reflexivity|]. split; [|intros e p1 H; discriminate H].
    rewrite CredentialProperties.includes_somewhere. split.
    + intros (before & after & Ht). exists t, before, after. split; [reflexivity|exact Ht].
    + intros (t' & before & after & Ht & Heq). injection Ht as <-. eauto.
  - do 2 eexists. split; [reflexivity|]. split.
    + split; [discriminate|]. intros (t & _ & _ & Ht & _). discriminate Ht.
    + intros e1 p1 H. injection H as _ <-. split; reflexivity.
Qed.

End WithAccountPage.

Section WithPuppeteer.
Context {W Br Pg : Type} {PP : BrowserTs.Puppeteer W Br Pg}.
Variable env : BrowserTs.Env.

Lemma getBrowser_sets_instance (s s1 : BrowserTs.State W Br) (br : Br) :
  BrowserTs.getBrowser env s = Ok br s1 ->
  BrowserTs.browserInstance s1 = Some br.
Proof.
  unfold BrowserTs.getBrowser, bind, BrowserTs.on_machine, lift, modify, ret.
  destruct (BrowserTs.browserInstance s) as [instance|] eqn:Hi.
  - destruct (BrowserTs.browser_connected instance (BrowserTs.machine s)).
    + intros H. injection H as <- <-. exact Hi.
    + destruct (BrowserTs.puppeteer_launch _ _) as [launched m|e m]; simpl;
        intros H; [injection H as <- <-; reflexivity|discriminate H].
  - destruct (BrowserTs.puppeteer_launch _ _) as [launched m|e m]; simpl;
      intros H; [injection H as <- <-; reflexivity|discriminate H].
Qed.

(** X26.  The browser is a singleton: after [getBrowser] has returned a
    browser, a further call returns the same browser and launches nothing,
    as long as that browser is connected.  When a launch fails, the call
    throws and the instance variable keeps what it held. *)
Theorem getBrowser_reuses_the_instance (s s1 : BrowserTs.State W Br) (br : Br) :
  BrowserTs.getBrowser env s = Ok br s1 ->
  (BrowserTs.browser_connected br (BrowserTs.machine s1) = true ->
   BrowserTs.getBrowser env s1 = Ok br s1) /\
  (forall e s2, BrowserTs.getBrowser env s1 = Raise e s2 ->
                BrowserTs.browserInstance s2 = Some br).
Proof.
  intros H. pose proof (getBrowser_sets_instance s s1 br H) as Hi. split.
  - intros Hc. unfold BrowserTs.getBrowser. rewrite Hi, Hc. reflexivity.
  - intros e s2. unfold BrowserTs.getBrowser, bind, BrowserTs.on_machine, lift,
      modify, ret.
    rewrite Hi.
    destruct (BrowserTs.browser_connected br (BrowserTs.machine s1)); [discriminate|].
    destruct (BrowserTs.puppeteer_launch _ _) as [launched m|e' m]; simpl;
      intros E; [discriminate E|].
    injection E as _ <-. reflexivity.
Qed.

(** X27.  [closeBrowser] forgets the browser only when closing it went
    through: then the instance variable is null, and a second call does
    nothing.  When closing throws, the call throws and the variable still
    holds the browser. *)
Theorem closeBrowser_forgets_a_closed_browser (s : BrowserTs.State W Br) :
  (forall s1, BrowserTs.closeBrowser s = Ok tt s1 ->
              BrowserTs.browserInstance s1 = None /\
              BrowserTs.closeBrowser s1 = Ok tt s1) /\
  (forall e s1, BrowserTs.closeBrowser s = Raise e s1 ->
                BrowserTs.browserInstance s1 = BrowserTs.browserInstance s /\
                BrowserTs.browserInstance s <> None).
Proof.
  unfold BrowserTs.closeBrowser, bind, BrowserTs.on_machine, lift, modify.
  destruct (BrowserTs.browserInstance s) as [instance|] eqn:Hi.
  - destruct (BrowserTs.browser_close instance (BrowserTs.machine s)) as [[] m|e m];
      simpl; split.
    + intros s1 H. injection H as <-. simpl. split; reflexivity.
    + intros e s1 H. discriminate H.
    + intros s1 H. discriminate H.
    + intros e1 s1 H. injection H as _ <-. simpl. split; [reflexivity|discriminate].
  - split.
    + intros s1 H. injection H as <-. rewrite ?Hi. split; reflexivity.
    + intros e s1 H. discriminate H.
Qed.

End WithPuppeteer.

(** The text "Hello, sign in". *)
Lemma probe_fails_closed_witness :
  SessionProbe.isLoggedIn (AP := SampleMore.signed_out) tt = Ok true tt.
Proof.
  destruct (probe_fails_closed (AP := SampleMore.signed_out) tt)
    as (b & p' & Hrun & Hiff & _).
  assert (Hb : b = true).
  { apply Hiff. exists "Hello, sign in", EmptyString, ", sign in".
    split; [|reflexivity].
    unfold SessionProbe.isLoggedIn, try_catch, bind, ret in Hrun. simpl in Hrun.
    injection Hrun as _ <-. reflexivity. }
  rewrite Hrun, Hb. destruct p'. reflexivity.
Defined.

(** A cold start on the sample machine, asked for the browser twice. *)
Lemma getBrowser_reuses_the_instance_witness :
  let warm :=
    {| BrowserTs.browserInstance := Some 1%nat;
       BrowserTs.machine := {| SampleMore.launches := 1; SampleMore.closed := [] |} |} in
  BrowserTs.getBrowser (PP := SampleMore.desktop) SampleMore.plain_env SampleMore.cold
  = Ok 1%nat warm /\
  BrowserTs.getBrowser (PP := SampleMore.desktop) SampleMore.plain_env warm = Ok 1%nat warm.
Proof.
  intros warm. split; [reflexivity|].
  exact (proj1 (getBrowser_reuses_the_instance (PP := SampleMore.desktop)
                  SampleMore.plain_env SampleMore.cold warm 1%nat eq_refl) eq_refl).
Defined.

(** Closing the browser of the sample machine, twice. *)
Lemma closeBrowser_forgets_a_closed_browser_witness :
  let warm :=
    {| BrowserTs.browserInstance := Some 1%nat;
       BrowserTs.machine := {| SampleMore.launches := 1; SampleMore.closed := [] |} |} in
  let shut :=
    {| BrowserTs.browserInstance := None;
       BrowserTs.machine := {| SampleMore.launches := 1; SampleMore.closed := [1%nat] |} |} in
  BrowserTs.closeBrowser (PP := SampleMore.desktop) warm = Ok tt shut /\
  BrowserTs.closeBrowser (PP := SampleMore.desktop) shut = Ok tt shut.
Proof.
  intros warm shut. split; [reflexivity|].
  exact (proj2 (proj1 (closeBrowser_forgets_a_closed_browser (PP := SampleMore.desktop) warm)
                      shut eq_refl)).
Defined.

End BrowserProperties.

(* ===================================================================== *)
(** ** src/server.ts: the two handlers of [tools/call] *)
(* ===================================================================== *)

Module AgreementProperties.
Import Js Server Notions.
Open Scope string_scope.
Close Scope Q_scope.

Section WithTools.
Context {RT : Runtime} {B : Type} {TL : Tools B}.

(** With arguments that are not null, the handler registered on the server
    object runs the [switch] of the /message handler and wraps what it
    gives. *)
Lemma CallTool_handler_runs_call_tool (name : string) (a : json) (b : B) :
  a <> JNull ->
  CallTool_handler (Some (JStr name)) (Some a) b
  = match call_tool (Some (JStr name)) a b with
    | Ok r b' =>
        Ok (JObj [("content",
                   JArr [JObj [("type", JStr "text");
                               ("text", JStr (JSON_stringify r 2))]])]) b'
    | Raise e b' =>
        Ok (JObj [("content",
                   JArr [JObj [("type", JStr "text");
                               ("text",
                                JStr (JSON_stringify
                                        (JObj [("success", JBool false);
                                               ("error", JStr (error_text e))]) 2))]]);
                  ("isError", JBool true)]) b'
    end.
Proof.
  intros Ha. unfold CallTool_handler, call_tool, try_catch. unfold bind at 1.
  assert (Hargs : match a with
                  | JNull => searchProducts None
                  | _ => searchProducts (prop a "query")
                  end = searchProducts (prop a "query"))
    by (destruct a; try reflexivity; contradiction).
  rewrite Hargs. clear Hargs.
  destruct (is_str (Some (JStr name)) "search_amazon");
    [destruct (searchProducts _ b); reflexivity|].
  destruct (is_str (Some (JStr name)) "add_to_cart");
    [destruct (addToCart _ b); reflexivity|].
  destruct (is_str (Some (JStr name)) "view_cart");
    [destruct (getCart b); reflexivity|].
  destruct (is_str (Some (JStr name)) "check_login");
    [destruct (checkLoginStatus b); reflexivity|].
  destruct (is_str (Some (JStr name)) "save_session"); [|reflexivity].
  match goal with |- context [match ?m b with _ => _ end] => destruct (m b) end;
    reflexivity.
Qed.

(** X28.  The two handlers of [tools/call] run the same tool on the same
    arguments when [arguments] is given and truthy.  When the tool returns,
    the result the /message handler sends is the one the handler registered
    on the server object returns; when the tool throws, the latter returns
    a result marked [isError] and the former an error -32603. *)
Theorem both_call_paths_run_the_same_tool
        (request p a : json) (name : string) (b : B) :
  is_str (prop request "method") "tools/call" = true ->
  prop request "params" = Some p ->
  prop p "name" = Some (JStr name) ->
  prop p "arguments" = Some a ->
  truthy a = true ->
  exists payload b',
    CallTool_handler (Some (JStr name)) (Some a) b = Ok payload b' /\
    ((prop payload "isError" = None /\
      route request b = Ok (result_response request payload) b') \/
     (prop payload "isError" = Some (JBool true) /\
      exists text,
        route request b = Ok (error_response request (-32603) text) b')).
Proof.
  intros Hm Hp Hname Hargs Ha.
  assert (Hnn : a <> JNull) by (intros ->; discriminate Ha).
  assert (Hpn : p <> JNull) by (intros ->; discriminate Hname).
  rewrite (CallTool_handler_runs_call_tool name a b Hnn).
  assert (Hroute :
            route request b
            = match call_tool (Some (JStr name)) a b with
              | Ok r b' =>
                  Ok (result_response request
                        (JObj [("content",
                                JArr [JObj [("type", JStr "text");
                                            ("text", JStr (JSON_stringify r 2))]])])) b'
              | Raise e b' =>
                  Ok (error_response request (-32603) (tool_error_message e)) b'
              end).
  { unfold route.
    destruct (prop request "method") as [[| | |m| |]|]; try discriminate Hm.
    simpl in Hm. apply String.eqb_eq in Hm. subst m. simpl.
    rewrite Hp. unfold prop_of.
    assert (Hret : forall k,
               match p with
               | JNull => throw (W := B) (ErrorObject
                            ("Cannot read properties of null (reading '" ++ k ++ "')"))
               | _ => ret (prop p k)
               end = ret (prop p k))
      by (intros k; destruct p; try reflexivity; contradiction).
    rewrite !Hret. unfold bind at 1. unfold ret at 1. unfold bind at 1. unfold ret at 1.
    rewrite Hname, Hargs. unfold or_else. simpl. rewrite Ha.
    unfold try_catch, bind, ret.
    destruct (call_tool (Some (JStr name)) a b); reflexivity. }
  rewrite Hroute.
  destruct (call_tool (Some (JStr name)) a b) as [r b'|e b'].
  - do 2 eexists. split; [reflexivity|]. left. split; reflexivity.
  - do 2 eexists. split; [reflexivity|]. right. split; [reflexivity|].
    eexists. reflexivity.
Qed.

End WithTools.

Lemma both_call_paths_run_the_same_tool_witness :
  let p := JObj [("name", JStr "view_cart"); ("arguments", JObj [])] in
  let request := JObj [("jsonrpc", JStr "2.0"); ("id", JNum 1);
                       ("method", JStr "tools/call"); ("params", p)] in
  exists payload b',
    CallTool_handler (RT := Sample.engine) (TL := Sample.idle)
                     (Some (JStr "view_cart")) (Some (JObj [])) tt = Ok payload b' /\
    ((prop payload "isError" = None /\
      route (RT := Sample.engine) (TL := Sample.idle) request tt
      = Ok (result_response request payload) b') \/
     (prop payload "isError" = Some (JBool true) /\
      exists text,
        route (RT := Sample.engine) (TL := Sample.idle) request tt
        = Ok (error_response request (-32603) text) b')).
Proof.
  intros p request.
  exact (both_call_paths_run_the_same_tool (RT := Sample.engine) (TL := Sample.idle)
           request p (JObj []) "view_cart" tt eq_refl eq_refl eq_refl eq_refl eq_refl).
Defined.

End AgreementProperties.

(* ===================================================================== *)
(** ** src/server.ts: start-up and shutdown *)
(* ===================================================================== *)

Module LifecycleProperties.
Import Js Lifecycle Notions.
Open Scope string_scope.
Close Scope Q_scope.

Section WithHost.
Context {W Pg : Type} {HS : Host W Pg}.
Variable env : Env.


(** X30.  On SIGINT the browser is closed whatever the attempt to save the
    session did, on the host that attempt left, and after the line that
    tells how it went.  The process exits with code 0 exactly when closing
    the browser went through; when closing throws, the listener throws and
    [process.exit] is not reached. *)
Theorem shutdown_closes_the_browser_whatever_the_save_did (p : Process W) :
  let attempt := bind getPage (fun page => saveAmazonSession page) (host p) in
  let line :=
    match attempt with
    | Ok _ _ => SavedBeforeShutdown
    | Raise e _ => ShutdownSaveFailed e
    end in
  (forall h2,
      closeBrowser (world_after attempt) = Ok tt h2 ->
      SIGINT p = Ok tt {| host := h2;
                          console := (console p ++ [ShuttingDown; line])%list;
                          intervals := intervals p;
                          exited := Some 0%Z |}) /\
  (forall e h2,
      closeBrowser (world_after attempt) = Raise e h2 ->
      SIGINT p = Raise e {| host := h2;
                            console := (console p ++ [ShuttingDown; line])%list;
                            intervals := intervals p;
                            exited := exited p |}).
Proof.
  intros attempt line. subst attempt line.
  unfold SIGINT, console_print, process_exit, on_host, lift, modify, try_catch.
  unfold bind. simpl.
  destruct (getPage (host p)) as [pg h1|e1 h1]; simpl.
  - destruct (saveAmazonSession pg h1) as [[] h|e1 h]; simpl;
      (split; [intros h2 Hc|intros e h2 Hc]); rewrite Hc; simpl;
      rewrite <- !app_assoc; reflexivity.
  - (split; [intros h2 Hc|intros e h2 Hc]); rewrite Hc; simpl;
      rewrite <- !app_assoc; reflexivity.
Qed.

End WithHost.


Lemma shutdown_closes_the_browser_whatever_the_save_did_witness :
  SIGINT (HS := SampleHost.laptop) (SampleHost.booting false)
  = Ok tt {| host := false;
             console := [ShuttingDown;
                         ShutdownSaveFailed (ErrorObject "Could not find Chrome")];
             intervals := [];
             exited := Some 0%Z |}.
Proof.
  exact (proj1 (shutdown_closes_the_browser_whatever_the_save_did
                  (HS := SampleHost.laptop) (SampleHost.booting false))
               false eq_refl).
Defined.

End LifecycleProperties.
